(** * Transaction reconciliation: ingestion and explicit categorization

    A shallow embedding of the categorization logic of the Plaid routes
    (the rule table [AUTO_CATEGORIZE_PLAID_CATEGORIES], the helper
    [processTransactionsForCategorization] and the handler of
    [POST /categorize]) over an explicit model of the two tables they
    read and write, followed by the properties of that logic.

    Conventions.
    - A [string] is the UTF-8 text of a well-formed JavaScript string,
      the bytes the driver sends to the database; the case conversions
      are the ASCII ones (the rule table is ASCII).
    - A property that may be missing is an [option].
    - The database is passed explicitly.  Each [pool.query] either is
      run by the database, or is rejected and changes nothing.  A
      statement is rejected when a parameter is a text that holds
      [U+0000] or a value does not fit a column that the source declares
      (this is written out, see [text_param], [varchar] and
      [jsonb_takes]), and whenever the [Connection] says so: that covers
      the connection itself, and every refusal that is not computed (a
      value that a column of [manual_review_transactions], whose
      declaration is not in the source, does not take; a JSON text the
      [JSONB] column refuses for another reason than the ones written
      out).
    - A [SELECT] without [ORDER BY] returns its rows in the order the
      database chooses; in the model that is the order of the list that
      stands for the table.  The database may move a row that it
      updates, so what a write does to such a result is stated up to
      order.
    - [await Promise.all(ps)] over statements that were already dispatched
      lets every one of them run (in dispatch order) and rejects when at
      least one of them was rejected.
    - [CURRENT_TIMESTAMP] is one value [now] for the statements of one
      call.
    - The user id is the one of the authenticated request, so the
      foreign key to [users] holds and is not modelled. *)

From stdpp Require Import base decidable option list strings gmap.
From Stdlib Require Import ZArith Ascii String Lia.
From Stdlib Require Import Sorted.

Local Open Scope string_scope.
Local Open Scope Z_scope.

(** ** JavaScript string helpers used by the classifier *)

Module Js.

Definition is_upper (c : ascii) : bool :=
  let n := N_of_ascii c in (N.leb 65 n && N.leb n 90)%bool.

Definition is_lower (c : ascii) : bool :=
  let n := N_of_ascii c in (N.leb 97 n && N.leb n 122)%bool.

Definition lower_char (c : ascii) : ascii :=
  if is_upper c then ascii_of_N (N_of_ascii c + 32) else c.

Definition upper_char (c : ascii) : ascii :=
  if is_lower c then ascii_of_N (N_of_ascii c - 32) else c.

Definition map_chars (f : ascii -> ascii) : string -> string :=
  fix go (s : string) : string :=
    match s with
    | EmptyString => EmptyString
    | String c rest => String (f c) (go rest)
    end.

(** [s.replace(/_/g, ' ')] *)
Definition replace_underscores : string -> string :=
  map_chars (fun c => if Ascii.eqb c "_" then " "%char else c).

(** [s.toLowerCase()] and [s.toUpperCase()] *)
Definition toLowerCase : string -> string := map_chars lower_char.
Definition toUpperCase : string -> string := map_chars upper_char.

(** [s.split(sep)] for a one-character separator: never the empty
    array, the empty string splits into one empty word. *)
Fixpoint split (sep : ascii) (s : string) : list string :=
  match s with
  | EmptyString => [EmptyString]
  | String c rest =>
      if Ascii.eqb c sep then EmptyString :: split sep rest
      else match split sep rest with
           | w :: ws => String c w :: ws
           | [] => [String c EmptyString]
           end
  end.

(** [words.join(sep)] *)
Fixpoint join (sep : string) (words : list string) : string :=
  match words with
  | [] => EmptyString
  | [w] => w
  | w :: ws => w ++ sep ++ join sep ws
  end.

(** [s.charAt(0)] is the empty string on the empty string. *)
Definition charAt0 (s : string) : string :=
  match s with
  | EmptyString => EmptyString
  | String c _ => String c EmptyString
  end.

(** [s.slice(1)] *)
Definition slice1 (s : string) : string :=
  match s with
  | EmptyString => EmptyString
  | String _ rest => rest
  end.

(** [arr.includes(x)] on an array of strings. *)
Definition includes (arr : list string) (x : string) : bool :=
  existsb (String.eqb x) arr.

End Js.

(** ** The rule table and the classifier *)

Definition AUTO_CATEGORIZE_PLAID_CATEGORIES : list string :=
  [ "INCOME"; "PAYROLL"; "DEPOSIT"; "TRANSFER_IN"; "TRANSFER_OUT";
    "BANK_FEES"; "ATM_FEES"; "INTEREST_EARNED"; "INTEREST_CHARGED";
    "LOAN_PAYMENTS"; "CREDIT_CARD_PAYMENT"; "INSURANCE"; "TAXES";
    "UTILITIES"; "RENT_AND_UTILITIES"; "MORTGAGE_AND_RENT" ].

(** The expression bound to [cleanCategory]:
    [plaidCategory.replace(/_/g, ' ').toLowerCase().split(' ')
       .map(word => word.charAt(0).toUpperCase() + word.slice(1)).join(' ')]. *)
Definition cleanCategory (plaidCategory : string) : string :=
  Js.join " "
    (map (fun word => Js.toUpperCase (Js.charAt0 word) ++ Js.slice1 word)
         (Js.split " " (Js.toLowerCase (Js.replace_underscores plaidCategory)))).

(** The callback of [.map]: [word.charAt(0).toUpperCase() + word.slice(1)]. *)
Definition capitalize (word : string) : string :=
  Js.toUpperCase (Js.charAt0 word) ++ Js.slice1 word.

(** Capitalising the first character of every word of a string whose
    characters are already in their final case. *)
Fixpoint capitalize_words (at_word_start : bool) (s : string) : string :=
  match s with
  | EmptyString => EmptyString
  | String c rest =>
      String (if at_word_start then Js.upper_char c else c)
             (capitalize_words (Ascii.eqb c " ") rest)
  end.

(** The display category as the specification words it: one pass that
    turns underscores into spaces, lowercases, and capitalises the first
    character of every word (a word starts at the beginning and after
    every space). *)
Fixpoint title_case_from (at_word_start : bool) (s : string) : string :=
  match s with
  | EmptyString => EmptyString
  | String c rest =>
      let c1 := Js.lower_char (if Ascii.eqb c "_" then " "%char else c) in
      String (if at_word_start then Js.upper_char c1 else c1)
             (title_case_from (Ascii.eqb c1 " ") rest)
  end.

Definition display_category (code : string) : string := title_case_from true code.

(** ** Provider transactions *)

(** [personal_finance_category] of a provider transaction. *)
Record PersonalFinanceCategory := {
  primary : option string
}.

(** A provider transaction: the two properties the engine inspects, and
    [json], the text [JSON.stringify(tx)] yields for it. *)
Record Transaction := {
  transaction_id : option string;
  personal_finance_category : option PersonalFinanceCategory;
  json : string
}.

(** [tx.personal_finance_category?.primary] *)
Definition plaidCategory_of (tx : Transaction) : option string :=
  match personal_finance_category tx with
  | None => None
  | Some pfc => primary pfc
  end.

(** Truthiness of a string-valued expression: [undefined] and the empty
    string are falsy. *)
Definition truthy (v : option string) : bool :=
  match v with
  | None => false
  | Some s => negb (String.eqb s EmptyString)
  end.

(** ** The persisted tables *)

(** A row of [transaction_categorizations] as [CREATE TABLE] declares
    it: [user_id INTEGER], [transaction_id VARCHAR(255) NOT NULL],
    [category VARCHAR(100) NOT NULL], [plaid_data JSONB] (nullable) and
    [created_at TIMESTAMP], with [UNIQUE(user_id, transaction_id)].  The
    surrogate [id SERIAL] is left out: no statement below reads it. *)
Record CategorizationRow := {
  c_user_id : Z;
  c_transaction_id : string;
  c_category : string;
  c_plaid_data : option string;
  c_created_at : Z
}.

(** Modelled from the spec: the [CREATE TABLE] of
    [manual_review_transactions] is not in the source.  The columns are
    the ones the specification lists ([user_id], [transaction_id] unique
    per user, [transaction_data], [created_at]); the unique key is the
    one the [ON CONFLICT (user_id, transaction_id)] clause of the insert
    names.  Nothing is assumed on the type of [transaction_id]: a row
    holds the id its insert delivered, [NULL] ([None]) for a record
    without id, and an insert whose id the real column does not take is
    an insert the database rejects (see [Connection]). *)
Record ManualReviewRow := {
  m_user_id : Z;
  m_transaction_id : option string;
  m_transaction_data : option string;
  m_created_at : Z
}.

Record Database := {
  transaction_categorizations : list CategorizationRow;
  manual_review_transactions : list ManualReviewRow
}.

Definition Key : Type := Z * string.

Definition key_eqb (k1 k2 : Key) : bool :=
  (Z.eqb (fst k1) (fst k2) && String.eqb (snd k1) (snd k2))%bool.

(** *** A table with a [UNIQUE] key, and the statements run on it *)

Section Table.

Context {Row : Type} (key : Row -> Key).

(** Some row has the key. *)
Definition has_key (k : Key) (rows : list Row) : bool :=
  existsb (fun r => key_eqb (key r) k) rows.

(** [SELECT * ... WHERE] the key columns equal [k]. *)
Definition rows_of (k : Key) (rows : list Row) : list Row :=
  List.filter (fun r => key_eqb (key r) k) rows.

(** [INSERT ... ON CONFLICT (key) DO NOTHING] *)
Definition insert_do_nothing (r : Row) (rows : list Row) : list Row :=
  if has_key (key r) rows then rows else rows ++ [r].

(** [INSERT ... ON CONFLICT (key) DO UPDATE SET ...], [set] being the
    assignment applied to the conflicting row. *)
Definition insert_do_update (set : Row -> Row) (r : Row) (rows : list Row) : list Row :=
  if has_key (key r) rows
  then map (fun old => if key_eqb (key old) (key r) then set old else old) rows
  else rows ++ [r].

(** [DELETE ... WHERE] the key columns equal [k]. *)
Definition delete_key (k : Key) (rows : list Row) : list Row :=
  List.filter (fun r => negb (key_eqb (key r) k)) rows.

(** A sequence of [DO NOTHING] inserts, in order. *)
Definition insert_all (rs : list Row) (rows : list Row) : list Row :=
  fold_left (fun acc r => insert_do_nothing r acc) rs rows.

End Table.

(** *** The same, for a key column that may hold [NULL]

    A row whose key column is [NULL] has no key ([None]): it is found
    by no lookup and conflicts with no insert. *)

Section NullableTable.

Context {Row : Type} (key : Row -> option Key).

(** The row has the key [k]. *)
Definition key_is (k : Key) (r : Row) : bool :=
  match key r with
  | Some k' => key_eqb k' k
  | None => false
  end.

Definition has_key_n (k : Key) (rows : list Row) : bool :=
  existsb (key_is k) rows.

Definition rows_of_n (k : Key) (rows : list Row) : list Row :=
  List.filter (key_is k) rows.

(** [INSERT ... ON CONFLICT (key) DO NOTHING] *)
Definition insert_do_nothing_n (r : Row) (rows : list Row) : list Row :=
  match key r with
  | Some k => if has_key_n k rows then rows else rows ++ [r]
  | None => rows ++ [r]
  end.

(** [DELETE ... WHERE] the key columns equal [k]. *)
Definition delete_key_n (k : Key) (rows : list Row) : list Row :=
  List.filter (fun r => negb (key_is k r)) rows.

Definition insert_all_n (rs : list Row) (rows : list Row) : list Row :=
  fold_left (fun acc r => insert_do_nothing_n r acc) rs rows.

End NullableTable.

Definition categorization_key (r : CategorizationRow) : Key :=
  (c_user_id r, c_transaction_id r).

Definition manual_review_key (r : ManualReviewRow) : option Key :=
  match m_transaction_id r with
  | Some t => Some (m_user_id r, t)
  | None => None
  end.

Definition has_categorization (k : Key) (db : Database) : bool :=
  has_key categorization_key k (transaction_categorizations db).

Definition has_manual_review (k : Key) (db : Database) : bool :=
  has_key_n manual_review_key k (manual_review_transactions db).

(** ** SQL statements and their execution *)

Inductive Statement :=
| SelectCategorizedIds (user_id : Z)
| SelectManualReviewIds (user_id : Z)
| InsertCategorization (user_id : Z) (tid category plaid_data : option string)
| InsertManualReview (user_id : Z) (tid transaction_data : option string)
| UpsertCategorization (user_id : Z) (tid category plaid_data : option string)
| DeleteManualReview (user_id : Z) (tid : option string).

(** *** Text bound to a [VARCHAR(n)] column

    The length of a text is counted in characters.  In UTF-8 a
    character is one byte that is not a continuation byte ([10xxxxxx]),
    followed by its continuation bytes. *)

Definition is_continuation (c : ascii) : bool :=
  let n := N_of_ascii c in (N.leb 128 n && N.ltb n 192)%bool.

Fixpoint char_length (s : string) : nat :=
  match s with
  | EmptyString => 0%nat
  | String c rest =>
      if is_continuation c then char_length rest else S (char_length rest)
  end.

(** The first [n] characters of a text, and what follows them. *)
Fixpoint clip (n : nat) (s : string) : string :=
  match s with
  | EmptyString => EmptyString
  | String c rest =>
      if is_continuation c then String c (clip n rest)
      else match n with
           | O => EmptyString
           | S m => String c (clip m rest)
           end
  end.

Fixpoint excess (n : nat) (s : string) : string :=
  match s with
  | EmptyString => EmptyString
  | String c rest =>
      if is_continuation c then excess n rest
      else match n with
           | O => String c rest
           | S m => excess m rest
           end
  end.

(** The text holds the character [U+0000], which no text value of the
    database can hold. *)
Fixpoint has_nul (s : string) : bool :=
  match s with
  | EmptyString => false
  | String c rest => (Ascii.eqb c Ascii.zero || has_nul rest)%bool
  end.

Fixpoint all_spaces (s : string) : bool :=
  match s with
  | EmptyString => true
  | String c rest => (Ascii.eqb c " "%char && all_spaces rest)%bool
  end.

(** A text parameter as the driver sends it: the database takes no
    text that holds [U+0000], whatever the column it is meant for;
    [NULL] is no text. *)
Definition text_param (v : option string) : bool :=
  match v with
  | Some s => negb (has_nul s)
  | None => true
  end.

(** What a [VARCHAR(n)] column stores for a text: the text itself when
    it has at most [n] characters; its first [n] characters when the
    characters in excess are all spaces; and nothing ([None]: the
    statement is an error) when another character is in excess, or when
    the text holds [U+0000]. *)
Definition varchar (n : nat) (s : string) : option string :=
  if has_nul s then None
  else if all_spaces (excess n s) then Some (clip n s)
  else None.

(** A parameter bound to a [VARCHAR(n) NOT NULL] column: [NULL] is
    refused as well. *)
Definition varchar_not_null (n : nat) (v : option string) : option string :=
  match v with
  | Some s => varchar n s
  | None => None
  end.

(** *** Text bound to a [JSONB] column

    The text is the one [JSON.stringify] yields, in which a backslash
    occurs only inside a string and starts an escape.  The column does
    not take a document one of whose strings holds the character
    [U+0000], which [JSON.stringify] writes as the escape [\u0000]; a
    backslash that is itself escaped starts no escape.  [NULL] is
    taken.  What else the column may refuse is not computed here: it is
    a statement the [Connection] rejects. *)
Fixpoint has_nul_escape (s : string) : bool :=
  match s with
  | EmptyString => false
  | String c rest =>
      if Ascii.eqb c "\"%char
      then match rest with
           | EmptyString => false
           | String e rest' =>
               if Ascii.eqb e "u"%char
               then (String.prefix "0000" rest' || has_nul_escape rest')%bool
               else has_nul_escape rest'
           end
      else has_nul_escape rest
  end.

Definition jsonb_takes (v : option string) : bool :=
  match v with
  | Some text => (negb (has_nul text) && negb (has_nul_escape text))%bool
  | None => true
  end.

(** The row [VALUES ($1, $2, $3, $4)] builds for
    [transaction_categorizations], [created_at] taking its default
    [CURRENT_TIMESTAMP]: the id and the category are the ones the
    columns store, [plaid_data] is the document of the text sent;
    [None] is a value that a column refuses. *)
Definition categorization_values (now user_id : Z)
    (tid category plaid_data : option string) : option CategorizationRow :=
  match varchar_not_null 255 tid, varchar_not_null 100 category with
  | Some t, Some c =>
      if jsonb_takes plaid_data
      then Some {| c_user_id := user_id; c_transaction_id := t; c_category := c;
                   c_plaid_data := plaid_data; c_created_at := now |}
      else None
  | _, _ => None
  end.

(** The row [VALUES ($1, $2, $3)] builds for
    [manual_review_transactions]: the id and the data as they were
    sent.  [None]: a parameter is a text the database does not take.
    What the columns of this table may refuse beside that is not
    computed: it is a statement the [Connection] rejects. *)
Definition manual_review_values (now user_id : Z)
    (tid transaction_data : option string) : option ManualReviewRow :=
  if (text_param tid && text_param transaction_data)%bool
  then Some {| m_user_id := user_id; m_transaction_id := tid;
               m_transaction_data := transaction_data; m_created_at := now |}
  else None.

(** [DO UPDATE SET category = $3, plaid_data = $4, created_at =
    CURRENT_TIMESTAMP] with the values of the proposed row. *)
Definition overwrite_with (proposed old : CategorizationRow) : CategorizationRow :=
  {| c_user_id := c_user_id old;
     c_transaction_id := c_transaction_id old;
     c_category := c_category proposed;
     c_plaid_data := c_plaid_data proposed;
     c_created_at := c_created_at proposed |}.

Definition with_categorizations (db : Database) (rows : list CategorizationRow) : Database :=
  {| transaction_categorizations := rows;
     manual_review_transactions := manual_review_transactions db |}.

Definition with_manual_review (db : Database) (rows : list ManualReviewRow) : Database :=
  {| transaction_categorizations := transaction_categorizations db;
     manual_review_transactions := rows |}.

(** [INSERT INTO transaction_categorizations ... ON CONFLICT (user_id,
    transaction_id) DO NOTHING]; [None] is a constraint violation. *)
Definition insert_categorization_do_nothing
    (now user_id : Z) (tid category plaid_data : option string)
    (db : Database) : option Database :=
  match categorization_values now user_id tid category plaid_data with
  | Some row =>
      Some (with_categorizations db
              (insert_do_nothing categorization_key row (transaction_categorizations db)))
  | None => None
  end.

(** [INSERT INTO manual_review_transactions ... ON CONFLICT (user_id,
    transaction_id) DO NOTHING]. *)
Definition insert_manual_review_do_nothing
    (now user_id : Z) (tid transaction_data : option string)
    (db : Database) : option Database :=
  match manual_review_values now user_id tid transaction_data with
  | Some row =>
      Some (with_manual_review db
              (insert_do_nothing_n manual_review_key row
                 (manual_review_transactions db)))
  | None => None
  end.

(** [INSERT INTO transaction_categorizations ... ON CONFLICT (user_id,
    transaction_id) DO UPDATE SET category = $3, plaid_data = $4,
    created_at = CURRENT_TIMESTAMP]. *)
Definition upsert_categorization
    (now user_id : Z) (tid category plaid_data : option string)
    (db : Database) : option Database :=
  match categorization_values now user_id tid category plaid_data with
  | Some row =>
      Some (with_categorizations db
              (insert_do_update categorization_key (overwrite_with row) row
                 (transaction_categorizations db)))
  | None => None
  end.

(** [DELETE FROM manual_review_transactions WHERE user_id = $1 AND
    transaction_id = $2]: the rows whose id is the parameter, as it was
    sent; a [NULL] parameter matches no row. *)
Definition delete_manual_review
    (user_id : Z) (tid : option string) (db : Database) : Database :=
  match tid with
  | Some t =>
      with_manual_review db
        (delete_key_n manual_review_key (user_id, t) (manual_review_transactions db))
  | None => db
  end.

(** The effect of a statement on the tables, once it has reached the
    database. *)
Definition execute (now : Z) (st : Statement) (db : Database) : option Database :=
  match st with
  | SelectCategorizedIds _ | SelectManualReviewIds _ => Some db
  | InsertCategorization u t c d => insert_categorization_do_nothing now u t c d db
  | InsertManualReview u t d => insert_manual_review_do_nothing now u t d db
  | UpsertCategorization u t c d => upsert_categorization now u t c d db
  | DeleteManualReview u t =>
      if text_param t then Some (delete_manual_review u t db) else None
  end.

(** The connection pool seen from the handlers: which statements the
    database gets and agrees to run.  A statement for which the answer
    is [false] is a rejected [pool.query] that left the tables alone:
    the connection failed, or the database refused a value for a reason
    that is not computed above (a document the [JSONB] column refuses
    for another reason than [U+0000]; an id or a text that a column of
    [manual_review_transactions] does not take).  Whether a statement
    is refused for such a reason depends on the statement only. *)
Definition Connection : Type := Statement -> bool.

Inductive Outcome (A : Type) :=
| Fulfilled (a : A)
| Rejected.

Arguments Fulfilled {A} a.
Arguments Rejected {A}.

(** One [pool.query(st)] whose rows are not used: the tables afterwards,
    and whether the promise was fulfilled. *)
Definition pool_query (conn : Connection) (now : Z) (st : Statement)
    (db : Database) : Database * bool :=
  if conn st then
    match execute now st db with
    | Some db' => (db', true)
    | None => (db, false)
    end
  else (db, false).

(** [SELECT transaction_id FROM transaction_categorizations WHERE
    user_id = $1], then [new Set(rows.map(row => row.transaction_id))]. *)
Definition select_categorized_ids (conn : Connection) (user_id : Z)
    (db : Database) : Outcome (gset string) :=
  if conn (SelectCategorizedIds user_id) then
    Fulfilled (list_to_set
                 (map c_transaction_id
                      (List.filter (fun r => Z.eqb (c_user_id r) user_id)
                                   (transaction_categorizations db))))
  else Rejected.

(** [SELECT transaction_id FROM manual_review_transactions WHERE
    user_id = $1], then the [Set] of the ids; only the strings of the
    set are kept, an id [null] is equal to no id of a record. *)
Definition select_manual_review_ids (conn : Connection) (user_id : Z)
    (db : Database) : Outcome (gset string) :=
  if conn (SelectManualReviewIds user_id) then
    Fulfilled (list_to_set
                 (omap m_transaction_id
                      (List.filter (fun r => Z.eqb (m_user_id r) user_id)
                                   (manual_review_transactions db))))
  else Rejected.

(** [ids.has(tx.transaction_id)]: the sets hold strings and, for a row
    without id, [null]; a missing id ([undefined]) is never found. *)
Definition Set_has (ids : gset string) (v : option string) : bool :=
  match v with
  | Some t => bool_decide (t ∈ ids)
  | None => false
  end.

(** [await Promise.all(promises)] over statements dispatched in this
    order: all of them run; the result is [false] when one was rejected. *)
Fixpoint Promise_all (conn : Connection) (now : Z) (sts : list Statement)
    (db : Database) : Database * bool :=
  match sts with
  | [] => (db, true)
  | st :: rest =>
      let '(db1, ok1) := pool_query conn now st db in
      let '(db2, ok2) := Promise_all conn now rest db1 in
      (db2, (ok1 && ok2)%bool)
  end.

(** ** Ingestion: [processTransactionsForCategorization] *)

Record Counts := {
  autoCount : nat;
  manualCount : nat
}.

(** The statement pushed for an auto-categorized transaction. *)
Definition auto_insert (userId : Z) (tx : Transaction) (plaidCategory : string) : Statement :=
  InsertCategorization userId (transaction_id tx)
    (Some (cleanCategory plaidCategory)) (Some (json tx)).

(** The statement issued for a transaction kept for manual review. *)
Definition manual_insert (userId : Z) (tx : Transaction) : Statement :=
  InsertManualReview userId (transaction_id tx) (Some (json tx)).

(** The [for (const tx of transactions)] loop, with its two accumulators
    [autoCategorizationPromises] and [manualReviewTransactions]. *)
Fixpoint classify_loop (userId : Z) (categorizedIds manualReviewIds : gset string)
    (transactions : list Transaction)
    (autoCategorizationPromises : list Statement)
    (manualReviewTransactions : list Transaction)
    : list Statement * list Transaction :=
  match transactions with
  | [] => (autoCategorizationPromises, manualReviewTransactions)
  | tx :: rest =>
      if (Set_has categorizedIds (transaction_id tx)
          || Set_has manualReviewIds (transaction_id tx))%bool
      then classify_loop userId categorizedIds manualReviewIds rest
             autoCategorizationPromises manualReviewTransactions
      else
        match plaidCategory_of tx with
        | Some plaidCategory =>
            if (truthy (Some plaidCategory)
                && Js.includes AUTO_CATEGORIZE_PLAID_CATEGORIES plaidCategory)%bool
            then classify_loop userId categorizedIds manualReviewIds rest
                   (autoCategorizationPromises ++ [auto_insert userId tx plaidCategory])
                   manualReviewTransactions
            else classify_loop userId categorizedIds manualReviewIds rest
                   autoCategorizationPromises (manualReviewTransactions ++ [tx])
        | None =>
            classify_loop userId categorizedIds manualReviewIds rest
              autoCategorizationPromises (manualReviewTransactions ++ [tx])
        end
  end.

(** The part of the function after the two lookups: the loop, then the
    two awaited groups of inserts, each behind its [length > 0] test.
    The auto inserts are dispatched while the loop runs; the
    manual-review inserts are only built once the first [Promise.all]
    has been fulfilled. *)
Definition classify_and_persist (conn : Connection) (now : Z)
    (transactions : list Transaction) (userId : Z)
    (categorizedIds manualReviewIds : gset string)
    (db : Database) : Database * Outcome Counts :=
  let '(autoCategorizationPromises, manualReviewTransactions) :=
    classify_loop userId categorizedIds manualReviewIds transactions [] [] in
  let '(db1, ok1) :=
    if Nat.ltb 0 (List.length autoCategorizationPromises)
    then Promise_all conn now autoCategorizationPromises db
    else (db, true) in
  if ok1 then
    let '(db2, ok2) :=
      if Nat.ltb 0 (List.length manualReviewTransactions)
      then
        let insertPromises := map (manual_insert userId) manualReviewTransactions in
        Promise_all conn now insertPromises db1
      else (db1, true) in
    if ok2 then
      (db2, Fulfilled {| autoCount := List.length autoCategorizationPromises;
                         manualCount := List.length manualReviewTransactions |})
    else (db2, Rejected)
  else (db1, Rejected).

Definition processTransactionsForCategorization (conn : Connection) (now : Z)
    (transactions : list Transaction) (userId : Z)
    (db : Database) : Database * Outcome Counts :=
  if Nat.eqb (List.length transactions) 0
  then (db, Fulfilled {| autoCount := 0; manualCount := 0 |})
  else
    match select_categorized_ids conn userId db with
    | Rejected => (db, Rejected)
    | Fulfilled categorizedIds =>
        match select_manual_review_ids conn userId db with
        | Rejected => (db, Rejected)
        | Fulfilled manualReviewIds =>
            classify_and_persist conn now transactions userId
              categorizedIds manualReviewIds db
        end
    end.

(** ** Explicit categorization: the handler of [POST /categorize] *)

(** The body of the request: [transaction_id], [category], and the text
    [JSON.stringify(plaid_data)] ([None] when the property is absent). *)
Record CategorizeBody := {
  body_transaction_id : option string;
  body_category : option string;
  body_plaid_data : option string
}.

(** The upsert with [RETURNING *]: the tables afterwards and the row
    returned, which carries the values just written. *)
Definition pool_query_upsert (conn : Connection) (now user_id : Z)
    (body : CategorizeBody) (db : Database)
    : Database * Outcome CategorizationRow :=
  let st := UpsertCategorization user_id (body_transaction_id body)
              (body_category body) (body_plaid_data body) in
  if conn st then
    match execute now st db,
          categorization_values now user_id (body_transaction_id body)
            (body_category body) (body_plaid_data body) with
    | Some db', Some row => (db', Fulfilled row)
    | _, _ => (db, Rejected)
    end
  else (db, Rejected).

(** The handler; [Fulfilled row] is the answer [{success: true,
    categorization: row}], [Rejected] the answer with status 500. *)
Definition categorize (conn : Connection) (now user_id : Z)
    (body : CategorizeBody) (db : Database)
    : Database * Outcome CategorizationRow :=
  match pool_query_upsert conn now user_id body db with
  | (db1, Fulfilled row) =>
      let '(db2, ok) :=
        pool_query conn now (DeleteManualReview user_id (body_transaction_id body)) db1 in
      if ok then (db2, Fulfilled row) else (db2, Rejected)
  | (db1, Rejected) => (db1, Rejected)
  end.

(** ** Reading the tables *)

Definition categorization_of (k : Key) (db : Database) : list CategorizationRow :=
  rows_of categorization_key k (transaction_categorizations db).

Definition manual_review_of (k : Key) (db : Database) : list ManualReviewRow :=
  rows_of_n manual_review_key k (manual_review_transactions db).

(** The steady-state invariant of the data model: each table holds a
    key at most once, and no key is in both tables. *)
Definition unique_keys (db : Database) : Prop :=
  NoDup (map categorization_key (transaction_categorizations db)) /\
  NoDup (omap manual_review_key (manual_review_transactions db)).

Definition resolved_xor_pending (db : Database) : Prop :=
  forall k : Key, has_categorization k db = true -> has_manual_review k db = false.

Definition steady (db : Database) : Prop :=
  unique_keys db /\ resolved_xor_pending db.

(** ** The dedup filter and the decision, as the specification words them *)

Inductive Decision :=
| Auto (category : string)
| Manual.

(** "If absent or not in the rule table, decision = manual; if present
    and matched, decision = auto with the derived display category." *)
Definition decision_spec (tx : Transaction) : Decision :=
  match plaidCategory_of tx with
  | None => Manual
  | Some code =>
      if bool_decide (code ∈ AUTO_CATEGORIZE_PLAID_CATEGORIES)
      then Auto (display_category code)
      else Manual
  end.

(** "The subset whose transaction_id is present in neither the user's
    existing Categorization set nor their existing ManualReviewEntry
    set." *)
Definition known_spec (userId : Z) (db : Database) (tx : Transaction) : bool :=
  match transaction_id tx with
  | Some t => (has_categorization (userId, t) db || has_manual_review (userId, t) db)%bool
  | None => false
  end.

Definition dedup_spec (userId : Z) (db : Database)
    (transactions : list Transaction) : list Transaction :=
  List.filter (fun tx => negb (known_spec userId db tx)) transactions.

(** The statements the specification has issued for a deduplicated
    transaction, by decision. *)
Definition auto_statements_spec (userId : Z) (txs : list Transaction) : list Statement :=
  omap (fun tx => match decision_spec tx with
                  | Auto category =>
                      Some (InsertCategorization userId (transaction_id tx)
                              (Some category) (Some (json tx)))
                  | Manual => None
                  end) txs.

Definition manual_transactions_spec (txs : list Transaction) : list Transaction :=
  List.filter (fun tx => match decision_spec tx with Manual => true | Auto _ => false end) txs.

(** ** What a group of dispatched inserts writes *)

Definition is_categorization_insert (st : Statement) : bool :=
  match st with InsertCategorization _ _ _ _ => true | _ => false end.

Definition is_manual_review_insert (st : Statement) : bool :=
  match st with InsertManualReview _ _ _ => true | _ => false end.

(** The row proposed to [transaction_categorizations] by a statement
    that the database runs and whose values meet the column
    constraints. *)
Definition categorization_proposed (conn : Connection) (now : Z)
    (st : Statement) : option CategorizationRow :=
  match st with
  | InsertCategorization u t c d =>
      if conn st then categorization_values now u t c d else None
  | _ => None
  end.

Definition manual_review_proposed (conn : Connection) (now : Z)
    (st : Statement) : option ManualReviewRow :=
  match st with
  | InsertManualReview u t d =>
      if conn st then manual_review_values now u t d else None
  | _ => None
  end.

(** A write fails when the database does not run it or when one of its
    values is refused. *)
Definition write_fails (conn : Connection) (now : Z) (st : Statement) : bool :=
  match st with
  | InsertCategorization _ _ _ _ =>
      match categorization_proposed conn now st with Some _ => false | None => true end
  | InsertManualReview _ _ _ =>
      match manual_review_proposed conn now st with Some _ => false | None => true end
  | _ => negb (conn st)
  end.

(** Records of a batch that share a transaction id are decided alike. *)
Definition is_manual (d : Decision) : bool :=
  match d with Manual => true | Auto _ => false end.

Definition coherent_batch (transactions : list Transaction) : Prop :=
  forall tx1 tx2,
    In tx1 transactions -> In tx2 transactions ->
    transaction_id tx1 = transaction_id tx2 ->
    is_manual (decision_spec tx1) = is_manual (decision_spec tx2).

(** The rows the auto inserts and the manual-review inserts of a
    deduplicated batch propose, in dispatch order. *)
Definition auto_rows (conn : Connection) (now userId : Z)
    (fresh : list Transaction) : list CategorizationRow :=
  omap (categorization_proposed conn now) (auto_statements_spec userId fresh).

Definition manual_rows (conn : Connection) (now userId : Z)
    (fresh : list Transaction) : list ManualReviewRow :=
  omap (manual_review_proposed conn now)
       (map (manual_insert userId) (manual_transactions_spec fresh)).

(** Partition and persist, over a deduplicated batch: the auto rows go
    to [transaction_categorizations]; if none of those writes failed the
    manual-review rows go to [manual_review_transactions]; the counts
    are returned when no write failed. *)
Definition partition_and_persist_spec (conn : Connection) (now userId : Z)
    (db : Database) (fresh : list Transaction) : Database * Outcome Counts :=
  let autos := auto_statements_spec userId fresh in
  let manuals := manual_transactions_spec fresh in
  let db1 := with_categorizations db
               (insert_all categorization_key (auto_rows conn now userId fresh)
                  (transaction_categorizations db)) in
  let db2 := with_manual_review db1
               (insert_all_n manual_review_key (manual_rows conn now userId fresh)
                  (manual_review_transactions db)) in
  if existsb (write_fails conn now) autos then (db1, Rejected)
  else if existsb (write_fails conn now) (map (manual_insert userId) manuals)
       then (db2, Rejected)
       else (db2, Fulfilled {| autoCount := List.length autos;
                               manualCount := List.length manuals |}).

(** [tx.transaction_id === t] *)
Definition has_id (t : string) (tx : Transaction) : bool :=
  match transaction_id tx with
  | Some t' => String.eqb t' t
  | None => false
  end.

(** The id under which [transaction_categorizations] stores the row of
    a record: [None] when the record has no id or the column refuses
    it. *)
Definition stored_id (tx : Transaction) : option string :=
  varchar_not_null 255 (transaction_id tx).

(** The record has an id, and a [VARCHAR(255)] column keeps that id as
    delivered: the id has at most 255 characters. *)
Definition id_kept (tx : Transaction) : bool :=
  match transaction_id tx with
  | Some t =>
      match varchar 255 t with
      | Some t' => String.eqb t' t
      | None => false
      end
  | None => false
  end.

(** The id of the record, if it has one, is not cut short by a
    [VARCHAR(255)] column: it is not an id of more than 255 characters
    whose characters in excess are all spaces. *)
Definition id_not_cut (tx : Transaction) : bool :=
  match transaction_id tx with
  | Some t =>
      match varchar 255 t with
      | Some t' => String.eqb t' t
      | None => true
      end
  | None => true
  end.

(** The insert the ingestion step issues for a record, by decision. *)
Definition statement_for (userId : Z) (tx : Transaction) : Statement :=
  match decision_spec tx with
  | Auto category =>
      InsertCategorization userId (transaction_id tx) (Some category) (Some (json tx))
  | Manual => manual_insert userId tx
  end.

(** ** Concrete scenarios *)

Module Scenario.

(** A provider record with the given id and category code. *)
Definition record (tid code : option string) : Transaction :=
  {| transaction_id := tid;
     personal_finance_category := Some {| primary := code |};
     json := "{}" |}.

Definition T1_income : Transaction := record (Some "T1") (Some "INCOME").
Definition T2_transfer : Transaction := record (Some "T2") (Some "TRANSFER_IN").
Definition T2_food : Transaction := record (Some "T2") (Some "FOOD_AND_DRINK").
Definition T3_plain : Transaction :=
  {| transaction_id := Some "T3"; personal_finance_category := None; json := "{}" |}.
Definition T1_uncoded : Transaction := record (Some "T1") None.

Definition empty_db : Database :=
  {| transaction_categorizations := []; manual_review_transactions := [] |}.

(** User 1 has categorized [T1] by hand as "Salary". *)
Definition T1_row : CategorizationRow :=
  {| c_user_id := 1; c_transaction_id := "T1"; c_category := "Salary";
     c_plaid_data := Some "{}"; c_created_at := 5 |}.

Definition T1_categorized : Database :=
  {| transaction_categorizations := [T1_row]; manual_review_transactions := [] |}.

(** User 1 has [T2] waiting for review. *)
Definition T2_pending : Database :=
  {| transaction_categorizations := [];
     manual_review_transactions :=
       [ {| m_user_id := 1; m_transaction_id := Some "T2";
            m_transaction_data := Some "{}"; m_created_at := 5 |} ] |}.

(** The request that files [T2] under "Groceries". *)
Definition T2_groceries : CategorizeBody :=
  {| body_transaction_id := Some "T2"; body_category := Some "Groceries";
     body_plaid_data := None |}.

(** Every statement reaches the database. *)
Definition online : Connection := fun _ => true.

(** Every statement reaches the database but the insert of [T1]'s
    categorization. *)
Definition losing_T1 : Connection :=
  fun st =>
    match st with
    | InsertCategorization _ (Some t) _ _ => negb (String.eqb t "T1")
    | _ => true
    end.

(** A first delivery to an empty database. *)
Definition mixed_batch : list Transaction := [T1_income; T2_food; T3_plain].

Definition after_mixed_batch : Database :=
  fst (processTransactionsForCategorization online 7 mixed_batch 1 empty_db).

(** The insert of [T1]'s categorization is lost on the way. *)
Definition lost_write_run : Database * Outcome Counts :=
  processTransactionsForCategorization losing_T1 7 [T1_income; T2_food] 1 empty_db.



(** The id [T1] comes twice, with a rule-matching code and without. *)
Definition clash_run : Database * Outcome Counts :=
  processTransactionsForCategorization online 7 [T1_income; T1_uncoded] 1 empty_db.

(** An id of 255 characters, and the same id followed by a space. *)
Definition long_id : string := string_of_list_ascii (repeat "a"%char 255).
Definition padded_id : string := long_id ++ " ".

(** A rule-matching record under the padded id, delivered twice. *)
Definition padded_income : Transaction := record (Some padded_id) (Some "INCOME").

Definition padded_first_run : Database * Outcome Counts :=
  processTransactionsForCategorization online 7 [padded_income] 1 empty_db.

Definition padded_second_run : Database * Outcome Counts :=
  processTransactionsForCategorization online 8 [padded_income] 1 (fst padded_first_run).

(** The request that files the padded id under "Groceries", and the
    delivery of the same id afterwards. *)
Definition padded_groceries : CategorizeBody :=
  {| body_transaction_id := Some padded_id; body_category := Some "Groceries";
     body_plaid_data := None |}.

Definition padded_categorized : Database * Outcome CategorizationRow :=
  categorize online 9 1 padded_groceries empty_db.

Definition padded_redelivered : Database * Outcome Counts :=
  processTransactionsForCategorization online 10 [padded_income] 1
    (fst padded_categorized).

(** A category of 100 characters followed by a space. *)
Definition long_category : string := string_of_list_ascii (repeat "c"%char 100).

Definition padded_category : CategorizeBody :=
  {| body_transaction_id := Some "T2"; body_category := Some (long_category ++ " ");
     body_plaid_data := None |}.



(** User 1 has the id of 255 characters waiting for review. *)
Definition long_pending : Database :=
  {| transaction_categorizations := [];
     manual_review_transactions :=
       [ {| m_user_id := 1; m_transaction_id := Some long_id;
            m_transaction_data := Some "{}"; m_created_at := 5 |} ] |}.

(** Every statement is run but the delete of a review entry. *)
Definition losing_delete : Connection :=
  fun st =>
    match st with
    | DeleteManualReview _ _ => false
    | _ => true
    end.

Definition undeleted_run : Database * Outcome CategorizationRow :=
  categorize losing_delete 9 1 T2_groceries T2_pending.

Definition padded_categorize_run : Database * Outcome CategorizationRow :=
  categorize online 9 1 padded_groceries long_pending.

Definition padded_ingestion_run : Database * Outcome Counts :=
  processTransactionsForCategorization online 7 [padded_income] 1 long_pending.

End Scenario.

(** * The other routes of the Plaid router *)

(** ** Replies, statements and the provider *)

(** What a handler answers: [res.json(body)], or an error status. *)
Inductive Reply (A : Type) :=
| Json (body : A)
| NotFound
| ServerError.

Arguments Json {A} body.
Arguments NotFound {A}.
Arguments ServerError {A}.

(** A row of [user_banks] as [CREATE TABLE IF NOT EXISTS user_banks]
    declares it: [id SERIAL PRIMARY KEY], [user_id INTEGER],
    [item_id VARCHAR(255) NOT NULL], [access_token VARCHAR(500) NOT
    NULL], [institution_name VARCHAR(255)] (nullable), [created_at] and
    [updated_at], with [UNIQUE(user_id, item_id)]. *)
Record BankRow := {
  b_id : Z;
  b_user_id : Z;
  b_item_id : string;
  b_access_token : string;
  b_institution_name : option string;
  b_created_at : Z;
  b_updated_at : Z
}.

Definition bank_key (r : BankRow) : Key := (b_user_id r, b_item_id r).

(** The statements of the other routes.  [bankId] is the value the
    path parameter has as a 32-bit [INTEGER], the type of the [id]
    column it is compared with; [None] when its text is not the text of
    such a value (the statement is then an error), see [int4]. *)
Inductive RouteStatement :=
| SelectCategorizationPairs (user_id : Z)
| SelectUserBanks (user_id : Z)
| SelectManualReviewData (user_id : Z)
| CreateCategorizationsTable
| SelectCategorizations (user_id : Z)
| CreateUserBanksTable
| UpsertUserBank (user_id : Z) (item_id access_token institution_name : string)
| SelectBank (bankId : option Z) (user_id : Z)
| DeleteBank (bankId : option Z) (user_id : Z).

(** Which of these statements reach the database. *)
Definition Pool : Type := RouteStatement -> bool.

(** An account as the provider sends it: the properties the routes
    read, and the rest as text. *)
Record Account := {
  account_id : string;
  account_name : option string;
  account_type : option string;
  account_subtype : option string;
  account_json : string
}.

Record Holding := {
  holding_account_id : string;
  holding_security_id : string;
  holding_json : string
}.

Record Security := {
  security_id : string;
  security_json : string
}.

(** [holdingsResponse.data]: [holdings] and [securities] may be absent. *)
Record HoldingsData := {
  holdings : option (list Holding);
  securities : option (list Security)
}.

(** The provider's client.  Each call answers with its data, or fails
    ([None], [false]): the promise is rejected. *)
Record PlaidClient := {
  transactionsGet : string -> string -> string -> option (list Transaction);
  accountsGet : string -> option (list Account);
  investmentsHoldingsGet : string -> option HoldingsData;
  itemPublicTokenExchange : option string -> option (string * string);
  itemRemove : string -> bool
}.

(** The two dates a handler derives from [new Date()]. *)
Record Clock := {
  today : string;
  thirty_days_ago : string
}.

(** [SELECT * FROM user_banks WHERE user_id = $1] *)
Definition banks_of (user_id : Z) (user_banks : list BankRow) : list BankRow :=
  List.filter (fun b => Z.eqb (b_user_id b) user_id) user_banks.

(** ** [addCategorizationData] *)

(** The property names every plain object inherits from
    [Object.prototype]. *)
Definition Object_prototype_names : list string :=
  [ "constructor"; "__defineGetter__"; "__defineSetter__"; "hasOwnProperty";
    "__lookupGetter__"; "__lookupSetter__"; "isPrototypeOf";
    "propertyIsEnumerable"; "toString"; "valueOf"; "__proto__";
    "toLocaleString" ].

(** [obj[key] = value] on a plain object whose own properties are
    strings: assigning a string to [__proto__] is ignored. *)
Definition js_set (key value : string) (obj : gmap string string) : gmap string string :=
  if String.eqb key "__proto__" then obj else <[key := value]> obj.

(** The value of [obj[key]]: an own string, a member inherited from
    [Object.prototype], or [undefined]. *)
Inductive Member :=
| Own (value : string)
| Inherited (name : string)
| Undefined.

Definition js_get (key : string) (obj : gmap string string) : Member :=
  match obj !! key with
  | Some v => Own v
  | None => if Js.includes Object_prototype_names key then Inherited key else Undefined
  end.

(** A property key made of [tx.transaction_id]: a missing id is the key
    ["undefined"]. *)
Definition property_key (v : option string) : string :=
  match v with
  | Some t => t
  | None => "undefined"
  end.

(** The value of [categorizationMap[...] || null]. *)
Inductive UserCategory :=
| Category (category : string)
| InheritedMember (name : string)
| NoCategory.

Definition or_null (m : Member) : UserCategory :=
  match m with
  | Own v => if String.eqb v EmptyString then NoCategory else Category v
  | Inherited name => InheritedMember name
  | Undefined => NoCategory
  end.

(** [{...transaction, user_category, bank_name}] *)
Record AnnotatedTransaction := {
  annotated : Transaction;
  user_category : UserCategory;
  bank_name : string
}.

(** [categorizationsResult.rows.forEach(row => { categorizationMap[
    row.transaction_id] = row.category })] *)
Definition categorizationMap_of (rows : list CategorizationRow) : gmap string string :=
  fold_left (fun obj row => js_set (c_transaction_id row) (c_category row) obj)
            rows ∅.

(** The helper.  [banksResult] only feeds [bankMap], which is never
    read; [allAccounts] is not used. *)
Definition addCategorizationData (pool : Pool)
    (transactions : list Transaction) (userId : Z)
    (banksResult : list BankRow) (allAccounts : list Account)
    (db : Database) : Outcome (list AnnotatedTransaction) :=
  if Nat.eqb (List.length transactions) 0 then Fulfilled []
  else if pool (SelectCategorizationPairs userId) then
    let rows := List.filter (fun r => Z.eqb (c_user_id r) userId)
                            (transaction_categorizations db) in
    let categorizationMap := categorizationMap_of rows in
    Fulfilled
      (map (fun transaction =>
              {| annotated := transaction;
                 user_category :=
                   or_null (js_get (property_key (transaction_id transaction))
                                   categorizationMap);
                 bank_name := "Connected Bank" |})
           transactions)
  else Rejected.

(** ** [GET /transactions] and [POST /transactions] *)

(** The [for (const bank of banksResult.rows)] loop of the two
    handlers: the two provider calls of a bank are awaited one after the
    other inside [try]; the two [concat] come after both, so a bank
    whose second call fails adds nothing. *)
Fixpoint fetch_transactions (client : PlaidClient) (start_date end_date : string)
    (banks : list BankRow)
    (allTransactions : list Transaction) (allAccounts : list Account)
    : list Transaction * list Account :=
  match banks with
  | [] => (allTransactions, allAccounts)
  | bank :: rest =>
      match transactionsGet client (b_access_token bank) start_date end_date with
      | Some transactions =>
          match accountsGet client (b_access_token bank) with
          | Some accounts =>
              fetch_transactions client start_date end_date rest
                (allTransactions ++ transactions) (allAccounts ++ accounts)
          | None =>
              fetch_transactions client start_date end_date rest
                allTransactions allAccounts
          end
      | None =>
          fetch_transactions client start_date end_date rest
            allTransactions allAccounts
      end
  end.

(** [processing_summary] *)
Record ProcessingSummary := {
  total : nat;
  auto_categorized : nat;
  manual_review_added : nat
}.

(** The body of the answer: [{transactions: [], accounts: []}] when the
    user has no bank, else the lists with their summary. *)
Inductive TransactionsBody :=
| NoBank
| Fetched (transactions : list Transaction) (accounts : list Account)
          (processing_summary : ProcessingSummary).

(** What the two handlers share once the date range is fixed. *)
Definition transactions_route (pool : Pool) (conn : Connection)
    (client : PlaidClient) (now : Z) (start_date end_date : string)
    (user_id : Z) (user_banks : list BankRow) (db : Database)
    : Database * Reply TransactionsBody :=
  if pool (SelectUserBanks user_id) then
    let banks := banks_of user_id user_banks in
    if Nat.eqb (List.length banks) 0 then (db, Json NoBank)
    else
      let '(allTransactions, allAccounts) :=
        fetch_transactions client start_date end_date banks [] [] in
      match processTransactionsForCategorization conn now allTransactions user_id db with
      | (db', Fulfilled counts) =>
          (db', Json (Fetched allTransactions allAccounts
                        {| total := List.length allTransactions;
                           auto_categorized := autoCount counts;
                           manual_review_added := manualCount counts |}))
      | (db', Rejected) => (db', ServerError)
      end
  else (db, ServerError).

(** [GET /transactions]: the last 30 days. *)
Definition get_transactions (pool : Pool) (conn : Connection)
    (client : PlaidClient) (clock : Clock) (now : Z)
    (user_id : Z) (user_banks : list BankRow) (db : Database)
    : Database * Reply TransactionsBody :=
  transactions_route pool conn client now (thirty_days_ago clock) (today clock)
    user_id user_banks db.

(** [a || b] on strings that may be absent. *)
Definition or_else (a : option string) (b : string) : string :=
  match a with
  | Some s => if String.eqb s EmptyString then b else s
  | None => b
  end.

(** [POST /transactions]: [start_date] and [end_date] of the body, or
    the last 30 days. *)
Definition post_transactions (pool : Pool) (conn : Connection)
    (client : PlaidClient) (clock : Clock) (now : Z)
    (start_date end_date : option string)
    (user_id : Z) (user_banks : list BankRow) (db : Database)
    : Database * Reply TransactionsBody :=
  transactions_route pool conn client now
    (or_else start_date (thirty_days_ago clock)) (or_else end_date (today clock))
    user_id user_banks db.

(** ** [GET /transactions/manual-review] and [GET /categorizations] *)

(** [ORDER BY created_at ASC]; rows of equal [created_at] are kept in
    table order. *)
Fixpoint insert_by_created_at (r : ManualReviewRow) (sorted : list ManualReviewRow)
    : list ManualReviewRow :=
  match sorted with
  | [] => [r]
  | r' :: rest =>
      if Z.leb (m_created_at r) (m_created_at r') then r :: r' :: rest
      else r' :: insert_by_created_at r rest
  end.

Definition order_by_created_at (rows : list ManualReviewRow) : list ManualReviewRow :=
  fold_right insert_by_created_at [] rows.

(** The rows the query of the manual-review route returns. *)
Definition pending_rows (user_id : Z) (db : Database) : list ManualReviewRow :=
  order_by_created_at
    (List.filter (fun r => Z.eqb (m_user_id r) user_id) (manual_review_transactions db)).

(** [{transactions, count}] *)
Record ManualReviewBody := {
  review_transactions : list (option string);
  review_count : nat
}.

Definition get_manual_review (pool : Pool) (user_id : Z) (db : Database)
    : Reply ManualReviewBody :=
  if pool (SelectManualReviewData user_id) then
    let transactions := map m_transaction_data (pending_rows user_id db) in
    Json {| review_transactions := transactions;
            review_count := List.length transactions |}
  else ServerError.

(** [GET /categorizations]: [CREATE TABLE IF NOT EXISTS], then the rows
    of the user. *)
Definition get_categorizations (pool : Pool) (user_id : Z) (db : Database)
    : Reply (list CategorizationRow) :=
  if pool CreateCategorizationsTable then
    if pool (SelectCategorizations user_id) then
      Json (List.filter (fun r => Z.eqb (c_user_id r) user_id)
                        (transaction_categorizations db))
    else ServerError
  else ServerError.

(** ** [POST /exchange_public_token] *)

(** The row [VALUES ($1, $2, $3, $4)] builds for [user_bank], [id]
    taking the next value of its sequence. *)
Definition bank_values (now nextval user_id : Z)
    (item_id access_token institution_name : string) : option BankRow :=
  match varchar_not_null 255 (Some item_id),
        varchar_not_null 500 (Some access_token),
        varchar_not_null 255 (Some institution_name) with
  | Some i, Some a, Some n =>
      Some {| b_id := nextval; b_user_id := user_id; b_item_id := i;
              b_access_token := a; b_institution_name := Some n;
              b_created_at := now; b_updated_at := now |}
  | _, _, _ => None
  end.

(** [DO UPDATE SET access_token = $3, updated_at = CURRENT_TIMESTAMP] *)
Definition refresh_token (proposed old : BankRow) : BankRow :=
  {| b_id := b_id old; b_user_id := b_user_id old; b_item_id := b_item_id old;
     b_access_token := b_access_token proposed;
     b_institution_name := b_institution_name old;
     b_created_at := b_created_at old;
     b_updated_at := b_updated_at proposed |}.

(** The handler: the exchange with the provider, [CREATE TABLE IF NOT
    EXISTS], then the upsert.  [nextval] is the value the sequence of
    [id] yields for the insert. *)
Definition exchange_public_token (pool : Pool) (client : PlaidClient)
    (now nextval : Z) (public_token : option string)
    (user_id : Z) (user_banks : list BankRow) : list BankRow * Reply unit :=
  match itemPublicTokenExchange client public_token with
  | Some (accessToken, itemId) =>
      if pool CreateUserBanksTable then
        if pool (UpsertUserBank user_id itemId accessToken "Connected Bank") then
          match bank_values now nextval user_id itemId accessToken "Connected Bank" with
          | Some row =>
              (insert_do_update bank_key (refresh_token row) row user_banks, Json tt)
          | None => (user_banks, ServerError)
          end
        else (user_banks, ServerError)
      else (user_banks, ServerError)
  | None => (user_banks, ServerError)
  end.

(** ** [DELETE /banks/:bankId] *)

(** An integer bound to a parameter of type [INTEGER]: a value out of
    the 32-bit range is refused. *)
Definition int4 (n : Z) : option Z :=
  if (Z.leb (- 2147483648) n && Z.leb n 2147483647)%bool then Some n else None.

(** [WHERE id = $1 AND user_id = $2] *)
Definition is_bank (bankId user_id : Z) (b : BankRow) : bool :=
  (Z.eqb (b_id b) bankId && Z.eqb (b_user_id b) user_id)%bool.

(** The handler, from the value bound to [$1].  Beside the table and
    the answer it gives the access token it asked the provider to
    remove, if it asked. *)
Definition disconnect_bank (pool : Pool) (client : PlaidClient)
    (bankId : option Z) (user_id : Z) (user_banks : list BankRow)
    : list BankRow * option string * Reply unit :=
  if pool (SelectBank bankId user_id) then
    match bankId with
    | None => (user_banks, None, ServerError)
    | Some id =>
        match List.filter (is_bank id user_id) user_banks with
        | [] => (user_banks, None, NotFound)
        | bank :: _ =>
            let asked := Some (b_access_token bank) in
            let _removed := itemRemove client (b_access_token bank) in
            if pool (DeleteBank bankId user_id) then
              (List.filter (fun b => negb (is_bank id user_id b)) user_banks,
               asked, Json tt)
            else (user_banks, asked, ServerError)
        end
    end
  else (user_banks, None, ServerError).

(** The route: [param] is the integer the text of [req.params.bankId]
    denotes, [None] when it denotes none. *)
Definition delete_bank (pool : Pool) (client : PlaidClient)
    (param : option Z) (user_id : Z) (user_banks : list BankRow)
    : list BankRow * option string * Reply unit :=
  disconnect_bank pool client
    (match param with Some n => int4 n | None => None end) user_id user_banks.

(** ** [GET /accounts] *)

(** [{...account, bank_id, bank_name, item_id}] *)
Record AccountWithBank := {
  awb_account : Account;
  awb_bank_id : Z;
  awb_bank_name : option string;
  awb_item_id : string
}.

(** An entry of [bankSummary]. *)
Record BankSummary := {
  summary_bank_id : Z;
  summary_bank_name : option string;
  account_count : nat;
  summary_item_id : string
}.

Fixpoint fetch_accounts (client : PlaidClient) (banks : list BankRow)
    (allAccounts : list AccountWithBank) (bankSummary : list BankSummary)
    : list AccountWithBank * list BankSummary :=
  match banks with
  | [] => (allAccounts, bankSummary)
  | bank :: rest =>
      match accountsGet client (b_access_token bank) with
      | Some accounts =>
          let accountsWithBank :=
            map (fun account =>
                   {| awb_account := account; awb_bank_id := b_id bank;
                      awb_bank_name := b_institution_name bank;
                      awb_item_id := b_item_id bank |}) accounts in
          fetch_accounts client rest (allAccounts ++ accountsWithBank)
            (bankSummary ++
             [ {| summary_bank_id := b_id bank;
                  summary_bank_name := b_institution_name bank;
                  account_count := List.length accounts;
                  summary_item_id := b_item_id bank |} ])
      | None => fetch_accounts client rest allAccounts bankSummary
      end
  end.

(** The body of the answer: [{accounts: [], banks: []}] when the user
    has no bank, else the lists with their totals. *)
Inductive AccountsBody :=
| NoBankAccounts
| Accounts (accounts : list AccountWithBank) (banks : list BankSummary)
           (total_accounts total_banks : nat).

Definition get_accounts (pool : Pool) (client : PlaidClient)
    (user_id : Z) (user_banks : list BankRow) : Reply AccountsBody :=
  if pool (SelectUserBanks user_id) then
    let banks := banks_of user_id user_banks in
    if Nat.eqb (List.length banks) 0 then Json NoBankAccounts
    else
      let '(allAccounts, bankSummary) := fetch_accounts client banks [] [] in
      Json (Accounts allAccounts bankSummary
              (List.length allAccounts) (List.length banks))
  else ServerError.

(** ** [GET /holdings] *)

(** [account.type === 'investment' || account.subtype === 'brokerage'] *)
Definition is_investment (account : Account) : bool :=
  (match account_type account with
   | Some t => String.eqb t "investment" | None => false end
   || match account_subtype account with
      | Some s => String.eqb s "brokerage" | None => false end)%bool.

(** [{...holding, bank_id, bank_name, account_name, account_type,
    account_subtype}] *)
Record HoldingWithInfo := {
  hwi_holding : Holding;
  hwi_bank_id : Z;
  hwi_bank_name : option string;
  hwi_account_name : string;
  hwi_account_type : string;
  hwi_account_subtype : string
}.

(** [accounts.find(acc => acc.account_id === holding.account_id)] *)
Definition find_account (accounts : list Account) (holding : Holding) : option Account :=
  List.find (fun acc => String.eqb (account_id acc) (holding_account_id holding)) accounts.

(** [account?.name || 'Unknown Account'] and its likes. *)
Definition member_or (account : option Account) (member : Account -> option string)
    (default : string) : string :=
  match account with
  | Some acc => or_else (member acc) default
  | None => default
  end.

Definition with_info (bank : BankRow) (accounts : list Account) (holding : Holding)
    : HoldingWithInfo :=
  let account := find_account accounts holding in
  {| hwi_holding := holding;
     hwi_bank_id := b_id bank;
     hwi_bank_name := b_institution_name bank;
     hwi_account_name := member_or account account_name "Unknown Account";
     hwi_account_type := member_or account account_type "Unknown";
     hwi_account_subtype := member_or account account_subtype "Unknown" |}.

(** [securities.forEach(security => { if (!allSecurities.find(s =>
    s.security_id === security.security_id)) allSecurities.push(
    security) })] *)
Fixpoint add_securities (securities allSecurities : list Security) : list Security :=
  match securities with
  | [] => allSecurities
  | security :: rest =>
      match List.find (fun s => String.eqb (security_id s) (security_id security))
                      allSecurities with
      | Some _ => add_securities rest allSecurities
      | None => add_securities rest (allSecurities ++ [security])
      end
  end.

(** [x || []] *)
Definition or_empty {A : Type} (x : option (list A)) : list A :=
  match x with
  | Some l => l
  | None => []
  end.

Fixpoint fetch_holdings (client : PlaidClient) (banks : list BankRow)
    (allHoldings : list HoldingWithInfo) (allSecurities : list Security)
    : list HoldingWithInfo * list Security :=
  match banks with
  | [] => (allHoldings, allSecurities)
  | bank :: rest =>
      match accountsGet client (b_access_token bank) with
      | Some accounts =>
          if Nat.eqb (List.length (List.filter is_investment accounts)) 0
          then fetch_holdings client rest allHoldings allSecurities
          else
            match investmentsHoldingsGet client (b_access_token bank) with
            | Some data =>
                let holdingsWithInfo :=
                  map (with_info bank accounts) (or_empty (holdings data)) in
                fetch_holdings client rest
                  (allHoldings ++ holdingsWithInfo)
                  (add_securities (or_empty (securities data)) allSecurities)
            | None => fetch_holdings client rest allHoldings allSecurities
            end
      | None => fetch_holdings client rest allHoldings allSecurities
      end
  end.

Record HoldingsBody := {
  body_holdings : list HoldingWithInfo;
  body_securities : list Security;
  total_holdings : nat;
  total_securities : nat
}.

Definition get_holdings (pool : Pool) (client : PlaidClient)
    (user_id : Z) (user_banks : list BankRow) : Reply HoldingsBody :=
  if pool (SelectUserBanks user_id) then
    let banks := banks_of user_id user_banks in
    if Nat.eqb (List.length banks) 0
    then Json {| body_holdings := []; body_securities := [];
                 total_holdings := 0; total_securities := 0 |}
    else
      let '(allHoldings, allSecurities) := fetch_holdings client banks [] [] in
      Json {| body_holdings := allHoldings; body_securities := allSecurities;
              total_holdings := List.length allHoldings;
              total_securities := List.length allSecurities |}
  else ServerError.

(** ** What a bank contributes to a route *)

(** The transactions and accounts a bank adds: those of its two calls
    when both are answered. *)
Definition bank_transactions (client : PlaidClient) (start_date end_date : string)
    (bank : BankRow) : option (list Transaction * list Account) :=
  match transactionsGet client (b_access_token bank) start_date end_date,
        accountsGet client (b_access_token bank) with
  | Some transactions, Some accounts => Some (transactions, accounts)
  | _, _ => None
  end.

(** The transactions, and the accounts, the banks add to the answer of
    the transactions routes. *)
Definition fetched_transactions (client : PlaidClient) (start_date end_date : string)
    (banks : list BankRow) : list Transaction :=
  flat_map (fun bank =>
              match bank_transactions client start_date end_date bank with
              | Some (transactions, _) => transactions
              | None => []
              end) banks.

Definition fetched_accounts (client : PlaidClient) (start_date end_date : string)
    (banks : list BankRow) : list Account :=
  flat_map (fun bank =>
              match bank_transactions client start_date end_date bank with
              | Some (_, accounts) => accounts
              | None => []
              end) banks.

(** The holdings data a bank adds: that of its holdings call, when its
    accounts call is answered with an investment account among them. *)
Definition bank_holdings (client : PlaidClient) (bank : BankRow) : option HoldingsData :=
  match accountsGet client (b_access_token bank) with
  | Some accounts =>
      if Nat.eqb (List.length (List.filter is_investment accounts)) 0 then None
      else investmentsHoldingsGet client (b_access_token bank)
  | None => None
  end.

(** The security ids the contributing banks deliver. *)
Definition delivered_security_ids (client : PlaidClient) (banks : list BankRow)
    : list string :=
  flat_map (fun bank =>
              match bank_holdings client bank with
              | Some data => map security_id (or_empty (securities data))
              | None => []
              end) banks.

(** The transaction id of a record, read through its stored row. *)
Definition same_transaction (t : string) (r : CategorizationRow) : bool :=
  String.eqb (c_transaction_id r) t.

(** ** Scenarios for the routes *)

Module Routes.

Definition reachable : Pool := fun _ => true.
Definition unreachable : Pool := fun _ => false.

Definition bank (id user : Z) (item token : string) : BankRow :=
  {| b_id := id; b_user_id := user; b_item_id := item; b_access_token := token;
     b_institution_name := Some "Connected Bank";
     b_created_at := 1; b_updated_at := 1 |}.

(** User 1 has two banks, user 2 one. *)
Definition three_banks : list BankRow :=
  [ bank 10 1 "item-a" "token-a"; bank 11 2 "item-b" "token-b";
    bank 12 1 "item-c" "token-c" ].

Definition checking : Account :=
  {| account_id := "acc-1"; account_name := Some "Checking";
     account_type := Some "depository"; account_subtype := Some "checking";
     account_json := "{}" |}.

Definition brokerage : Account :=
  {| account_id := "acc-2"; account_name := None;
     account_type := Some "investment"; account_subtype := Some "brokerage";
     account_json := "{}" |}.

Definition share (id : string) : Security :=
  {| security_id := id; security_json := "{}" |}.

(** Bank [token-a] answers every call; the transactions call of bank
    [token-c] fails. *)
Definition client : PlaidClient :=
  {| transactionsGet := fun token _ _ =>
       if String.eqb token "token-a"
       then Some [Scenario.T1_income; Scenario.T2_food; Scenario.T3_plain]
       else None;
     accountsGet := fun token =>
       if String.eqb token "token-a" then Some [checking; brokerage]
       else Some [checking];
     investmentsHoldingsGet := fun _ =>
       Some {| holdings :=
                 Some [ {| holding_account_id := "acc-2"; holding_security_id := "s1";
                           holding_json := "{}" |} ];
               securities := Some [share "s1"; share "s2"; share "s1"] |};
     itemPublicTokenExchange := fun public_token =>
       match public_token with
       | Some _ => Some ("token-new", "item-a")
       | None => None
       end;
     itemRemove := fun _ => false |}.

Definition clock : Clock := {| today := "2024-05-31"; thirty_days_ago := "2024-05-01" |}.

End Routes.

(** * Properties *)

(** ** The display category *)

Lemma split_not_nil sep s : Js.split sep s <> [].
Proof.
  destruct s as [|c r]; simpl; [easy|].
  destruct (Ascii.eqb c sep); [easy|]. destruct (Js.split sep r); easy.
Qed.

Lemma join_split_capitalize (b : bool) (s : string) :
  match Js.split " " s with
  | w :: ws => Js.join " " ((if b then capitalize w else w) :: map capitalize ws)
  | [] => EmptyString
  end = capitalize_words b s.
Proof.
  revert b. induction s as [|c r IH]; intros b.
  - destruct b; reflexivity.
  - simpl. destruct (Ascii.eqb c " ") eqn:Hc.
    + apply Ascii.eqb_eq in Hc. subst c.
      specialize (IH true). destruct (Js.split " " r) as [|w ws] eqn:Hs.
      { now apply split_not_nil in Hs. }
      replace (if b then capitalize EmptyString else EmptyString) with EmptyString
        by (destruct b; reflexivity).
      replace (if b then Js.upper_char " " else " "%char) with " "%char
        by (destruct b; reflexivity).
      cbn [map Js.join]. simpl in IH. rewrite <- IH. reflexivity.
    + specialize (IH false). destruct (Js.split " " r) as [|w ws] eqn:Hs.
      { now apply split_not_nil in Hs. }
      replace (if b then capitalize (String c w) else String c w)
        with (String (if b then Js.upper_char c else c) w)
        by (destruct b; reflexivity).
      rewrite <- IH. destruct (map capitalize ws); reflexivity.
Qed.

Lemma title_case_from_capitalize (b : bool) (s : string) :
  title_case_from b s =
  capitalize_words b (Js.toLowerCase (Js.replace_underscores s)).
Proof.
  revert b. induction s as [|c r IH]; intros b; [reflexivity|].
  simpl. rewrite IH. reflexivity.
Qed.

Lemma cleanCategory_display_category (code : string) :
  cleanCategory code = display_category code.
Proof.
  unfold cleanCategory, display_category.
  rewrite title_case_from_capitalize.
  rewrite <- (join_split_capitalize true).
  destruct (Js.split " " _) as [|w ws] eqn:Hs; [now apply split_not_nil in Hs|].
  reflexivity.
Qed.

(** ** Membership in the rule table *)

Lemma includes_elem_of (arr : list string) (x : string) :
  Js.includes arr x = bool_decide (x ∈ arr).
Proof.
  apply Bool.eq_true_iff_eq. unfold Js.includes.
  rewrite existsb_exists, bool_decide_eq_true. split.
  - intros (y & Hy & E). apply String.eqb_eq in E. subst y. now apply list_elem_of_In.
  - intros H. exists x. split; [now apply list_elem_of_In | apply String.eqb_refl].
Qed.

(** The test [plaidCategory && AUTO_CATEGORIZE_PLAID_CATEGORIES.includes
    (plaidCategory)]: the empty string is falsy, and is not a rule. *)
Lemma rule_test_elem_of (code : string) :
  (truthy (Some code) && Js.includes AUTO_CATEGORIZE_PLAID_CATEGORIES code)%bool
  = bool_decide (code ∈ AUTO_CATEGORIZE_PLAID_CATEGORIES).
Proof.
  rewrite includes_elem_of. unfold truthy.
  destruct (String.eqb code EmptyString) eqn:E; simpl; [|reflexivity].
  apply String.eqb_eq in E. subst. reflexivity.
Qed.

(** ** Keys and lookups *)

Lemma key_eqb_eq (k1 k2 : Key) : key_eqb k1 k2 = true <-> k1 = k2.
Proof.
  destruct k1 as [u1 t1], k2 as [u2 t2]. unfold key_eqb. simpl.
  rewrite Bool.andb_true_iff, Z.eqb_eq, String.eqb_eq.
  split; [intros [-> ->]; reflexivity | intros [= -> ->]; tauto].
Qed.

Lemma key_eqb_refl (k : Key) : key_eqb k k = true.
Proof. now apply key_eqb_eq. Qed.

Lemma key_eqb_neq (k1 k2 : Key) : key_eqb k1 k2 = false <-> k1 <> k2.
Proof.
  rewrite <- key_eqb_eq. destruct (key_eqb k1 k2); split; congruence.
Qed.

Section TableFacts.

Context {Row : Type} (key : Row -> Key).

Lemma has_key_In (k : Key) (rows : list Row) :
  has_key key k rows = true <-> In k (map key rows).
Proof.
  unfold has_key. rewrite existsb_exists, in_map_iff.
  split; intros (r & H1 & H2).
  - apply key_eqb_eq in H2. eauto.
  - exists r. split; [assumption | now apply key_eqb_eq].
Qed.

Lemma has_key_app (k : Key) (l1 l2 : list Row) :
  has_key key k (l1 ++ l2) = (has_key key k l1 || has_key key k l2)%bool.
Proof. apply existsb_app. Qed.

Lemma rows_of_app (k : Key) (l1 l2 : list Row) :
  rows_of key k (l1 ++ l2) = (rows_of key k l1 ++ rows_of key k l2)%list.
Proof. apply List.filter_app. Qed.

Lemma rows_of_absent (k : Key) (rows : list Row) :
  has_key key k rows = false -> rows_of key k rows = [].
Proof.
  unfold has_key, rows_of. induction rows as [|r rows IH]; [reflexivity|].
  simpl. destruct (key_eqb (key r) k); [discriminate|]. exact IH.
Qed.

Lemma rows_of_key (k : Key) (rows : list Row) (r : Row) :
  In r (rows_of key k rows) <-> In r rows /\ key r = k.
Proof. unfold rows_of. rewrite filter_In, key_eqb_eq. reflexivity. Qed.

Lemma rows_of_unique (k : Key) (rows : list Row) :
  NoDup (map key rows) -> (List.length (rows_of key k rows) <= 1)%nat.
Proof.
  induction rows as [|r rows IH]; intros Hnd; [simpl; lia|].
  simpl in Hnd. apply NoDup_cons in Hnd. destruct Hnd as [Hr Hnd].
  cbn [rows_of List.filter]. destruct (key_eqb (key r) k) eqn:E.
  - apply key_eqb_eq in E. subst k.
    fold (rows_of key (key r) rows). rewrite rows_of_absent; [simpl; lia|].
    destruct (has_key key (key r) rows) eqn:Hh; [|reflexivity].
    apply has_key_In in Hh. apply list_elem_of_In in Hh. contradiction.
  - now apply IH.
Qed.

(** [DO NOTHING] inserts *)


Lemma insert_do_nothing_has (k : Key) (r : Row) (rows : list Row) :
  has_key key k (insert_do_nothing key r rows)
  = (has_key key k rows || key_eqb (key r) k)%bool.
Proof.
  unfold insert_do_nothing. destruct (has_key key (key r) rows) eqn:E.
  - destruct (key_eqb (key r) k) eqn:Ek.
    + apply key_eqb_eq in Ek. subst k. now rewrite E.
    + now rewrite Bool.orb_false_r.
  - rewrite has_key_app. simpl. now rewrite Bool.orb_false_r.
Qed.

Lemma insert_do_nothing_rows_of (k : Key) (r : Row) (rows : list Row) :
  has_key key k rows = true ->
  rows_of key k (insert_do_nothing key r rows) = rows_of key k rows.
Proof.
  intros Hk. unfold insert_do_nothing. destruct (has_key key (key r) rows) eqn:E;
    [reflexivity|].
  rewrite rows_of_app. cbn [rows_of List.filter].
  destruct (key_eqb (key r) k) eqn:Ek; [|now rewrite app_nil_r].
  apply key_eqb_eq in Ek. subst k. congruence.
Qed.

Lemma insert_do_nothing_rows_of_other (k : Key) (r : Row) (rows : list Row) :
  key r <> k ->
  rows_of key k (insert_do_nothing key r rows) = rows_of key k rows.
Proof.
  intros Hk. unfold insert_do_nothing. destruct (has_key key (key r) rows);
    [reflexivity|].
  rewrite rows_of_app. cbn [rows_of List.filter].
  apply key_eqb_neq in Hk. rewrite Hk. now rewrite app_nil_r.
Qed.

Lemma insert_do_nothing_NoDup (r : Row) (rows : list Row) :
  NoDup (map key rows) -> NoDup (map key (insert_do_nothing key r rows)).
Proof.
  intros Hnd. unfold insert_do_nothing. destruct (has_key key (key r) rows) eqn:E;
    [assumption|].
  rewrite map_app. apply NoDup_app. split; [assumption|]. split.
  - intros k Hk Hk'. simpl in Hk'. apply list_elem_of_In in Hk, Hk'.
    destruct Hk' as [<-|[]]. apply has_key_In in Hk. congruence.
  - simpl. apply NoDup_singleton.
Qed.

Lemma insert_all_has (k : Key) (rs rows : list Row) :
  has_key key k (insert_all key rs rows)
  = (has_key key k rows || has_key key k rs)%bool.
Proof.
  unfold insert_all. revert rows. induction rs as [|r rs IH]; intros rows.
  - simpl. now rewrite Bool.orb_false_r.
  - cbn [fold_left]. rewrite IH, insert_do_nothing_has.
    unfold has_key at 4. cbn [existsb]. now rewrite Bool.orb_assoc.
Qed.

Lemma insert_all_rows_of (k : Key) (rs rows : list Row) :
  has_key key k rows = true ->
  rows_of key k (insert_all key rs rows) = rows_of key k rows.
Proof.
  unfold insert_all. revert rows. induction rs as [|r rs IH]; intros rows Hk;
    [reflexivity|].
  cbn [fold_left]. rewrite IH.
  - now apply insert_do_nothing_rows_of.
  - rewrite insert_do_nothing_has, Hk. reflexivity.
Qed.

Lemma insert_all_rows_of_other (k : Key) (rs rows : list Row) :
  has_key key k rs = false ->
  rows_of key k (insert_all key rs rows) = rows_of key k rows.
Proof.
  unfold insert_all. revert rows. induction rs as [|r rs IH]; intros rows Hk;
    [reflexivity|].
  unfold has_key in Hk. cbn [existsb] in Hk. apply Bool.orb_false_iff in Hk.
  destruct Hk as [Hr Hk]. cbn [fold_left]. rewrite IH by exact Hk.
  apply insert_do_nothing_rows_of_other. now apply key_eqb_neq.
Qed.

Lemma insert_all_NoDup (rs rows : list Row) :
  NoDup (map key rows) -> NoDup (map key (insert_all key rs rows)).
Proof.
  unfold insert_all. revert rows. induction rs as [|r rs IH]; intros rows Hnd;
    [assumption|].
  cbn [fold_left]. apply IH. now apply insert_do_nothing_NoDup.
Qed.

(** The rows a sequence of [DO NOTHING] inserts adds come after the
    rows that were there, which stay as they are. *)
Lemma insert_all_extends (rs rows : list Row) :
  exists added,
    insert_all key rs rows = (rows ++ added)%list /\
    forall r, In r added -> In r rs /\ has_key key (key r) rows = false.
Proof.
  unfold insert_all. revert rows. induction rs as [|r rs IH]; intros rows.
  - exists []. split; [now rewrite app_nil_r | intros r []].
  - cbn [fold_left]. destruct (IH (insert_do_nothing key r rows)) as (added & Heq & Hadd).
    unfold insert_do_nothing in *. destruct (has_key key (key r) rows) eqn:E.
    + exists added. split; [assumption|]. intros x Hx. destruct (Hadd x Hx). split; [now right | assumption].
    + exists (r :: added). split.
      * rewrite Heq, <- app_assoc. reflexivity.
      * intros x [<-|Hx]; [split; [now left | assumption]|].
        destruct (Hadd x Hx) as [H1 H2]. split; [now right|].
        rewrite has_key_app in H2. now apply Bool.orb_false_iff in H2.
Qed.

(** [DO UPDATE] inserts and deletes *)

Lemma insert_do_update_keys (set : Row -> Row) (r : Row) (rows : list Row) :
  (forall old, key (set old) = key old) ->
  map key (insert_do_update key set r rows) = map key (insert_do_nothing key r rows).
Proof.
  intros Hset. unfold insert_do_update, insert_do_nothing.
  destruct (has_key key (key r) rows); [|reflexivity].
  rewrite map_map. apply map_ext. intros old.
  destruct (key_eqb (key old) (key r)); [apply Hset | reflexivity].
Qed.

Lemma has_key_map_key (k : Key) (l1 l2 : list Row) :
  map key l1 = map key l2 -> has_key key k l1 = has_key key k l2.
Proof.
  intros H. apply Bool.eq_true_iff_eq. now rewrite !has_key_In, H.
Qed.

Lemma insert_do_update_rows_of (set : Row -> Row) (r : Row) (rows : list Row) :
  (forall old, key old = key r -> set old = r) ->
  forall x, In x (rows_of key (key r) (insert_do_update key set r rows)) -> x = r.
Proof.
  intros Hset x Hx. apply rows_of_key in Hx. destruct Hx as [Hx Hk].
  unfold insert_do_update in Hx. destruct (has_key key (key r) rows) eqn:E.
  - apply in_map_iff in Hx. destruct Hx as (old & Hold & _).
    destruct (key_eqb (key old) (key r)) eqn:E'.
    + apply key_eqb_eq in E'. rewrite Hset in Hold by exact E'. congruence.
    + apply key_eqb_neq in E'. congruence.
  - apply in_app_iff in Hx. destruct Hx as [Hx|[<-|[]]]; [|reflexivity].
    assert (Hin : In (key r) (map key rows)) by (rewrite <- Hk; now apply in_map).
    apply has_key_In in Hin. congruence.
Qed.

Lemma insert_do_update_rows_of_other (set : Row -> Row) (k : Key) (r : Row)
    (rows : list Row) :
  (forall old, key (set old) = key old) ->
  key r <> k ->
  rows_of key k (insert_do_update key set r rows) = rows_of key k rows.
Proof.
  intros Hset Hk. unfold insert_do_update. destruct (has_key key (key r) rows).
  - unfold rows_of. induction rows as [|old rows IH]; [reflexivity|].
    cbn [map List.filter]. destruct (key_eqb (key old) (key r)) eqn:E.
    + apply key_eqb_eq in E. rewrite Hset.
      assert (E' : key_eqb (key old) k = false) by (apply key_eqb_neq; congruence).
      rewrite E'. exact IH.
    + destruct (key_eqb (key old) k); [f_equal|]; exact IH.
  - rewrite rows_of_app. cbn [rows_of List.filter].
    apply key_eqb_neq in Hk. rewrite Hk. now rewrite app_nil_r.
Qed.

Lemma delete_key_has (k k' : Key) (rows : list Row) :
  has_key key k' (delete_key key k rows)
  = (has_key key k' rows && negb (key_eqb k k'))%bool.
Proof.
  unfold has_key, delete_key. induction rows as [|r rows IH]; [reflexivity|].
  cbn [List.filter existsb]. destruct (key_eqb (key r) k) eqn:E; cbn [negb].
  - rewrite IH. apply key_eqb_eq in E. subst k.
    destruct (key_eqb (key r) k'); simpl; [now rewrite Bool.andb_false_r | reflexivity].
  - cbn [existsb]. rewrite IH. destruct (key_eqb (key r) k') eqn:E'; simpl; [|reflexivity].
    apply key_eqb_eq in E'. subst k'. rewrite key_eqb_neq in E.
    assert (E2 : key_eqb k (key r) = false) by (apply key_eqb_neq; congruence).
    now rewrite E2.
Qed.

Lemma delete_key_rows_of_other (k k' : Key) (rows : list Row) :
  k <> k' -> rows_of key k' (delete_key key k rows) = rows_of key k' rows.
Proof.
  intros Hk. unfold rows_of, delete_key. induction rows as [|r rows IH]; [reflexivity|].
  cbn [List.filter]. destruct (key_eqb (key r) k) eqn:E; cbn [negb List.filter].
  - apply key_eqb_eq in E. assert (E' : key_eqb (key r) k' = false)
      by (apply key_eqb_neq; congruence).
    now rewrite E'.
  - destruct (key_eqb (key r) k'); [f_equal|]; exact IH.
Qed.

Lemma delete_key_NoDup (k : Key) (rows : list Row) :
  NoDup (map key rows) -> NoDup (map key (delete_key key k rows)).
Proof.
  unfold delete_key. induction rows as [|r rows IH]; intros Hnd; [assumption|].
  simpl in Hnd. apply NoDup_cons in Hnd. destruct Hnd as [Hr Hnd].
  cbn [List.filter]. destruct (negb (key_eqb (key r) k)); [|now apply IH].
  cbn [map]. apply NoDup_cons. split; [|now apply IH].
  intros Hin. apply Hr. apply list_elem_of_In in Hin. apply list_elem_of_In.
  apply in_map_iff in Hin. destruct Hin as (x & Hx & Hin).
  apply filter_In in Hin. apply in_map_iff. exists x. tauto.
Qed.

End TableFacts.

(** The same facts for a key column that may hold [NULL]. *)

Section NullableTableFacts.

Context {Row : Type} (key : Row -> option Key).

Lemma key_is_eq (k : Key) (r : Row) : key_is key k r = true <-> key r = Some k.
Proof.
  unfold key_is. destruct (key r) as [k'|].
  - rewrite key_eqb_eq. split; congruence.
  - split; discriminate.
Qed.

Lemma key_is_neq (k : Key) (r : Row) : key_is key k r = false <-> key r <> Some k.
Proof.
  rewrite <- key_is_eq. destruct (key_is key k r); split; congruence.
Qed.

Lemma has_key_n_In (k : Key) (rows : list Row) :
  has_key_n key k rows = true <-> In (Some k) (map key rows).
Proof.
  unfold has_key_n. rewrite existsb_exists, in_map_iff.
  split; intros (r & H1 & H2).
  - apply key_is_eq in H2. eauto.
  - exists r. split; [assumption | now apply key_is_eq].
Qed.

Lemma has_key_n_app (k : Key) (l1 l2 : list Row) :
  has_key_n key k (l1 ++ l2) = (has_key_n key k l1 || has_key_n key k l2)%bool.
Proof. apply existsb_app. Qed.

Lemma rows_of_n_app (k : Key) (l1 l2 : list Row) :
  rows_of_n key k (l1 ++ l2) = (rows_of_n key k l1 ++ rows_of_n key k l2)%list.
Proof. apply List.filter_app. Qed.

Lemma rows_of_n_absent (k : Key) (rows : list Row) :
  has_key_n key k rows = false -> rows_of_n key k rows = [].
Proof.
  unfold has_key_n, rows_of_n. induction rows as [|r rows IH]; [reflexivity|].
  simpl. destruct (key_is key k r); [discriminate|]. exact IH.
Qed.

Lemma rows_of_n_key (k : Key) (rows : list Row) (r : Row) :
  In r (rows_of_n key k rows) <-> In r rows /\ key r = Some k.
Proof. unfold rows_of_n. rewrite filter_In, key_is_eq. reflexivity. Qed.

Lemma rows_of_n_present (k : Key) (rows : list Row) :
  has_key_n key k rows = true -> exists r, In r (rows_of_n key k rows).
Proof.
  intros H. apply has_key_n_In, in_map_iff in H. destruct H as (r & Hk & Hr).
  exists r. now apply rows_of_n_key.
Qed.

Lemma has_key_n_incl (k : Key) (l1 l2 : list Row) :
  (forall r, In r l1 -> In r l2) ->
  has_key_n key k l1 = true -> has_key_n key k l2 = true.
Proof.
  intros Hincl H. apply has_key_n_In, in_map_iff in H. destruct H as (r & Hk & Hr).
  apply has_key_n_In. rewrite <- Hk. apply in_map. auto.
Qed.

Lemma has_key_n_omap (k : Key) (rows : list Row) :
  has_key_n key k rows = true <-> In k (omap key rows).
Proof.
  rewrite has_key_n_In, in_map_iff, <- list_elem_of_In, list_elem_of_omap.
  split; intros (r & H1 & H2).
  - exists r. split; [now apply list_elem_of_In | assumption].
  - exists r. split; [assumption | now apply list_elem_of_In].
Qed.

Lemma rows_of_n_unique (k : Key) (rows : list Row) :
  NoDup (omap key rows) -> (List.length (rows_of_n key k rows) <= 1)%nat.
Proof.
  induction rows as [|r rows IH]; intros Hnd; [simpl; lia|].
  cbn [rows_of_n List.filter]. destruct (key_is key k r) eqn:E.
  - apply key_is_eq in E. cbn [omap list_omap] in Hnd. rewrite E in Hnd.
    apply NoDup_cons in Hnd. destruct Hnd as [Hr Hnd].
    fold (rows_of_n key k rows). rewrite rows_of_n_absent; [simpl; lia|].
    destruct (has_key_n key k rows) eqn:Hh; [|reflexivity].
    apply has_key_n_omap, list_elem_of_In in Hh. contradiction.
  - apply IH. cbn [omap list_omap] in Hnd. destruct (key r); [|assumption].
    now apply NoDup_cons in Hnd.
Qed.

Lemma insert_do_nothing_n_has (k : Key) (r : Row) (rows : list Row) :
  has_key_n key k (insert_do_nothing_n key r rows)
  = (has_key_n key k rows || key_is key k r)%bool.
Proof.
  unfold insert_do_nothing_n. destruct (key r) as [k'|] eqn:Hr.
  - destruct (has_key_n key k' rows) eqn:E.
    + destruct (key_is key k r) eqn:Ek; [|now rewrite Bool.orb_false_r].
      apply key_is_eq in Ek. assert (k' = k) as -> by congruence. now rewrite E.
    + rewrite has_key_n_app. simpl. now rewrite Bool.orb_false_r.
  - rewrite has_key_n_app. simpl. now rewrite Bool.orb_false_r.
Qed.

Lemma insert_do_nothing_n_rows_of_other (k : Key) (r : Row) (rows : list Row) :
  key r <> Some k ->
  rows_of_n key k (insert_do_nothing_n key r rows) = rows_of_n key k rows.
Proof.
  intros Hk. apply key_is_neq in Hk.
  assert (Happ : rows_of_n key k (rows ++ [r]) = rows_of_n key k rows).
  { rewrite rows_of_n_app. cbn [rows_of_n List.filter]. rewrite Hk. apply app_nil_r. }
  unfold insert_do_nothing_n. destruct (key r) as [k'|]; [|exact Happ].
  destruct (has_key_n key k' rows); [reflexivity | exact Happ].
Qed.

Lemma insert_do_nothing_n_NoDup (r : Row) (rows : list Row) :
  NoDup (omap key rows) -> NoDup (omap key (insert_do_nothing_n key r rows)).
Proof.
  intros Hnd. unfold insert_do_nothing_n. destruct (key r) as [k|] eqn:Hr.
  - destruct (has_key_n key k rows) eqn:E; [assumption|].
    rewrite omap_app. cbn [omap list_omap]. rewrite Hr.
    apply NoDup_app. split; [assumption|]. split.
    + intros k' Hk Hk'. apply list_elem_of_In in Hk, Hk'.
      destruct Hk' as [<-|[]]. apply has_key_n_omap in Hk. congruence.
    + apply NoDup_singleton.
  - rewrite omap_app. cbn [omap list_omap]. rewrite Hr. now rewrite app_nil_r.
Qed.

Lemma insert_all_n_has (k : Key) (rs rows : list Row) :
  has_key_n key k (insert_all_n key rs rows)
  = (has_key_n key k rows || has_key_n key k rs)%bool.
Proof.
  unfold insert_all_n. revert rows. induction rs as [|r rs IH]; intros rows.
  - simpl. now rewrite Bool.orb_false_r.
  - cbn [fold_left]. rewrite IH, insert_do_nothing_n_has.
    unfold has_key_n at 4. cbn [existsb]. now rewrite Bool.orb_assoc.
Qed.

Lemma insert_all_n_rows_of_other (k : Key) (rs rows : list Row) :
  has_key_n key k rs = false ->
  rows_of_n key k (insert_all_n key rs rows) = rows_of_n key k rows.
Proof.
  unfold insert_all_n. revert rows. induction rs as [|r rs IH]; intros rows Hk;
    [reflexivity|].
  unfold has_key_n in Hk. cbn [existsb] in Hk. apply Bool.orb_false_iff in Hk.
  destruct Hk as [Hr Hk]. cbn [fold_left]. rewrite IH by exact Hk.
  apply insert_do_nothing_n_rows_of_other. now apply key_is_neq.
Qed.

Lemma insert_all_n_NoDup (rs rows : list Row) :
  NoDup (omap key rows) -> NoDup (omap key (insert_all_n key rs rows)).
Proof.
  unfold insert_all_n. revert rows. induction rs as [|r rs IH]; intros rows Hnd;
    [assumption|].
  cbn [fold_left]. apply IH. now apply insert_do_nothing_n_NoDup.
Qed.

(** The rows a sequence of [DO NOTHING] inserts adds are rows of the
    sequence; the rows that were there stay as they are. *)
Lemma insert_all_n_extends (rs rows : list Row) :
  exists added,
    insert_all_n key rs rows = (rows ++ added)%list /\
    forall r, In r added -> In r rs.
Proof.
  unfold insert_all_n. revert rows. induction rs as [|r rs IH]; intros rows.
  - exists []. split; [now rewrite app_nil_r | intros r []].
  - cbn [fold_left]. destruct (IH (insert_do_nothing_n key r rows)) as (added & Heq & Hadd).
    assert (Hcase : insert_do_nothing_n key r rows = rows \/
                    insert_do_nothing_n key r rows = (rows ++ [r])%list).
    { unfold insert_do_nothing_n. destruct (key r) as [k|]; [|now right].
      destruct (has_key_n key k rows); [now left | now right]. }
    destruct Hcase as [E|E]; rewrite E in *.
    + exists added. split; [assumption|]. intros x Hx. right. auto.
    + exists (r :: added). split.
      * rewrite Heq, <- app_assoc. reflexivity.
      * intros x [<-|Hx]; [now left | right; auto].
Qed.

Lemma filter_insert_all_n_other (p : Row -> bool) (rs rows : list Row) :
  (forall r, In r rs -> p r = false) ->
  List.filter p (insert_all_n key rs rows) = List.filter p rows.
Proof.
  intros Hrs. destruct (insert_all_n_extends rs rows) as (added & -> & Hadded).
  rewrite List.filter_app. replace (List.filter p added) with (@nil Row).
  - apply app_nil_r.
  - symmetry. induction added as [|r added IH]; [reflexivity|].
    cbn [List.filter]. rewrite (Hrs r) by (apply Hadded; now left).
    apply IH. intros x Hx. apply Hadded. now right.
Qed.

Lemma delete_key_n_has (k k' : Key) (rows : list Row) :
  has_key_n key k' (delete_key_n key k rows)
  = (has_key_n key k' rows && negb (key_eqb k k'))%bool.
Proof.
  unfold has_key_n, delete_key_n. induction rows as [|r rows IH]; [reflexivity|].
  cbn [List.filter existsb].
  destruct (key_is key k r) eqn:E; cbn [negb existsb]; rewrite IH.
  - destruct (key_is key k' r) eqn:E'; [|reflexivity].
    apply key_is_eq in E, E'. assert (k = k') as -> by congruence.
    rewrite key_eqb_refl. cbn. now rewrite Bool.andb_false_r.
  - destruct (key_is key k' r) eqn:E'; [|reflexivity].
    apply key_is_eq in E'. apply key_is_neq in E.
    assert (Hne : key_eqb k k' = false) by (apply key_eqb_neq; congruence).
    rewrite Hne. reflexivity.
Qed.

Lemma delete_key_n_rows_of_other (k k' : Key) (rows : list Row) :
  k <> k' -> rows_of_n key k' (delete_key_n key k rows) = rows_of_n key k' rows.
Proof.
  intros Hk. unfold rows_of_n, delete_key_n. induction rows as [|r rows IH]; [reflexivity|].
  cbn [List.filter]. destruct (key_is key k r) eqn:E; cbn [negb List.filter].
  - apply key_is_eq in E.
    assert (E' : key_is key k' r = false) by (apply key_is_neq; congruence).
    now rewrite E'.
  - destruct (key_is key k' r); [f_equal|]; exact IH.
Qed.

Lemma filter_omap_NoDup (p : Row -> bool) (rows : list Row) :
  NoDup (omap key rows) -> NoDup (omap key (List.filter p rows)).
Proof.
  induction rows as [|r rows IH]; intros Hnd; [assumption|].
  assert (Hrest : NoDup (omap key rows)).
  { cbn [omap list_omap] in Hnd. destruct (key r); [now apply NoDup_cons in Hnd | assumption]. }
  cbn [List.filter]. destruct (p r); [|now apply IH].
  cbn [omap list_omap] in *. destruct (key r) as [kr|]; [|now apply IH].
  apply NoDup_cons in Hnd. destruct Hnd as [Hr _]. apply NoDup_cons. split; [|now apply IH].
  intros Hin. apply Hr. apply list_elem_of_omap in Hin. destruct Hin as (x & Hx & Hkx).
  apply list_elem_of_omap. exists x. split; [|assumption].
  apply list_elem_of_In in Hx. apply filter_In in Hx. apply list_elem_of_In. tauto.
Qed.

Lemma delete_key_n_NoDup (k : Key) (rows : list Row) :
  NoDup (omap key rows) -> NoDup (omap key (delete_key_n key k rows)).
Proof. apply filter_omap_NoDup. Qed.

End NullableTableFacts.

(** ** Text columns *)

Lemma char_length_clip (n : nat) (s : string) : (char_length (clip n s) <= n)%nat.
Proof.
  revert n. induction s as [|c r IH]; intros n; [simpl; lia|].
  cbn [clip]. destruct (is_continuation c) eqn:E.
  - cbn [char_length]. rewrite E. apply IH.
  - destruct n as [|m]; [simpl; lia|]. cbn [char_length]. rewrite E.
    specialize (IH m). lia.
Qed.

Lemma clip_short (n : nat) (s : string) :
  (char_length s <= n)%nat -> clip n s = s /\ excess n s = EmptyString.
Proof.
  revert n. induction s as [|c r IH]; intros n Hn; [split; reflexivity|].
  cbn [char_length] in Hn. cbn [clip excess]. destruct (is_continuation c).
  - destruct (IH n Hn) as [-> ->]. split; reflexivity.
  - destruct n as [|m]; [lia|]. destruct (IH m ltac:(lia)) as [-> ->].
    split; reflexivity.
Qed.

(** A column keeps a text as it is exactly when the text has no
    [U+0000] and at most [n] characters. *)
Lemma varchar_keeps (n : nat) (s : string) :
  varchar n s = Some s <-> has_nul s = false /\ (char_length s <= n)%nat.
Proof.
  unfold varchar. split.
  - destruct (has_nul s); [discriminate|].
    destruct (all_spaces (excess n s)); [|discriminate].
    intros [= E]. split; [reflexivity|]. rewrite <- E. apply char_length_clip.
  - intros [-> Hn]. destruct (clip_short n s Hn) as [-> ->]. reflexivity.
Qed.

Lemma has_categorization_In (k : Key) (db : Database) :
  has_categorization k db = true <->
  In k (map categorization_key (transaction_categorizations db)).
Proof. apply has_key_In. Qed.

Lemma has_manual_review_In (k : Key) (db : Database) :
  has_manual_review k db = true <->
  In (Some k) (map manual_review_key (manual_review_transactions db)).
Proof. apply has_key_n_In. Qed.

Lemma categorized_ids_has (conn : Connection) (u : Z) (db : Database) (ids : gset string) :
  select_categorized_ids conn u db = Fulfilled ids ->
  forall t, bool_decide (t ∈ ids) = has_categorization (u, t) db.
Proof.
  unfold select_categorized_ids. destruct (conn _); [|discriminate].
  intros [= <-] t. apply Bool.eq_true_iff_eq.
  rewrite bool_decide_eq_true, elem_of_list_to_set, list_elem_of_In.
  rewrite has_categorization_In, !in_map_iff. split.
  - intros (r & Ht & Hr). apply filter_In in Hr. destruct Hr as [Hr Hu].
    apply Z.eqb_eq in Hu. exists r. unfold categorization_key. split; [congruence | assumption].
  - intros (r & Hk & Hr). injection Hk as Hu Ht. exists r. split; [assumption|].
    apply filter_In. split; [assumption | now apply Z.eqb_eq].
Qed.

Lemma manual_review_ids_has (conn : Connection) (u : Z) (db : Database) (ids : gset string) :
  select_manual_review_ids conn u db = Fulfilled ids ->
  forall t, bool_decide (t ∈ ids) = has_manual_review (u, t) db.
Proof.
  unfold select_manual_review_ids. destruct (conn _); [|discriminate].
  intros [= <-] t. apply Bool.eq_true_iff_eq.
  rewrite bool_decide_eq_true, elem_of_list_to_set, list_elem_of_omap.
  rewrite has_manual_review_In, in_map_iff. split.
  - intros (r & Hr & Ht). apply list_elem_of_In, filter_In in Hr. destruct Hr as [Hr Hu].
    apply Z.eqb_eq in Hu. exists r. unfold manual_review_key. rewrite Ht, Hu.
    split; [reflexivity | assumption].
  - intros (r & Hk & Hr). unfold manual_review_key in Hk.
    destruct (m_transaction_id r) as [t'|] eqn:Ht; [|discriminate].
    injection Hk as Hu ->. exists r. split; [|assumption].
    apply list_elem_of_In, filter_In. split; [assumption | now apply Z.eqb_eq].
Qed.

(** The test that guards [continue] is the specification's "already
    known" test. *)
Lemma skip_test_known (conn : Connection) (u : Z) (db : Database)
    (categorizedIds manualReviewIds : gset string) :
  select_categorized_ids conn u db = Fulfilled categorizedIds ->
  select_manual_review_ids conn u db = Fulfilled manualReviewIds ->
  forall tx,
    (Set_has categorizedIds (transaction_id tx)
     || Set_has manualReviewIds (transaction_id tx))%bool = known_spec u db tx.
Proof.
  intros Hc Hm tx. unfold Set_has, known_spec.
  destruct (transaction_id tx) as [t|]; [|reflexivity].
  now rewrite (categorized_ids_has _ _ _ _ Hc), (manual_review_ids_has _ _ _ _ Hm).
Qed.

(** ** The loop against the specification's filter and classifier *)

Lemma decision_spec_code (tx : Transaction) (code : string) :
  plaidCategory_of tx = Some code ->
  decision_spec tx =
  if bool_decide (code ∈ AUTO_CATEGORIZE_PLAID_CATEGORIES)
  then Auto (display_category code) else Manual.
Proof. unfold decision_spec. now intros ->. Qed.

Lemma decision_spec_none (tx : Transaction) :
  plaidCategory_of tx = None -> decision_spec tx = Manual.
Proof. unfold decision_spec. now intros ->. Qed.

Lemma classify_loop_spec (u : Z) (cids mids : gset string)
    (txs : list Transaction) (autos : list Statement) (manuals : list Transaction) :
  let fresh := List.filter
                 (fun tx => negb (Set_has cids (transaction_id tx)
                                  || Set_has mids (transaction_id tx))) txs in
  classify_loop u cids mids txs autos manuals =
  ((autos ++ auto_statements_spec u fresh)%list,
   (manuals ++ manual_transactions_spec fresh)%list).
Proof.
  cbv zeta. revert autos manuals.
  induction txs as [|tx txs IH]; intros autos manuals.
  - simpl. now rewrite !app_nil_r.
  - cbn [classify_loop List.filter].
    destruct (Set_has cids (transaction_id tx) || Set_has mids (transaction_id tx))%bool;
      cbn [negb]; [apply IH|].
    unfold auto_statements_spec, manual_transactions_spec.
    cbn [omap list_omap List.filter].
    destruct (plaidCategory_of tx) as [code|] eqn:Hp.
    + rewrite rule_test_elem_of, (decision_spec_code _ _ Hp).
      destruct (bool_decide (code ∈ AUTO_CATEGORIZE_PLAID_CATEGORIES)).
      * rewrite IH. unfold auto_insert. rewrite cleanCategory_display_category.
        rewrite <- app_assoc. reflexivity.
      * rewrite IH. rewrite <- app_assoc. reflexivity.
    + rewrite (decision_spec_none _ Hp), IH, <- app_assoc. reflexivity.
Qed.

Lemma classify_loop_dedup (conn : Connection) (u : Z) (db : Database)
    (cids mids : gset string) (txs : list Transaction) :
  select_categorized_ids conn u db = Fulfilled cids ->
  select_manual_review_ids conn u db = Fulfilled mids ->
  classify_loop u cids mids txs [] [] =
  (auto_statements_spec u (dedup_spec u db txs),
   manual_transactions_spec (dedup_spec u db txs)).
Proof.
  intros Hc Hm. rewrite classify_loop_spec. cbn [app].
  unfold dedup_spec.
  rewrite (filter_ext _ (fun tx => negb (known_spec u db tx))); [reflexivity|].
  intros tx. now rewrite (skip_test_known _ _ _ _ _ Hc Hm).
Qed.

Lemma decision_lengths (u : Z) (txs : list Transaction) :
  (List.length (auto_statements_spec u txs)
   + List.length (manual_transactions_spec txs) = List.length txs)%nat.
Proof.
  unfold auto_statements_spec, manual_transactions_spec.
  induction txs as [|tx txs IH]; [reflexivity|].
  cbn [omap list_omap List.filter]. destruct (decision_spec tx); simpl; lia.
Qed.

(** ** What the awaited groups of inserts do to the tables *)

Lemma with_categorizations_id (db : Database) :
  with_categorizations db (transaction_categorizations db) = db.
Proof. now destruct db. Qed.

Lemma with_manual_review_id (db : Database) :
  with_manual_review db (manual_review_transactions db) = db.
Proof. now destruct db. Qed.

Lemma pool_query_categorization (conn : Connection) (now : Z) (st : Statement)
    (db : Database) :
  is_categorization_insert st = true ->
  pool_query conn now st db =
  (match categorization_proposed conn now st with
   | Some row =>
       with_categorizations db
         (insert_do_nothing categorization_key row (transaction_categorizations db))
   | None => db
   end, negb (write_fails conn now st)).
Proof.
  destruct st as [| |u t c d| | |]; try discriminate. intros _.
  unfold pool_query, write_fails, categorization_proposed.
  destruct (conn _); [|reflexivity].
  cbn [execute]. unfold insert_categorization_do_nothing.
  now destruct (categorization_values now u t c d).
Qed.

Lemma pool_query_manual_review (conn : Connection) (now : Z) (st : Statement)
    (db : Database) :
  is_manual_review_insert st = true ->
  pool_query conn now st db =
  (match manual_review_proposed conn now st with
   | Some row =>
       with_manual_review db
         (insert_do_nothing_n manual_review_key row (manual_review_transactions db))
   | None => db
   end, negb (write_fails conn now st)).
Proof.
  destruct st as [| | |u t d| |]; try discriminate. intros _.
  unfold pool_query, write_fails, manual_review_proposed.
  destruct (conn _); [|reflexivity].
  cbn [execute]. unfold insert_manual_review_do_nothing.
  now destruct (manual_review_values now u t d).
Qed.

Lemma Promise_all_categorizations (conn : Connection) (now : Z)
    (sts : list Statement) (db : Database) :
  forallb is_categorization_insert sts = true ->
  Promise_all conn now sts db =
  (with_categorizations db
     (insert_all categorization_key (omap (categorization_proposed conn now) sts)
        (transaction_categorizations db)),
   negb (existsb (write_fails conn now) sts)).
Proof.
  revert db. induction sts as [|st sts IH]; intros db Hall.
  - cbn. now rewrite with_categorizations_id.
  - cbn [forallb] in Hall. apply Bool.andb_true_iff in Hall. destruct Hall as [Hst Hall].
    cbn [Promise_all]. rewrite (pool_query_categorization _ _ _ _ Hst).
    rewrite (IH _ Hall). cbn [omap list_omap existsb].
    rewrite Bool.negb_orb.
    destruct (categorization_proposed conn now st); reflexivity.
Qed.

Lemma Promise_all_manual_reviews (conn : Connection) (now : Z)
    (sts : list Statement) (db : Database) :
  forallb is_manual_review_insert sts = true ->
  Promise_all conn now sts db =
  (with_manual_review db
     (insert_all_n manual_review_key (omap (manual_review_proposed conn now) sts)
        (manual_review_transactions db)),
   negb (existsb (write_fails conn now) sts)).
Proof.
  revert db. induction sts as [|st sts IH]; intros db Hall.
  - cbn. now rewrite with_manual_review_id.
  - cbn [forallb] in Hall. apply Bool.andb_true_iff in Hall. destruct Hall as [Hst Hall].
    cbn [Promise_all]. rewrite (pool_query_manual_review _ _ _ _ Hst).
    rewrite (IH _ Hall). cbn [omap list_omap existsb].
    rewrite Bool.negb_orb.
    destruct (manual_review_proposed conn now st); reflexivity.
Qed.

(** The [length > 0] tests only skip an empty [Promise.all]. *)
Lemma Promise_all_guard (conn : Connection) (now : Z) (sts : list Statement)
    (db : Database) :
  (if Nat.ltb 0 (List.length sts) then Promise_all conn now sts db else (db, true))
  = Promise_all conn now sts db.
Proof. now destruct sts. Qed.

Lemma auto_statements_are_inserts (u : Z) (txs : list Transaction) :
  forallb is_categorization_insert (auto_statements_spec u txs) = true.
Proof.
  unfold auto_statements_spec. induction txs as [|tx txs IH]; [reflexivity|].
  cbn [omap list_omap]. destruct (decision_spec tx); [|exact IH].
  cbn [forallb is_categorization_insert]. exact IH.
Qed.

Lemma manual_inserts_are_inserts (u : Z) (txs : list Transaction) :
  forallb is_manual_review_insert (map (manual_insert u) txs) = true.
Proof. induction txs as [|tx txs IH]; [reflexivity | exact IH]. Qed.

(** The function after its lookups, in terms of the deduplicated batch. *)
Lemma classify_and_persist_dedup (conn : Connection) (now : Z)
    (txs : list Transaction) (u : Z) (cids mids : gset string) (db : Database) :
  select_categorized_ids conn u db = Fulfilled cids ->
  select_manual_review_ids conn u db = Fulfilled mids ->
  classify_and_persist conn now txs u cids mids db =
  partition_and_persist_spec conn now u db (dedup_spec u db txs).
Proof.
  intros Hc Hm. unfold classify_and_persist, partition_and_persist_spec.
  rewrite (classify_loop_dedup _ _ _ _ _ _ Hc Hm).
  rewrite Promise_all_guard.
  rewrite Promise_all_categorizations by apply auto_statements_are_inserts.
  fold (auto_rows conn now u (dedup_spec u db txs)).
  destruct (existsb (write_fails conn now) (auto_statements_spec u (dedup_spec u db txs)));
    cbn [negb]; [reflexivity|].
  rewrite <- (length_map (manual_insert u)), Promise_all_guard.
  rewrite Promise_all_manual_reviews by apply manual_inserts_are_inserts.
  fold (manual_rows conn now u (dedup_spec u db txs)).
  destruct (existsb (write_fails conn now) _); reflexivity.
Qed.

Lemma partition_and_persist_nil (conn : Connection) (now u : Z) (db : Database) :
  partition_and_persist_spec conn now u db []
  = (db, Fulfilled {| autoCount := 0; manualCount := 0 |}).
Proof. now destruct db. Qed.

Lemma select_categorized_ids_carried (conn : Connection) (u : Z) (db : Database) :
  conn (SelectCategorizedIds u) = true ->
  exists ids, select_categorized_ids conn u db = Fulfilled ids.
Proof. unfold select_categorized_ids. intros ->. eauto. Qed.

Lemma select_manual_review_ids_carried (conn : Connection) (u : Z) (db : Database) :
  conn (SelectManualReviewIds u) = true ->
  exists ids, select_manual_review_ids conn u db = Fulfilled ids.
Proof. unfold select_manual_review_ids. intros ->. eauto. Qed.

Lemma process_nil (conn : Connection) (now u : Z) (db : Database) :
  processTransactionsForCategorization conn now [] u db
  = partition_and_persist_spec conn now u db (dedup_spec u db []).
Proof.
  unfold dedup_spec. cbn [List.filter]. now rewrite partition_and_persist_nil.
Qed.

(** With both lookups carried, the whole function is partition and
    persist over the deduplicated batch. *)
Lemma process_lookups_carried (conn : Connection) (now : Z)
    (txs : list Transaction) (u : Z) (db : Database) :
  conn (SelectCategorizedIds u) = true ->
  conn (SelectManualReviewIds u) = true ->
  processTransactionsForCategorization conn now txs u db
  = partition_and_persist_spec conn now u db (dedup_spec u db txs).
Proof.
  intros Hc Hm. unfold processTransactionsForCategorization.
  destruct txs as [|tx txs].
  - apply process_nil.
  - cbn [List.length Nat.eqb].
    destruct (select_categorized_ids_carried _ _ db Hc) as (cids & Hcids).
    destruct (select_manual_review_ids_carried _ _ db Hm) as (mids & Hmids).
    rewrite Hcids, Hmids. now apply classify_and_persist_dedup.
Qed.

(** Every run either stopped at a rejected lookup, tables untouched, or
    is partition and persist over the deduplicated batch. *)
Lemma process_inv (conn : Connection) (now : Z)
    (txs : list Transaction) (u : Z) (db : Database) :
  processTransactionsForCategorization conn now txs u db = (db, Rejected) \/
  processTransactionsForCategorization conn now txs u db
  = partition_and_persist_spec conn now u db (dedup_spec u db txs).
Proof.
  destruct (conn (SelectCategorizedIds u)) eqn:Hc.
  - destruct (conn (SelectManualReviewIds u)) eqn:Hm.
    + right. now apply process_lookups_carried.
    + destruct txs as [|tx txs].
      * right. apply process_nil.
      * left. unfold processTransactionsForCategorization, select_categorized_ids,
          select_manual_review_ids. cbn [List.length Nat.eqb]. now rewrite Hc, Hm.
  - destruct txs as [|tx txs].
    + right. apply process_nil.
    + left. unfold processTransactionsForCategorization, select_categorized_ids.
      cbn [List.length Nat.eqb]. now rewrite Hc.
Qed.

(** The tables after partition and persist. *)
Lemma partition_and_persist_categorizations (conn : Connection) (now u : Z)
    (db : Database) (fresh : list Transaction) :
  transaction_categorizations (fst (partition_and_persist_spec conn now u db fresh))
  = insert_all categorization_key (auto_rows conn now u fresh)
      (transaction_categorizations db).
Proof.
  unfold partition_and_persist_spec.
  destruct (existsb _ (auto_statements_spec u fresh)); [reflexivity|].
  destruct (existsb _ _); reflexivity.
Qed.

Lemma partition_and_persist_manual_reviews (conn : Connection) (now u : Z)
    (db : Database) (fresh : list Transaction) :
  manual_review_transactions (fst (partition_and_persist_spec conn now u db fresh))
  = if existsb (write_fails conn now) (auto_statements_spec u fresh)
    then manual_review_transactions db
    else insert_all_n manual_review_key (manual_rows conn now u fresh)
           (manual_review_transactions db).
Proof.
  unfold partition_and_persist_spec.
  destruct (existsb _ (auto_statements_spec u fresh)); [reflexivity|].
  destruct (existsb _ _); reflexivity.
Qed.

Lemma partition_and_persist_outcome (conn : Connection) (now u : Z)
    (db : Database) (fresh : list Transaction) :
  snd (partition_and_persist_spec conn now u db fresh)
  = if (existsb (write_fails conn now) (auto_statements_spec u fresh)
        || existsb (write_fails conn now)
             (map (manual_insert u) (manual_transactions_spec fresh)))%bool
    then Rejected
    else Fulfilled {| autoCount := List.length (auto_statements_spec u fresh);
                      manualCount := List.length (manual_transactions_spec fresh) |}.
Proof.
  unfold partition_and_persist_spec.
  destruct (existsb _ (auto_statements_spec u fresh)); [reflexivity|].
  destruct (existsb _ _); reflexivity.
Qed.

(** ** The rows proposed for a batch *)

Lemma categorization_values_row (now u : Z) (t c d : option string)
    (r : CategorizationRow) :
  categorization_values now u t c d = Some r ->
  exists t' c', varchar_not_null 255 t = Some t' /\ varchar_not_null 100 c = Some c' /\
    r = {| c_user_id := u; c_transaction_id := t'; c_category := c';
           c_plaid_data := d; c_created_at := now |}.
Proof.
  unfold categorization_values.
  destruct (varchar_not_null 255 t) as [t'|]; [|discriminate].
  destruct (varchar_not_null 100 c) as [c'|]; [|discriminate].
  destruct (jsonb_takes d); [|discriminate].
  intros [= <-]. eauto.
Qed.

(** The key of a proposed row is made of the id as the column stores
    it. *)
Lemma categorization_values_key (now u : Z) (t c d : option string)
    (r : CategorizationRow) :
  categorization_values now u t c d = Some r ->
  exists t', varchar_not_null 255 t = Some t' /\ categorization_key r = (u, t').
Proof.
  intros H. apply categorization_values_row in H.
  destruct H as (t' & c' & Ht & _ & ->). now exists t'.
Qed.

Lemma manual_review_values_row (now u : Z) (t d : option string)
    (r : ManualReviewRow) :
  manual_review_values now u t d = Some r ->
  r = {| m_user_id := u; m_transaction_id := t; m_transaction_data := d;
         m_created_at := now |}.
Proof.
  unfold manual_review_values. destruct (_ && _)%bool; [|discriminate].
  now intros [= <-].
Qed.

Lemma manual_review_values_key (now u : Z) (t d : option string)
    (r : ManualReviewRow) :
  manual_review_values now u t d = Some r ->
  manual_review_key r = match t with Some t' => Some (u, t') | None => None end.
Proof. intros H. apply manual_review_values_row in H. now subst r. Qed.


Lemma auto_statements_In (u : Z) (txs : list Transaction) (st : Statement) :
  In st (auto_statements_spec u txs) <->
  exists tx category,
    In tx txs /\ decision_spec tx = Auto category /\
    st = InsertCategorization u (transaction_id tx) (Some category) (Some (json tx)).
Proof.
  unfold auto_statements_spec. rewrite <- list_elem_of_In, list_elem_of_omap. split.
  - intros (tx & Hin & Hst). apply list_elem_of_In in Hin.
    destruct (decision_spec tx) as [category|] eqn:Hd; [|discriminate].
    injection Hst as <-. eauto.
  - intros (tx & category & Hin & Hd & ->). exists tx.
    split; [now apply list_elem_of_In | now rewrite Hd].
Qed.

Lemma manual_transactions_In (txs : list Transaction) (tx : Transaction) :
  In tx (manual_transactions_spec txs) <-> In tx txs /\ decision_spec tx = Manual.
Proof.
  unfold manual_transactions_spec. rewrite filter_In.
  destruct (decision_spec tx); split; intros [H1 H2]; split; congruence.
Qed.

Lemma auto_rows_In (conn : Connection) (now u : Z) (fresh : list Transaction)
    (r : CategorizationRow) :
  In r (auto_rows conn now u fresh) <->
  exists tx category,
    In tx fresh /\ decision_spec tx = Auto category /\
    categorization_proposed conn now
      (InsertCategorization u (transaction_id tx) (Some category) (Some (json tx)))
    = Some r.
Proof.
  unfold auto_rows. rewrite <- list_elem_of_In, list_elem_of_omap. split.
  - intros (st & Hin & Hst). apply list_elem_of_In, auto_statements_In in Hin.
    destruct Hin as (tx & category & Hin & Hd & ->). eauto.
  - intros (tx & category & Hin & Hd & Hst). eexists. split; [|exact Hst].
    apply list_elem_of_In, auto_statements_In. eauto.
Qed.

Lemma manual_rows_In (conn : Connection) (now u : Z) (fresh : list Transaction)
    (r : ManualReviewRow) :
  In r (manual_rows conn now u fresh) <->
  exists tx,
    In tx fresh /\ decision_spec tx = Manual /\
    manual_review_proposed conn now (manual_insert u tx) = Some r.
Proof.
  unfold manual_rows. rewrite <- list_elem_of_In, list_elem_of_omap. split.
  - intros (st & Hin & Hst). apply list_elem_of_In, in_map_iff in Hin.
    destruct Hin as (tx & <- & Hin). apply manual_transactions_In in Hin.
    exists tx. tauto.
  - intros (tx & Hin & Hd & Hst). eexists. split; [|exact Hst].
    apply list_elem_of_In, in_map_iff. exists tx. split; [reflexivity|].
    now apply manual_transactions_In.
Qed.

(** The keys of the proposed rows are keys of deduplicated records of
    the batch, decided accordingly. *)
Lemma auto_rows_key (conn : Connection) (now u : Z) (fresh : list Transaction)
    (k : Key) :
  has_key categorization_key k (auto_rows conn now u fresh) = true ->
  exists tx t, In tx fresh /\ stored_id tx = Some t /\ k = (u, t) /\
               is_manual (decision_spec tx) = false.
Proof.
  intros H. apply has_key_In, in_map_iff in H. destruct H as (r & <- & Hr).
  apply auto_rows_In in Hr. destruct Hr as (tx & category & Hin & Hd & Hp).
  cbn [categorization_proposed] in Hp. destruct (conn _); [|discriminate].
  apply categorization_values_key in Hp. destruct Hp as (t & Ht & Hk).
  exists tx, t. rewrite Hd. auto.
Qed.

Lemma manual_rows_key (conn : Connection) (now u : Z) (fresh : list Transaction)
    (k : Key) :
  has_key_n manual_review_key k (manual_rows conn now u fresh) = true ->
  exists tx t, In tx fresh /\ transaction_id tx = Some t /\ k = (u, t) /\
               is_manual (decision_spec tx) = true.
Proof.
  intros H. apply has_key_n_In, in_map_iff in H. destruct H as (r & Hk & Hr).
  apply manual_rows_In in Hr. destruct Hr as (tx & Hin & Hd & Hp).
  cbn [manual_review_proposed manual_insert] in Hp. destruct (conn _); [|discriminate].
  apply manual_review_values_key in Hp. rewrite Hp in Hk.
  destruct (transaction_id tx) as [t|] eqn:Ht; [|discriminate].
  injection Hk as <-. exists tx, t. rewrite Hd. auto.
Qed.

(** A write that does not fail proposes a row under the key of its
    record. *)
Lemma auto_write_proposed (conn : Connection) (now u : Z) (fresh : list Transaction)
    (tx : Transaction) (category : string) :
  In tx fresh -> decision_spec tx = Auto category ->
  write_fails conn now
    (InsertCategorization u (transaction_id tx) (Some category) (Some (json tx))) = false ->
  exists t, stored_id tx = Some t /\
            has_key categorization_key (u, t) (auto_rows conn now u fresh) = true.
Proof.
  intros Hin Hd Hw. cbn [write_fails] in Hw.
  destruct (categorization_proposed conn now _) as [r|] eqn:Hp; [|discriminate].
  assert (Hr : In r (auto_rows conn now u fresh)) by (apply auto_rows_In; eauto).
  cbn [categorization_proposed] in Hp. destruct (conn _); [|discriminate].
  apply categorization_values_key in Hp. destruct Hp as (t & Ht & Hk).
  exists t. split; [assumption|]. apply has_key_In. rewrite <- Hk. now apply in_map.
Qed.

Lemma manual_write_proposed (conn : Connection) (now u : Z) (fresh : list Transaction)
    (tx : Transaction) (t : string) :
  In tx fresh -> decision_spec tx = Manual ->
  write_fails conn now (manual_insert u tx) = false ->
  transaction_id tx = Some t ->
  has_key_n manual_review_key (u, t) (manual_rows conn now u fresh) = true.
Proof.
  intros Hin Hd Hw Ht. cbn [write_fails manual_insert] in Hw.
  destruct (manual_review_proposed conn now _) as [r|] eqn:Hp; [|discriminate].
  assert (Hr : In r (manual_rows conn now u fresh)) by (apply manual_rows_In; eauto).
  unfold manual_insert in Hp. cbn [manual_review_proposed] in Hp.
  destruct (conn _); [|discriminate]. apply manual_review_values_key in Hp.
  apply has_key_n_In, in_map_iff. exists r. split; [|exact Hr].
  now rewrite Hp, Ht.
Qed.

Lemma dedup_spec_In (u : Z) (db : Database) (txs : list Transaction) (tx : Transaction) :
  In tx (dedup_spec u db txs) <-> In tx txs /\ known_spec u db tx = false.
Proof.
  unfold dedup_spec. rewrite filter_In, Bool.negb_true_iff. reflexivity.
Qed.

Lemma dedup_spec_all_known (u : Z) (db : Database) (txs : list Transaction) :
  (forall tx, In tx txs -> known_spec u db tx = true) -> dedup_spec u db txs = [].
Proof.
  intros H. unfold dedup_spec. induction txs as [|tx txs IH]; [reflexivity|].
  cbn [List.filter]. rewrite (H tx) by now left. cbn [negb].
  apply IH. intros tx' Hin. apply H. now right.
Qed.

(** * The claims *)

(** ** Classification *)

(** C4: every transaction that passed the dedup filter is decided by
    the rule table alone, wherever it stands in its batch and whatever
    the loop has collected before it.  It is decided manual (added to
    the transactions kept for review, nothing else changed) when its
    provider category code is absent or not in the rule table; when the
    code is present and in the table it is decided auto (one insert
    added to the auto inserts, nothing else changed), and the category
    written is the display category: underscores replaced by spaces,
    lowercased, each word title-cased.  So the loop, over any batch,
    yields the inserts of the deduplicated records decided auto and the
    deduplicated records decided manual, in order.  In particular
    TRANSFER_IN gives "Transfer In", ATM_FEES gives "Atm Fees", and
    FOOD_AND_DRINK goes to manual review. *)
Theorem classifier_decides_by_rule_table
    (u : Z) (cids mids : gset string) (tx : Transaction)
    (rest : list Transaction) (autos : list Statement) (manuals : list Transaction) :
  (Set_has cids (transaction_id tx) || Set_has mids (transaction_id tx))%bool = false ->
  (plaidCategory_of tx = None ->
   classify_loop u cids mids (tx :: rest) autos manuals =
   classify_loop u cids mids rest autos (manuals ++ [tx])%list) /\
  (forall code, plaidCategory_of tx = Some code ->
     ~ code ∈ AUTO_CATEGORIZE_PLAID_CATEGORIES ->
     classify_loop u cids mids (tx :: rest) autos manuals =
     classify_loop u cids mids rest autos (manuals ++ [tx])%list) /\
  (forall code, plaidCategory_of tx = Some code ->
     code ∈ AUTO_CATEGORIZE_PLAID_CATEGORIES ->
     classify_loop u cids mids (tx :: rest) autos manuals =
     classify_loop u cids mids rest
       (autos ++ [InsertCategorization u (transaction_id tx)
                    (Some (display_category code)) (Some (json tx))])%list
       manuals) /\
  (forall txs,
     classify_loop u cids mids txs autos manuals =
     ((autos ++ auto_statements_spec u
                  (List.filter
                     (fun tx' => negb (Set_has cids (transaction_id tx')
                                       || Set_has mids (transaction_id tx'))) txs))%list,
      (manuals ++ manual_transactions_spec
                    (List.filter
                       (fun tx' => negb (Set_has cids (transaction_id tx')
                                         || Set_has mids (transaction_id tx'))) txs))%list)) /\
  (forall code, cleanCategory code = display_category code) /\
  cleanCategory "TRANSFER_IN" = "Transfer In" /\
  cleanCategory "ATM_FEES" = "Atm Fees" /\
  (plaidCategory_of tx = Some "FOOD_AND_DRINK" ->
   classify_loop u cids mids (tx :: rest) autos manuals =
   classify_loop u cids mids rest autos (manuals ++ [tx])%list).
Proof.
  intros Hfresh.
  assert (Hno : forall code, plaidCategory_of tx = Some code ->
            ~ code ∈ AUTO_CATEGORIZE_PLAID_CATEGORIES ->
            classify_loop u cids mids (tx :: rest) autos manuals =
            classify_loop u cids mids rest autos (manuals ++ [tx])%list).
  { intros code Hp Hnot. cbn [classify_loop]. rewrite Hfresh, Hp, rule_test_elem_of.
    now rewrite bool_decide_eq_false_2. }
  split; [|split; [|split; [|split; [|split; [|split; [|split]]]]]].
  - intros Hp. cbn [classify_loop]. now rewrite Hfresh, Hp.
  - exact Hno.
  - intros code Hp Hin. cbn [classify_loop]. rewrite Hfresh, Hp, rule_test_elem_of.
    rewrite bool_decide_eq_true_2 by assumption.
    unfold auto_insert. now rewrite cleanCategory_display_category.
  - intros txs. apply classify_loop_spec.
  - apply cleanCategory_display_category.
  - reflexivity.
  - reflexivity.
  - intros Hp. apply (Hno _ Hp). now apply (bool_decide_eq_false_1 _).
Qed.

Lemma classifier_decides_by_rule_table_witness :
  classify_loop 1 ∅ ∅ [Scenario.T2_transfer; Scenario.T3_plain] [] [] =
  classify_loop 1 ∅ ∅ [Scenario.T3_plain]
    [InsertCategorization 1 (Some "T2") (Some "Transfer In") (Some "{}")] [].
Proof.
  pose proof (classifier_decides_by_rule_table 1 ∅ ∅ Scenario.T2_transfer
                [Scenario.T3_plain] [] [] eq_refl)
    as (_ & _ & Hauto & _).
  apply (Hauto "TRANSFER_IN" eq_refl). now apply (bool_decide_eq_true_1 _).
Defined.

(** ** The dedup filter *)

(** C3: once the two lookups have answered, the test of the loop is the
    test "the id is in the user's Categorization set or in the user's
    ManualReviewEntry set"; the loop classifies exactly the records that
    fail it; and the records that pass it are neither classified, nor
    persisted, nor counted: dropping them from the batch changes neither
    the tables nor the counts. *)
Theorem dedup_filter_selects_unknown
    (conn : Connection) (now : Z) (txs : list Transaction) (u : Z) (db : Database)
    (cids mids : gset string) :
  select_categorized_ids conn u db = Fulfilled cids ->
  select_manual_review_ids conn u db = Fulfilled mids ->
  (forall tx,
     (Set_has cids (transaction_id tx) || Set_has mids (transaction_id tx))%bool
     = known_spec u db tx) /\
  classify_loop u cids mids txs [] [] =
    classify_loop u cids mids (dedup_spec u db txs) [] [] /\
  classify_loop u cids mids txs [] [] =
    (auto_statements_spec u (dedup_spec u db txs),
     manual_transactions_spec (dedup_spec u db txs)) /\
  processTransactionsForCategorization conn now txs u db =
    processTransactionsForCategorization conn now (dedup_spec u db txs) u db.
Proof.
  intros Hc Hm.
  assert (Hidem : dedup_spec u db (dedup_spec u db txs) = dedup_spec u db txs).
  { unfold dedup_spec. induction txs as [|tx txs IH]; [reflexivity|].
    cbn [List.filter]. destruct (negb (known_spec u db tx)) eqn:E; [|exact IH].
    cbn [List.filter]. now rewrite E, IH. }
  assert (Hcc : conn (SelectCategorizedIds u) = true).
  { unfold select_categorized_ids in Hc. now destruct (conn _). }
  assert (Hcm : conn (SelectManualReviewIds u) = true).
  { unfold select_manual_review_ids in Hm. now destruct (conn _). }
  repeat split.
  - now apply (skip_test_known conn).
  - now rewrite !(classify_loop_dedup conn u db), Hidem.
  - now apply (classify_loop_dedup conn).
  - now rewrite !process_lookups_carried, Hidem.
Qed.

Lemma dedup_filter_selects_unknown_witness :
  processTransactionsForCategorization Scenario.online 7
    [Scenario.T1_income; Scenario.T2_transfer] 1 Scenario.T1_categorized =
  processTransactionsForCategorization Scenario.online 7
    [Scenario.T2_transfer] 1 Scenario.T1_categorized.
Proof.
  apply (dedup_filter_selects_unknown Scenario.online 7
           [Scenario.T1_income; Scenario.T2_transfer] 1 Scenario.T1_categorized
           {[ "T1" ]} ∅).
  - vm_compute. reflexivity.
  - vm_compute. reflexivity.
Defined.

(** ** Partition completeness *)

Lemma existsb_false_In {A : Type} (f : A -> bool) (l : list A) (x : A) :
  existsb f l = false -> In x l -> f x = false.
Proof.
  intros Hf Hin. destruct (f x) eqn:E; [|reflexivity].
  assert (existsb f l = true) by (apply existsb_exists; eauto). congruence.
Qed.

Lemma existsb_false_all {A : Type} (f : A -> bool) (l : list A) :
  (forall x, In x l -> f x = false) -> existsb f l = false.
Proof.
  intros H. destruct (existsb f l) eqn:E; [|reflexivity].
  apply existsb_exists in E. destruct E as (x & Hin & Hx).
  rewrite (H x Hin) in Hx. discriminate.
Qed.

(** With its lookups carried and no failing write, the step returns its
    counts. *)
Lemma process_returns_counts (conn : Connection) (now : Z)
    (txs : list Transaction) (u : Z) (db : Database) :
  conn (SelectCategorizedIds u) = true ->
  conn (SelectManualReviewIds u) = true ->
  (forall tx, In tx (dedup_spec u db txs) ->
     write_fails conn now (statement_for u tx) = false) ->
  exists db' r,
    processTransactionsForCategorization conn now txs u db = (db', Fulfilled r).
Proof.
  intros Hc Hm Hw. rewrite process_lookups_carried by assumption.
  pose proof (partition_and_persist_outcome conn now u db (dedup_spec u db txs)) as Hout.
  destruct (partition_and_persist_spec conn now u db (dedup_spec u db txs)) as [db' out].
  cbn [snd] in Hout. exists db'.
  rewrite !existsb_false_all in Hout.
  - cbn [orb] in Hout. rewrite Hout. eauto.
  - intros st Hst. apply in_map_iff in Hst. destruct Hst as (tx & <- & Hin).
    apply manual_transactions_In in Hin. destruct Hin as [Hin Hd].
    specialize (Hw tx Hin). unfold statement_for in Hw. now rewrite Hd in Hw.
  - intros st Hst. apply auto_statements_In in Hst.
    destruct Hst as (tx & category & Hin & Hd & ->).
    specialize (Hw tx Hin). unfold statement_for in Hw. now rewrite Hd in Hw.
Qed.

Lemma counts_by_decision (conn : Connection) (now : Z) (txs : list Transaction)
    (u : Z) (db db' : Database) (r : Counts) :
  processTransactionsForCategorization conn now txs u db = (db', Fulfilled r) ->
  autoCount r =
    List.length (List.filter (fun tx => negb (is_manual (decision_spec tx)))
                   (dedup_spec u db txs)) /\
  manualCount r =
    List.length (List.filter (fun tx => is_manual (decision_spec tx))
                   (dedup_spec u db txs)) /\
  (autoCount r + manualCount r = List.length (dedup_spec u db txs))%nat.
Proof.
  intros Hrun.
  destruct (process_inv conn now txs u db) as [Hrej|Hspec]; [congruence|].
  rewrite Hspec in Hrun. apply (f_equal snd) in Hrun.
  rewrite partition_and_persist_outcome in Hrun. cbn [snd] in Hrun.
  destruct (_ || _)%bool; [discriminate|]. injection Hrun as <-. cbn [autoCount manualCount].
  assert (Ha : forall l, List.length (auto_statements_spec u l) =
                 List.length (List.filter (fun tx => negb (is_manual (decision_spec tx))) l)).
  { unfold auto_statements_spec. induction l as [|tx l IH]; [reflexivity|].
    cbn [omap list_omap List.filter]. destruct (decision_spec tx); cbn; now rewrite ?IH. }
  assert (Hm : forall l, List.length (manual_transactions_spec l) =
                 List.length (List.filter (fun tx => is_manual (decision_spec tx)) l)).
  { unfold manual_transactions_spec. induction l as [|tx l IH]; [reflexivity|].
    cbn [List.filter]. destruct (decision_spec tx); cbn; now rewrite ?IH. }
  split; [apply Ha | split; [apply Hm | apply decision_lengths]].
Qed.

(** C2: the ingestion step returns its counts when its lookups are
    carried and no write fails; and when it returns them, every record
    that survived the dedup filter was given exactly one decision: the
    auto count is the number of survivors decided auto, the manual count
    the number of survivors decided manual, and the two add up to the
    number of survivors. *)
Theorem counts_partition_deduplicated
    (conn : Connection) (now : Z) (txs : list Transaction) (u : Z) (db : Database) :
  (conn (SelectCategorizedIds u) = true ->
   conn (SelectManualReviewIds u) = true ->
   (forall tx, In tx (dedup_spec u db txs) ->
      write_fails conn now (statement_for u tx) = false) ->
   exists db' r,
     processTransactionsForCategorization conn now txs u db = (db', Fulfilled r)) /\
  (forall db' r,
     processTransactionsForCategorization conn now txs u db = (db', Fulfilled r) ->
     autoCount r =
       List.length (List.filter (fun tx => negb (is_manual (decision_spec tx)))
                      (dedup_spec u db txs)) /\
     manualCount r =
       List.length (List.filter (fun tx => is_manual (decision_spec tx))
                      (dedup_spec u db txs)) /\
     (autoCount r + manualCount r = List.length (dedup_spec u db txs))%nat).
Proof.
  split.
  - apply process_returns_counts.
  - intros db' r. apply counts_by_decision.
Qed.

Lemma counts_partition_deduplicated_witness :
  (1 + 2 = List.length (dedup_spec 1 Scenario.T1_categorized
             [Scenario.T1_income; Scenario.T2_transfer; Scenario.T3_plain;
              Scenario.T2_food]))%nat.
Proof.
  refine (proj2 (proj2 (proj2 (counts_partition_deduplicated Scenario.online 7
           [Scenario.T1_income; Scenario.T2_transfer; Scenario.T3_plain; Scenario.T2_food]
           1 Scenario.T1_categorized)
           (fst (processTransactionsForCategorization Scenario.online 7
                   [Scenario.T1_income; Scenario.T2_transfer; Scenario.T3_plain;
                    Scenario.T2_food] 1 Scenario.T1_categorized))
           {| autoCount := 1; manualCount := 2 |} _))).
  vm_compute. reflexivity.
Defined.

(** ** Idempotence of ingestion *)

(** The tables after a run that returned its counts. *)
Lemma process_fulfilled_tables (conn : Connection) (now : Z)
    (txs : list Transaction) (u : Z) (db db' : Database) (r : Counts) :
  processTransactionsForCategorization conn now txs u db = (db', Fulfilled r) ->
  let fresh := dedup_spec u db txs in
  existsb (write_fails conn now) (auto_statements_spec u fresh) = false /\
  existsb (write_fails conn now)
    (map (manual_insert u) (manual_transactions_spec fresh)) = false /\
  transaction_categorizations db' =
    insert_all categorization_key (auto_rows conn now u fresh)
      (transaction_categorizations db) /\
  manual_review_transactions db' =
    insert_all_n manual_review_key (manual_rows conn now u fresh)
      (manual_review_transactions db).
Proof.
  intros Hrun fresh.
  destruct (process_inv conn now txs u db) as [Hrej|Hspec]; [congruence|].
  rewrite Hspec in Hrun.
  pose proof (partition_and_persist_outcome conn now u db fresh) as Hout.
  pose proof (partition_and_persist_categorizations conn now u db fresh) as Hcat.
  pose proof (partition_and_persist_manual_reviews conn now u db fresh) as Hman.
  fold fresh in Hrun. rewrite Hrun in Hout, Hcat, Hman. cbn [fst snd] in Hout, Hcat, Hman.
  destruct (existsb _ (auto_statements_spec u fresh)); [discriminate|].
  destruct (existsb _ (map _ _)); [discriminate|]. auto.
Qed.

Lemma id_kept_stored (tx : Transaction) :
  id_kept tx = true ->
  exists t, transaction_id tx = Some t /\ stored_id tx = Some t.
Proof.
  unfold id_kept, stored_id. intros Hk.
  destruct (transaction_id tx) as [t|]; [|discriminate].
  cbn [varchar_not_null]. destruct (varchar 255 t) as [t'|]; [|discriminate].
  apply String.eqb_eq in Hk. subst t'. eauto.
Qed.

(** After a run that returned its counts, every record of the batch
    that has an id of at most 255 characters is known: its id is in one
    of the two tables. *)
Lemma process_fulfilled_all_known (conn : Connection) (now : Z)
    (txs : list Transaction) (u : Z) (db db' : Database) (r : Counts) :
  processTransactionsForCategorization conn now txs u db = (db', Fulfilled r) ->
  forall tx, In tx txs ->
    (known_spec u db tx = false -> id_kept tx = true) ->
    known_spec u db' tx = true.
Proof.
  intros Hrun tx Hin Hkept.
  destruct (process_fulfilled_tables _ _ _ _ _ _ _ Hrun) as (Ha & Hm & Hcat & Hman).
  destruct (known_spec u db tx) eqn:Hk.
  - unfold known_spec in *. destruct (transaction_id tx) as [t|]; [|discriminate].
    unfold has_categorization, has_manual_review in *.
    rewrite Hcat, Hman, insert_all_has, insert_all_n_has.
    apply Bool.orb_true_iff in Hk. destruct Hk as [-> | ->]; cbn;
      now rewrite ?Bool.orb_true_r.
  - specialize (Hkept eq_refl).
    assert (Hfresh : In tx (dedup_spec u db txs)) by now apply dedup_spec_In.
    destruct (decision_spec tx) as [category|] eqn:Hd.
    + assert (Hw : write_fails conn now
                (InsertCategorization u (transaction_id tx) (Some category)
                   (Some (json tx))) = false).
      { apply (existsb_false_In _ _ _ Ha). apply auto_statements_In. eauto. }
      destruct (auto_write_proposed _ _ _ _ _ _ Hfresh Hd Hw) as (t' & Ht' & Hrow).
      destruct (id_kept_stored _ Hkept) as (t & Ht & Hs).
      assert (t' = t) as -> by congruence.
      unfold known_spec, has_categorization. rewrite Ht, Hcat, insert_all_has, Hrow.
      now rewrite Bool.orb_true_r.
    + assert (Hw : write_fails conn now (manual_insert u tx) = false).
      { apply (existsb_false_In _ _ _ Hm). apply in_map.
        now apply manual_transactions_In. }
      destruct (id_kept_stored _ Hkept) as (t & Ht & _).
      pose proof (manual_write_proposed _ _ _ _ _ _ Hfresh Hd Hw Ht) as Hrow.
      unfold known_spec, has_manual_review. rewrite Ht, Hman, insert_all_n_has, Hrow.
      now rewrite !Bool.orb_true_r.
Qed.

(** C1, as the code has it: if the ingestion step ran on a batch and
    returned its counts (so all its writes were persisted), and every
    record of the batch that was new has an id of at most 255
    characters, which the tables keep as delivered, then running the
    step again on the same batch, whatever the connection does and
    whatever the time, leaves both tables exactly as they are; counts
    it returns are 0 and 0, and it does return them when its two
    lookups are carried. *)
Theorem ingestion_idempotent
    (conn1 conn2 : Connection) (now1 now2 : Z) (txs : list Transaction) (u : Z)
    (db db1 : Database) (r1 : Counts) :
  processTransactionsForCategorization conn1 now1 txs u db = (db1, Fulfilled r1) ->
  (forall tx, In tx txs -> known_spec u db tx = false -> id_kept tx = true) ->
  fst (processTransactionsForCategorization conn2 now2 txs u db1) = db1 /\
  (forall r2,
     snd (processTransactionsForCategorization conn2 now2 txs u db1) = Fulfilled r2 ->
     autoCount r2 = 0%nat /\ manualCount r2 = 0%nat) /\
  (conn2 (SelectCategorizedIds u) = true ->
   conn2 (SelectManualReviewIds u) = true ->
   processTransactionsForCategorization conn2 now2 txs u db1
   = (db1, Fulfilled {| autoCount := 0; manualCount := 0 |})).
Proof.
  intros Hrun Hkept.
  assert (Hknown : forall tx, In tx txs -> known_spec u db1 tx = true).
  { intros tx Hin. apply (process_fulfilled_all_known _ _ _ _ _ _ _ Hrun tx Hin).
    now apply Hkept. }
  apply dedup_spec_all_known in Hknown.
  assert (Hspec : partition_and_persist_spec conn2 now2 u db1 (dedup_spec u db1 txs)
                  = (db1, Fulfilled {| autoCount := 0; manualCount := 0 |})).
  { rewrite Hknown. apply partition_and_persist_nil. }
  split; [|split].
  - destruct (process_inv conn2 now2 txs u db1) as [-> | ->]; [reflexivity|].
    now rewrite Hspec.
  - intros r2. destruct (process_inv conn2 now2 txs u db1) as [-> | ->].
    + discriminate.
    + rewrite Hspec. cbn. now intros [= <-].
  - intros Hc Hm. now rewrite process_lookups_carried.
Qed.

Lemma ingestion_idempotent_witness :
  processTransactionsForCategorization Scenario.online 8 Scenario.mixed_batch 1
    Scenario.after_mixed_batch
  = (Scenario.after_mixed_batch, Fulfilled {| autoCount := 0; manualCount := 0 |}).
Proof.
  refine (proj2 (proj2 (ingestion_idempotent Scenario.online Scenario.online 7 8
            Scenario.mixed_batch 1 Scenario.empty_db Scenario.after_mixed_batch
            {| autoCount := 1; manualCount := 2 |} _ _)) _ _).
  - vm_compute. reflexivity.
  - intros tx Hin _. cbn in Hin.
    destruct Hin as [<-|[<-|[<-|[]]]]; vm_compute; reflexivity.
  - reflexivity.
  - reflexivity.
Defined.

(** C1 as stated fails: a rule-matching record whose id is 255
    characters followed by a space is stored under the 255 characters;
    the first run returns its counts, and the second run, which does
    not find the delivered id in the table, counts the record again. *)
Lemma ingestion_idempotent_counterexample :
  snd Scenario.padded_first_run = Fulfilled {| autoCount := 1; manualCount := 0 |} /\
  has_categorization (1, Scenario.long_id) (fst Scenario.padded_first_run) = true /\
  has_categorization (1, Scenario.padded_id) (fst Scenario.padded_first_run) = false /\
  snd Scenario.padded_second_run = Fulfilled {| autoCount := 1; manualCount := 0 |}.
Proof. vm_compute. auto. Qed.

(** ** First write wins at ingestion *)


(** The tables of every run, whatever its outcome. *)
Lemma process_categorizations (conn : Connection) (now : Z)
    (txs : list Transaction) (u : Z) (db db' : Database) (out : Outcome Counts) :
  processTransactionsForCategorization conn now txs u db = (db', out) ->
  exists rows,
    (forall r, In r rows -> In r (auto_rows conn now u (dedup_spec u db txs))) /\
    transaction_categorizations db' =
      insert_all categorization_key rows (transaction_categorizations db).
Proof.
  intros Hrun. destruct (process_inv conn now txs u db) as [Hrej|Hspec].
  - exists []. split; [intros r []|]. rewrite Hrej in Hrun. now injection Hrun as <- _.
  - exists (auto_rows conn now u (dedup_spec u db txs)). split; [auto|].
    rewrite Hspec in Hrun. rewrite <- partition_and_persist_categorizations.
    now rewrite Hrun.
Qed.





(** ** Explicit categorization *)

Lemma overwrite_with_key (proposed old : CategorizationRow) :
  categorization_key (overwrite_with proposed old) = categorization_key old.
Proof. reflexivity. Qed.

Lemma overwrite_with_same_key (proposed old : CategorizationRow) :
  categorization_key old = categorization_key proposed ->
  overwrite_with proposed old = proposed.
Proof.
  destruct proposed, old. unfold categorization_key, overwrite_with. cbn.
  now intros [= -> ->].
Qed.

(** A request that was answered with success: both statements were
    run, the values met the column constraints, the row answered holds
    the id and the category as the columns store them, and the tables
    are the old ones after the upsert and the delete, the delete being
    made for the id as the request sent it. *)
Lemma categorize_fulfilled_inv (conn : Connection) (now u : Z)
    (body : CategorizeBody) (db db' : Database) (row : CategorizationRow) :
  categorize conn now u body db = (db', Fulfilled row) ->
  exists t c t' c',
    body_transaction_id body = Some t /\ body_category body = Some c /\
    varchar 255 t = Some t' /\ varchar 100 c = Some c' /\
    row = {| c_user_id := u; c_transaction_id := t'; c_category := c';
             c_plaid_data := body_plaid_data body; c_created_at := now |} /\
    transaction_categorizations db' =
      insert_do_update categorization_key (overwrite_with row) row
        (transaction_categorizations db) /\
    manual_review_transactions db' =
      delete_key_n manual_review_key (u, t) (manual_review_transactions db).
Proof.
  unfold categorize, pool_query_upsert, pool_query.
  destruct (conn (UpsertCategorization _ _ _ _)); [|discriminate].
  cbn [execute]. unfold upsert_categorization.
  destruct (categorization_values now u _ _ _) as [row'|] eqn:Hv; [|discriminate].
  destruct (conn (DeleteManualReview _ _)); [|discriminate].
  cbn [execute]. destruct (text_param _); [|discriminate]. intros [= <- <-].
  apply categorization_values_row in Hv. destruct Hv as (t' & c' & Ht & Hc & Hrow).
  destruct (body_transaction_id body) as [t|]; [|discriminate].
  destruct (body_category body) as [c|]; [|discriminate].
  cbn [varchar_not_null] in Ht, Hc.
  exists t, c, t', c'. cbn [delete_manual_review]. repeat split; assumption.
Qed.

Lemma categorize_succeeds (conn : Connection) (now u : Z)
    (body : CategorizeBody) (db : Database) (t c t' c' : string) :
  body_transaction_id body = Some t -> body_category body = Some c ->
  varchar 255 t = Some t' -> varchar 100 c = Some c' ->
  jsonb_takes (body_plaid_data body) = true ->
  conn (UpsertCategorization u (Some t) (Some c) (body_plaid_data body)) = true ->
  conn (DeleteManualReview u (Some t)) = true ->
  exists db',
    categorize conn now u body db =
    (db', Fulfilled {| c_user_id := u; c_transaction_id := t'; c_category := c';
                       c_plaid_data := body_plaid_data body; c_created_at := now |}).
Proof.
  intros Ht Hc Hlt Hlc Hj Hup Hdel.
  assert (Hnul : text_param (Some t) = true).
  { unfold varchar in Hlt. cbn [text_param]. now destruct (has_nul t). }
  unfold categorize, pool_query_upsert, pool_query. rewrite Ht, Hc, Hup.
  cbn [execute]. unfold upsert_categorization, categorization_values.
  cbn [varchar_not_null]. rewrite Hlt, Hlc, Hj, Hdel. cbn [execute].
  rewrite Hnul. eauto.
Qed.

Lemma process_manual_reviews (conn : Connection) (now : Z)
    (txs : list Transaction) (u : Z) (db db' : Database) (out : Outcome Counts) :
  processTransactionsForCategorization conn now txs u db = (db', out) ->
  exists rows,
    (forall r, In r rows -> In r (manual_rows conn now u (dedup_spec u db txs))) /\
    manual_review_transactions db' =
      insert_all_n manual_review_key rows (manual_review_transactions db).
Proof.
  intros Hrun. destruct (process_inv conn now txs u db) as [Hrej|Hspec].
  - exists []. split; [intros r []|]. rewrite Hrej in Hrun. now injection Hrun as <- _.
  - rewrite Hspec in Hrun.
    pose proof (partition_and_persist_manual_reviews conn now u db (dedup_spec u db txs)) as H.
    rewrite Hrun in H. cbn [fst] in H. destruct (existsb _ _).
    + exists []. split; [intros r []|exact H].
    + exists (manual_rows conn now u (dedup_spec u db txs)). auto.
Qed.

Lemma has_key_incl {Row : Type} (key : Row -> Key) (k : Key) (l1 l2 : list Row) :
  (forall r, In r l1 -> In r l2) ->
  has_key key k l1 = true -> has_key key k l2 = true.
Proof.
  intros Hincl H. apply has_key_In, in_map_iff in H. destruct H as (r & <- & Hr).
  apply has_key_In. apply in_map. auto.
Qed.

(** A key that is already categorized for the user gets nothing from a
    later run of the ingestion step. *)
Lemma process_skips_categorized (conn : Connection) (now : Z)
    (txs : list Transaction) (u : Z) (db db' : Database) (out : Outcome Counts)
    (t : string) :
  has_categorization (u, t) db = true ->
  processTransactionsForCategorization conn now txs u db = (db', out) ->
  categorization_of (u, t) db' = categorization_of (u, t) db /\
  manual_review_of (u, t) db' = manual_review_of (u, t) db.
Proof.
  intros Hk Hrun. split.
  - destruct (process_categorizations _ _ _ _ _ _ _ Hrun) as (rows & _ & Hcat).
    unfold categorization_of. rewrite Hcat. now apply insert_all_rows_of.
  - destruct (process_manual_reviews _ _ _ _ _ _ _ Hrun) as (rows & Hrows & Hman).
    unfold manual_review_of. rewrite Hman. apply insert_all_n_rows_of_other.
    destruct (has_key_n manual_review_key (u, t) rows) eqn:E; [|reflexivity].
    apply (has_key_n_incl _ _ _ _ Hrows), manual_rows_key in E.
    destruct E as (tx & t' & Hin & Ht & [= <-] & _).
    apply dedup_spec_In in Hin. destruct Hin as [_ Hknown].
    unfold known_spec in Hknown. rewrite Ht, Hk in Hknown. discriminate.
Qed.

Lemma dedup_spec_drop_known (u : Z) (db : Database) (txs : list Transaction)
    (t : string) :
  has_categorization (u, t) db = true ->
  dedup_spec u db (List.filter (fun tx => negb (has_id t tx)) txs) = dedup_spec u db txs.
Proof.
  intros Hk. unfold dedup_spec. induction txs as [|tx txs IH]; [reflexivity|].
  cbn [List.filter]. destruct (has_id t tx) eqn:E; cbn [negb List.filter].
  - unfold has_id in E. destruct (transaction_id tx) as [t'|] eqn:Ht; [|discriminate].
    apply String.eqb_eq in E. subst t'.
    unfold known_spec at 2. rewrite Ht, Hk. cbn. exact IH.
  - now rewrite IH.
Qed.

Lemma rows_of_present {Row : Type} (key : Row -> Key) (k : Key) (rows : list Row) :
  has_key key k rows = true -> exists r, In r (rows_of key k rows).
Proof.
  intros H. apply has_key_In, in_map_iff in H. destruct H as (r & Hk & Hr).
  exists r. now apply rows_of_key.
Qed.

(** What a request answered with success has done. *)
Lemma categorize_fulfilled_effect
    (conn : Connection) (now u : Z) (body : CategorizeBody)
    (db db' : Database) (row : CategorizationRow) :
  categorize conn now u body db = (db', Fulfilled row) ->
  exists t c t' c',
    body_transaction_id body = Some t /\ body_category body = Some c /\
    varchar 255 t = Some t' /\ varchar 100 c = Some c' /\
    row = {| c_user_id := u; c_transaction_id := t'; c_category := c';
             c_plaid_data := body_plaid_data body; c_created_at := now |} /\
    has_categorization (u, t') db' = true /\
    (forall x, In x (categorization_of (u, t') db') -> x = row) /\
    (NoDup (map categorization_key (transaction_categorizations db)) ->
     categorization_of (u, t') db' = [row]) /\
    (forall k, k <> (u, t') -> categorization_of k db' = categorization_of k db) /\
    manual_review_of (u, t) db' = [] /\
    (forall k, k <> (u, t) -> manual_review_of k db' = manual_review_of k db) /\
    (t' = t ->
     (forall conn' now' txs db'' out,
        processTransactionsForCategorization conn' now' txs u db' = (db'', out) ->
        categorization_of (u, t) db'' = categorization_of (u, t) db' /\
        manual_review_of (u, t) db'' = []) /\
     (forall conn' now' txs,
        conn' (SelectCategorizedIds u) = true ->
        conn' (SelectManualReviewIds u) = true ->
        processTransactionsForCategorization conn' now' txs u db' =
        processTransactionsForCategorization conn' now'
          (List.filter (fun tx => negb (has_id t tx)) txs) u db')).
Proof.
  intros Hrun. apply categorize_fulfilled_inv in Hrun.
  destruct Hrun as (t & c & t' & c' & Ht & Hc & Ht' & Hc' & Hrow & Hcat & Hman).
  exists t, c, t', c'.
  assert (Hkey : categorization_key row = (u, t')) by now rewrite Hrow.
  assert (Hhas : has_categorization (u, t') db' = true).
  { unfold has_categorization. rewrite Hcat.
    rewrite (has_key_map_key _ _ _ _
               (insert_do_update_keys _ _ _ _ (overwrite_with_key row))).
    rewrite insert_do_nothing_has, Hkey, key_eqb_refl. apply Bool.orb_true_r. }
  assert (Hall : forall x, In x (categorization_of (u, t') db') -> x = row).
  { intros x Hx. unfold categorization_of in Hx. rewrite Hcat, <- Hkey in Hx.
    revert Hx. apply insert_do_update_rows_of. apply overwrite_with_same_key. }
  assert (Hgone : manual_review_of (u, t) db' = []).
  { unfold manual_review_of. rewrite Hman. apply rows_of_n_absent.
    now rewrite delete_key_n_has, key_eqb_refl, Bool.andb_false_r. }
  repeat (split; [assumption|]). split; [|split; [|split; [|split]]].
  - intros Hnd.
    assert (Hnd' : NoDup (map categorization_key (transaction_categorizations db'))).
    { rewrite Hcat, (insert_do_update_keys _ _ _ _ (overwrite_with_key row)).
      now apply insert_do_nothing_NoDup. }
    pose proof (rows_of_unique categorization_key (u, t') _ Hnd') as Hle.
    destruct (rows_of_present categorization_key (u, t') _ Hhas) as (x & Hx).
    fold (categorization_of (u, t') db') in Hle, Hx. pose proof (Hall x Hx) as ->.
    destruct (categorization_of (u, t') db') as [|y [|z l]]; [destruct Hx| |cbn in Hle; lia].
    destruct Hx as [->|[]]. reflexivity.
  - intros k Hk. unfold categorization_of. rewrite Hcat.
    apply insert_do_update_rows_of_other; [apply overwrite_with_key | congruence].
  - exact Hgone.
  - intros k Hk. unfold manual_review_of. rewrite Hman.
    apply delete_key_n_rows_of_other. congruence.
  - intros ->. split.
    + intros conn' now' txs db'' out Hrun'.
      destruct (process_skips_categorized _ _ _ _ _ _ _ _ Hhas Hrun') as [H1 H2].
      now rewrite H1, H2.
    + intros conn' now' txs Hc'' Hm'. rewrite !process_lookups_carried by assumption.
      now rewrite dedup_spec_drop_known.
Qed.

(** C6, as the code has it: the explicit categorization.  A request
    whose id, category and raw data the columns take, and whose two
    statements are run, is answered with success.  A request answered
    with success has written the Categorization of its key, whether or
    not one existed, the key being made of the id as the table stores
    it:
    afterwards that key is categorized and every row under it is the
    row answered (the category as the column stores it, the raw data
    and the time of the request), exactly one row when keys were
    unique; the other keys keep their rows; no ManualReviewEntry is
    left under the id as the request sent it, and the other entries
    stay.  When the id is stored as sent (it has at most 255
    characters), a later run of the ingestion step does nothing for it:
    its Categorization stays as written, no ManualReviewEntry comes
    back, and the batch without the records of that id gives the same
    tables and counts. *)
Theorem explicit_categorization_overwrites_and_resolves
    (conn : Connection) (now u : Z) (body : CategorizeBody) (db : Database) :
  (forall t c t' c',
     body_transaction_id body = Some t -> body_category body = Some c ->
     varchar 255 t = Some t' -> varchar 100 c = Some c' ->
     jsonb_takes (body_plaid_data body) = true ->
     conn (UpsertCategorization u (Some t) (Some c) (body_plaid_data body)) = true ->
     conn (DeleteManualReview u (Some t)) = true ->
     exists db',
       categorize conn now u body db =
       (db', Fulfilled {| c_user_id := u; c_transaction_id := t'; c_category := c';
                          c_plaid_data := body_plaid_data body;
                          c_created_at := now |})) /\
  (forall db' row,
     categorize conn now u body db = (db', Fulfilled row) ->
     exists t c t' c',
       body_transaction_id body = Some t /\ body_category body = Some c /\
       varchar 255 t = Some t' /\ varchar 100 c = Some c' /\
       row = {| c_user_id := u; c_transaction_id := t'; c_category := c';
                c_plaid_data := body_plaid_data body; c_created_at := now |} /\
       has_categorization (u, t') db' = true /\
       (forall x, In x (categorization_of (u, t') db') -> x = row) /\
       (NoDup (map categorization_key (transaction_categorizations db)) ->
        categorization_of (u, t') db' = [row]) /\
       (forall k, k <> (u, t') -> categorization_of k db' = categorization_of k db) /\
       manual_review_of (u, t) db' = [] /\
       (forall k, k <> (u, t) -> manual_review_of k db' = manual_review_of k db) /\
       (t' = t ->
        (forall conn' now' txs db'' out,
           processTransactionsForCategorization conn' now' txs u db' = (db'', out) ->
           categorization_of (u, t) db'' = categorization_of (u, t) db' /\
           manual_review_of (u, t) db'' = []) /\
        (forall conn' now' txs,
           conn' (SelectCategorizedIds u) = true ->
           conn' (SelectManualReviewIds u) = true ->
           processTransactionsForCategorization conn' now' txs u db' =
           processTransactionsForCategorization conn' now'
             (List.filter (fun tx => negb (has_id t tx)) txs) u db'))) /\
  (forall t, (char_length t <= 255)%nat -> has_nul t = false -> varchar 255 t = Some t) /\
  (forall c, (char_length c <= 100)%nat -> has_nul c = false -> varchar 100 c = Some c).
Proof.
  split; [|split; [|split]].
  - intros t c t' c'. apply categorize_succeeds.
  - intros db' row. apply categorize_fulfilled_effect.
  - intros t Hl Hn. now apply varchar_keeps.
  - intros c Hl Hn. now apply varchar_keeps.
Qed.

Lemma explicit_categorization_overwrites_and_resolves_witness :
  categorization_of (1, "T2")
    (fst (categorize Scenario.online 9 1 Scenario.T2_groceries Scenario.T2_pending))
  = [ {| c_user_id := 1; c_transaction_id := "T2"; c_category := "Groceries";
         c_plaid_data := None; c_created_at := 9 |} ] /\
  manual_review_of (1, "T2")
    (fst (categorize Scenario.online 9 1 Scenario.T2_groceries Scenario.T2_pending))
  = [].
Proof.
  destruct (proj1 (proj2 (explicit_categorization_overwrites_and_resolves
                            Scenario.online 9 1
                            Scenario.T2_groceries Scenario.T2_pending))
              (fst (categorize Scenario.online 9 1 Scenario.T2_groceries
                      Scenario.T2_pending))
              {| c_user_id := 1; c_transaction_id := "T2"; c_category := "Groceries";
                 c_plaid_data := None; c_created_at := 9 |}
              eq_refl)
    as (t & c & t' & c' & Ht & Hc & Ht' & Hc' & Hrow & _ & _ & Hone & _ & Hgone & _).
  injection Ht as <-. injection Hrow as <- <-. split; [|exact Hgone].
  apply Hone. apply NoDup_nil_2.
Defined.

(** C6 as stated fails.  A request whose id is 255 characters followed
    by a space is answered with success, but the Categorization is
    stored under the 255 characters and none exists under the id of the
    request; the same transaction delivered afterwards is not found by
    the dedup filter and is counted as auto-categorized.  And a request
    whose category is 100 characters followed by a space is answered
    with a row whose category is not the one of the request. *)
Lemma explicit_categorization_counterexample :
  snd Scenario.padded_categorized
  = Fulfilled {| c_user_id := 1; c_transaction_id := Scenario.long_id;
                 c_category := "Groceries"; c_plaid_data := None;
                 c_created_at := 9 |} /\
  has_categorization (1, Scenario.padded_id) (fst Scenario.padded_categorized) = false /\
  snd Scenario.padded_redelivered = Fulfilled {| autoCount := 1; manualCount := 0 |} /\
  snd (categorize Scenario.online 9 1 Scenario.padded_category Scenario.empty_db)
  = Fulfilled {| c_user_id := 1; c_transaction_id := "T2";
                 c_category := Scenario.long_category; c_plaid_data := None;
                 c_created_at := 9 |} /\
  Some Scenario.long_category <> body_category Scenario.padded_category.
Proof. vm_compute. repeat split; try reflexivity. discriminate. Qed.

(** ** Failing writes *)

Lemma existsb_true_In {A : Type} (f : A -> bool) (l : list A) (x : A) :
  In x l -> f x = true -> existsb f l = true.
Proof. intros Hin Hf. apply existsb_exists. eauto. Qed.

(** C7, as the code has it: a failing write is not caught by the
    ingestion step.  With both lookups carried, the step is rejected
    exactly when some write of the batch failed.  Every auto write is
    attempted whatever the others do, so an auto record whose own write
    does not fail is categorized afterwards, under its id as the table
    stores it.  The manual-review writes are issued only if no auto
    write failed: otherwise the manual-review table is left as it was;
    if they are issued, each manual record with an id of at most 255
    characters whose own write does not fail is in the queue
    afterwards. *)
Theorem write_failure_rejects_the_call
    (conn : Connection) (now : Z) (txs : list Transaction) (u : Z)
    (db db' : Database) (out : Outcome Counts) :
  conn (SelectCategorizedIds u) = true ->
  conn (SelectManualReviewIds u) = true ->
  processTransactionsForCategorization conn now txs u db = (db', out) ->
  let fresh := dedup_spec u db txs in
  let auto_failed := existsb (write_fails conn now) (auto_statements_spec u fresh) in
  let manual_failed :=
    existsb (write_fails conn now) (map (manual_insert u) (manual_transactions_spec fresh)) in
  (out = Rejected <-> (auto_failed || manual_failed)%bool = true) /\
  (forall tx category,
     In tx fresh -> decision_spec tx = Auto category ->
     write_fails conn now (statement_for u tx) = false ->
     exists t, stored_id tx = Some t /\ has_categorization (u, t) db' = true) /\
  (auto_failed = true ->
   manual_review_transactions db' = manual_review_transactions db) /\
  (auto_failed = false ->
   forall tx t,
     In tx fresh -> decision_spec tx = Manual ->
     transaction_id tx = Some t -> varchar 255 t = Some t ->
     write_fails conn now (statement_for u tx) = false ->
     has_manual_review (u, t) db' = true).
Proof.
  intros Hc Hm Hrun fresh auto_failed manual_failed.
  rewrite process_lookups_carried in Hrun by assumption. fold fresh in Hrun.
  pose proof (partition_and_persist_outcome conn now u db fresh) as Hout.
  pose proof (partition_and_persist_categorizations conn now u db fresh) as Hcat.
  pose proof (partition_and_persist_manual_reviews conn now u db fresh) as Hman.
  rewrite Hrun in Hout, Hcat, Hman. cbn [fst snd] in Hout, Hcat, Hman.
  fold auto_failed in Hout, Hman. fold manual_failed in Hout.
  split; [|split; [|split]].
  - rewrite Hout. destruct (auto_failed || manual_failed)%bool; split; congruence.
  - intros tx category Hin Hd Hw. unfold statement_for in Hw. rewrite Hd in Hw.
    destruct (auto_write_proposed _ _ _ _ _ _ Hin Hd Hw) as (t & Ht & Hrow).
    exists t. split; [assumption|]. unfold has_categorization.
    rewrite Hcat, insert_all_has, Hrow. apply Bool.orb_true_r.
  - intros Hf. now rewrite Hf in Hman.
  - intros Hf tx t Hin Hd Ht _ Hw. rewrite Hf in Hman. unfold statement_for in Hw.
    rewrite Hd in Hw.
    pose proof (manual_write_proposed _ _ _ _ _ _ Hin Hd Hw Ht) as Hrow.
    unfold has_manual_review. rewrite Hman, insert_all_n_has, Hrow.
    apply Bool.orb_true_r.
Qed.

Lemma write_failure_rejects_the_call_witness :
  snd (processTransactionsForCategorization Scenario.losing_T1 7
         [Scenario.T1_income; Scenario.T2_transfer; Scenario.T3_plain] 1
         Scenario.empty_db) = Rejected /\
  exists t, stored_id Scenario.T2_transfer = Some t /\
    has_categorization (1, t)
      (fst (processTransactionsForCategorization Scenario.losing_T1 7
              [Scenario.T1_income; Scenario.T2_transfer; Scenario.T3_plain] 1
              Scenario.empty_db)) = true.
Proof.
  pose proof (write_failure_rejects_the_call Scenario.losing_T1 7
                [Scenario.T1_income; Scenario.T2_transfer; Scenario.T3_plain] 1
                Scenario.empty_db _ _ eq_refl eq_refl eq_refl) as (Hrej & Hauto & _).
  split.
  - apply Hrej. vm_compute. reflexivity.
  - apply (Hauto Scenario.T2_transfer "Transfer In").
    + vm_compute. auto.
    + vm_compute. reflexivity.
    + vm_compute. reflexivity.
Defined.

(** C7 as stated fails: the insert of T1's categorization is lost, the
    insert of T2's review entry would go through, yet the call is
    rejected and T2 is in neither table. *)
Lemma write_failure_tolerated_counterexample :
  write_fails Scenario.losing_T1 7 (statement_for 1 Scenario.T1_income) = true /\
  write_fails Scenario.losing_T1 7 (statement_for 1 Scenario.T2_food) = false /\
  snd Scenario.lost_write_run = Rejected /\
  known_spec 1 (fst Scenario.lost_write_run) Scenario.T2_food = false.
Proof. vm_compute. auto. Qed.

(** ** Records without an id *)




(** ** The steady-state invariant *)

Lemma known_spec_false (u : Z) (db : Database) (tx : Transaction) (t : string) :
  transaction_id tx = Some t -> known_spec u db tx = false ->
  has_categorization (u, t) db = false /\ has_manual_review (u, t) db = false.
Proof.
  unfold known_spec. intros ->. apply Bool.orb_false_iff.
Qed.

(** A record whose id is not cut short is stored under the id it was
    delivered with. *)
Lemma stored_id_not_cut (tx : Transaction) (t : string) :
  id_not_cut tx = true ->
  stored_id tx = Some t -> transaction_id tx = Some t.
Proof.
  unfold id_not_cut, stored_id. intros Hcut Hs.
  destruct (transaction_id tx) as [t0|]; [|discriminate].
  cbn [varchar_not_null] in Hs. rewrite Hs in Hcut.
  apply String.eqb_eq in Hcut. now subst t0.
Qed.

Lemma process_keeps_steady (conn : Connection) (now : Z)
    (txs : list Transaction) (u : Z) (db db' : Database) (out : Outcome Counts) :
  steady db -> coherent_batch txs ->
  (forall tx, In tx txs -> id_not_cut tx = true) ->
  processTransactionsForCategorization conn now txs u db = (db', out) ->
  steady db'.
Proof.
  intros [[Hndc Hndm] Hxor] Hco Hcut Hrun.
  destruct (process_categorizations _ _ _ _ _ _ _ Hrun) as (rc & Hrc & Hcat).
  destruct (process_manual_reviews _ _ _ _ _ _ _ Hrun) as (rm & Hrm & Hman).
  split; [split|].
  - rewrite Hcat. now apply insert_all_NoDup.
  - rewrite Hman. now apply insert_all_n_NoDup.
  - intros k. unfold has_categorization, has_manual_review.
    rewrite Hcat, Hman, insert_all_has, insert_all_n_has. intros Hk.
    apply Bool.orb_false_iff. apply Bool.orb_true_iff in Hk.
    destruct Hk as [Hk|Hk].
    + split; [now apply Hxor|].
      destruct (has_key_n manual_review_key k rm) eqn:E; [|reflexivity].
      apply (has_key_n_incl _ _ _ _ Hrm), manual_rows_key in E.
      destruct E as (tx & t & Hin & Ht & -> & _).
      apply dedup_spec_In in Hin. destruct Hin as [_ Hknown].
      destruct (known_spec_false _ _ _ _ Ht Hknown) as [Hc _].
      unfold has_categorization in Hc. congruence.
    + apply (has_key_incl _ _ _ _ Hrc), auto_rows_key in Hk.
      destruct Hk as (tx & t & Hin & Hs & -> & Hd).
      apply dedup_spec_In in Hin. destruct Hin as [Hin Hknown].
      pose proof (stored_id_not_cut _ _ (Hcut tx Hin) Hs) as Ht.
      destruct (known_spec_false _ _ _ _ Ht Hknown) as [_ Hm]. split; [exact Hm|].
      destruct (has_key_n manual_review_key (u, t) rm) eqn:E; [|reflexivity].
      apply (has_key_n_incl _ _ _ _ Hrm), manual_rows_key in E.
      destruct E as (tx' & t' & Hin' & Ht' & [= <-] & Hd').
      apply dedup_spec_In in Hin'. destruct Hin' as [Hin' _].
      assert (Heq : is_manual (decision_spec tx) = is_manual (decision_spec tx'))
        by (apply Hco; congruence).
      congruence.
Qed.

Lemma categorize_keeps_steady (conn : Connection) (now u : Z)
    (body : CategorizeBody) (db db' : Database) (row : CategorizationRow) (t : string) :
  steady db ->
  body_transaction_id body = Some t -> varchar 255 t = Some t ->
  categorize conn now u body db = (db', Fulfilled row) ->
  steady db'.
Proof.
  intros [[Hndc Hndm] Hxor] Hbody Hkept Hrun. apply categorize_fulfilled_inv in Hrun.
  destruct Hrun as (t0 & c & t' & c' & Ht & Hc & Ht' & Hc' & Hrow & Hcat & Hman).
  assert (t0 = t) as -> by congruence. assert (t' = t) as -> by congruence.
  assert (Hkey : categorization_key row = (u, t)) by now rewrite Hrow.
  split; [split|].
  - rewrite Hcat, (insert_do_update_keys _ _ _ _ (overwrite_with_key row)).
    now apply insert_do_nothing_NoDup.
  - rewrite Hman. now apply delete_key_n_NoDup.
  - intros k. unfold has_categorization, has_manual_review. rewrite Hcat, Hman.
    rewrite (has_key_map_key _ _ _ _
               (insert_do_update_keys _ _ _ _ (overwrite_with_key row))).
    rewrite insert_do_nothing_has, delete_key_n_has, Hkey. intros Hk.
    destruct (key_eqb (u, t) k); [apply Bool.andb_false_r|].
    rewrite Bool.orb_false_r in Hk. cbn [negb]. rewrite Bool.andb_true_r.
    now apply Hxor.
Qed.

(** C9, as the code has it: the steady state (each table holds a key at
    most once, and no key is in both) is preserved by every run of the
    ingestion step on a batch whose records sharing a transaction id
    are decided alike and in which no id is one that a [VARCHAR(255)]
    column cuts short (none has more than 255 characters with only
    spaces in excess); and by every request to categorize that is
    answered with success and whose id is stored as sent (it has at
    most 255 characters). *)
Theorem steady_state_preserved :
  (forall conn now txs u db db' out,
     steady db -> coherent_batch txs ->
     (forall tx, In tx txs -> id_not_cut tx = true) ->
     processTransactionsForCategorization conn now txs u db = (db', out) ->
     steady db') /\
  (forall conn now u body db db' row t,
     steady db ->
     body_transaction_id body = Some t -> varchar 255 t = Some t ->
     categorize conn now u body db = (db', Fulfilled row) ->
     steady db').
Proof.
  split.
  - intros conn now txs u db db' out. apply process_keeps_steady.
  - intros conn now u body db db' row t. apply categorize_keeps_steady.
Qed.

Lemma empty_db_steady : steady Scenario.empty_db.
Proof.
  split; [split; apply NoDup_nil_2|]. intros k. discriminate.
Qed.

Lemma T2_pending_steady : steady Scenario.T2_pending.
Proof.
  split; [split|].
  - apply NoDup_nil_2.
  - apply NoDup_singleton.
  - intros k. discriminate.
Qed.

Lemma long_pending_steady : steady Scenario.long_pending.
Proof.
  split; [split|].
  - apply NoDup_nil_2.
  - apply NoDup_singleton.
  - intros k. discriminate.
Qed.

Lemma steady_state_preserved_witness :
  steady (fst (processTransactionsForCategorization Scenario.online 7
                 [Scenario.T1_income; Scenario.T2_food; Scenario.T1_income] 1
                 Scenario.empty_db)) /\
  steady (fst (categorize Scenario.online 9 1 Scenario.T2_groceries
                 Scenario.T2_pending)).
Proof.
  split.
  - refine (proj1 steady_state_preserved Scenario.online 7
              [Scenario.T1_income; Scenario.T2_food; Scenario.T1_income] 1
              Scenario.empty_db _ _ empty_db_steady _ _ _).
    + intros tx1 tx2 H1 H2.
      cbn in H1, H2.
      destruct H1 as [<-|[<-|[<-|[]]]]; destruct H2 as [<-|[<-|[<-|[]]]];
        intros H; (reflexivity || discriminate H).
    + intros tx H. cbn in H.
      destruct H as [<-|[<-|[<-|[]]]]; vm_compute; reflexivity.
    + vm_compute. reflexivity.
  - refine (proj2 steady_state_preserved Scenario.online 9 1 Scenario.T2_groceries
              Scenario.T2_pending _ _ "T2" T2_pending_steady _ _ _).
    + reflexivity.
    + vm_compute. reflexivity.
    + vm_compute. reflexivity.
Defined.

(** C9 as stated fails, in four ways.  A batch delivers the id T1
    twice, once with a rule-matching code and once without a code: from
    the empty, steady database the run returns its counts and leaves T1
    both categorized and waiting for review.  A request to categorize T2, which waits
    for review, whose delete is not run: it is answered with an error,
    and T2 is both categorized and waiting.  A request to categorize,
    answered with success, whose id is the 255 characters of a waiting
    entry followed by a space: the Categorization is stored under the
    255 characters, the delete looks for the id as sent, and the entry
    stays.  And the ingestion of a rule-matching record with that
    padded id, which leaves the same state. *)
Lemma steady_state_counterexample :
  (steady Scenario.empty_db /\
   snd Scenario.clash_run = Fulfilled {| autoCount := 1; manualCount := 1 |} /\
   has_categorization (1, "T1") (fst Scenario.clash_run) = true /\
   has_manual_review (1, "T1") (fst Scenario.clash_run) = true /\
   ~ steady (fst Scenario.clash_run)) /\
  (steady Scenario.T2_pending /\
   snd Scenario.undeleted_run = Rejected /\
   has_categorization (1, "T2") (fst Scenario.undeleted_run) = true /\
   has_manual_review (1, "T2") (fst Scenario.undeleted_run) = true /\
   ~ steady (fst Scenario.undeleted_run)) /\
  (steady Scenario.long_pending /\
   snd Scenario.padded_categorize_run
   = Fulfilled {| c_user_id := 1; c_transaction_id := Scenario.long_id;
                  c_category := "Groceries"; c_plaid_data := None;
                  c_created_at := 9 |} /\
   has_categorization (1, Scenario.long_id) (fst Scenario.padded_categorize_run) = true /\
   has_manual_review (1, Scenario.long_id) (fst Scenario.padded_categorize_run) = true /\
   ~ steady (fst Scenario.padded_categorize_run)) /\
  (coherent_batch [Scenario.padded_income] /\
   snd Scenario.padded_ingestion_run
   = Fulfilled {| autoCount := 1; manualCount := 0 |} /\
   has_categorization (1, Scenario.long_id) (fst Scenario.padded_ingestion_run) = true /\
   has_manual_review (1, Scenario.long_id) (fst Scenario.padded_ingestion_run) = true /\
   ~ steady (fst Scenario.padded_ingestion_run)).
Proof.
  split; [|split; [|split]].
  - split; [apply empty_db_steady|].
    split; [vm_compute; reflexivity|]. split; [vm_compute; reflexivity|].
    split; [vm_compute; reflexivity|].
    intros [_ Hxor]. specialize (Hxor (1, "T1")). vm_compute in Hxor.
    specialize (Hxor eq_refl). discriminate.
  - split; [apply T2_pending_steady|].
    split; [vm_compute; reflexivity|]. split; [vm_compute; reflexivity|].
    split; [vm_compute; reflexivity|].
    intros [_ Hxor]. specialize (Hxor (1, "T2")). vm_compute in Hxor.
    specialize (Hxor eq_refl). discriminate.
  - split; [apply long_pending_steady|].
    split; [vm_compute; reflexivity|]. split; [vm_compute; reflexivity|].
    split; [vm_compute; reflexivity|].
    intros [_ Hxor]. specialize (Hxor (1, Scenario.long_id)).
    assert (H : has_manual_review (1, Scenario.long_id)
                  (fst Scenario.padded_categorize_run) = false)
      by (apply Hxor; vm_compute; reflexivity).
    vm_compute in H. discriminate.
  - split.
    { intros tx1 tx2 [<-|[]] [<-|[]] _. reflexivity. }
    split; [vm_compute; reflexivity|]. split; [vm_compute; reflexivity|].
    split; [vm_compute; reflexivity|].
    intros [_ Hxor]. specialize (Hxor (1, Scenario.long_id)).
    assert (H : has_manual_review (1, Scenario.long_id)
                  (fst Scenario.padded_ingestion_run) = false)
      by (apply Hxor; vm_compute; reflexivity).
    vm_compute in H. discriminate.
Qed.

(** ** Duplicates inside a batch *)

Lemma dedup_spec_keeps_new (u : Z) (db : Database) (txs : list Transaction) (t : string) :
  has_categorization (u, t) db = false -> has_manual_review (u, t) db = false ->
  List.filter (has_id t) (dedup_spec u db txs) = List.filter (has_id t) txs.
Proof.
  intros Hc Hm. unfold dedup_spec. induction txs as [|tx txs IH]; [reflexivity|].
  cbn [List.filter]. destruct (known_spec u db tx) eqn:Hk; cbn [negb List.filter].
  - destruct (has_id t tx) eqn:E; [|exact IH].
    unfold has_id in E. unfold known_spec in Hk.
    destruct (transaction_id tx) as [t'|]; [|discriminate].
    apply String.eqb_eq in E. subst t'. rewrite Hc, Hm in Hk. discriminate.
  - destruct (has_id t tx); [f_equal|]; exact IH.
Qed.

Lemma filter_length_le {A : Type} (f : A -> bool) (l : list A) :
  (List.length (List.filter f l) <= List.length l)%nat.
Proof.
  induction l as [|x l IH]; [reflexivity|]. cbn [List.filter].
  destruct (f x); cbn [List.length]; lia.
Qed.

(** C10: the dedup filter does not collapse a transaction id that
    occurs several times in one batch and is new to both tables: every
    occurrence survives the filter and is counted, so the counts add up
    to at least the number of occurrences, while each table holds the
    key at most once afterwards.  Delivering the new T3 twice gives
    manualCount = 2 for one id and one persisted row. *)
Theorem duplicates_in_batch_are_counted
    (conn : Connection) (now : Z) (txs : list Transaction) (u : Z)
    (db db' : Database) (r : Counts) (t : string) :
  processTransactionsForCategorization conn now txs u db = (db', Fulfilled r) ->
  unique_keys db ->
  has_categorization (u, t) db = false -> has_manual_review (u, t) db = false ->
  List.filter (has_id t) (dedup_spec u db txs) = List.filter (has_id t) txs /\
  (autoCount r + manualCount r = List.length (dedup_spec u db txs))%nat /\
  (List.length (List.filter (has_id t) txs) <= autoCount r + manualCount r)%nat /\
  (List.length (categorization_of (u, t) db') <= 1)%nat /\
  (List.length (manual_review_of (u, t) db') <= 1)%nat /\
  processTransactionsForCategorization Scenario.online 7
    [Scenario.T3_plain; Scenario.T3_plain] 1 Scenario.empty_db
  = ({| transaction_categorizations := [];
        manual_review_transactions :=
          [ {| m_user_id := 1; m_transaction_id := Some "T3";
               m_transaction_data := Some "{}"; m_created_at := 7 |} ] |},
     Fulfilled {| autoCount := 0; manualCount := 2 |}).
Proof.
  intros Hrun [Hndc Hndm] Hc Hm.
  pose proof (dedup_spec_keeps_new u db txs t Hc Hm) as Hkeep.
  destruct (process_fulfilled_tables _ _ _ _ _ _ _ Hrun) as (_ & _ & Hcat & Hman).
  assert (Hsum : (autoCount r + manualCount r = List.length (dedup_spec u db txs))%nat).
  { destruct (process_inv conn now txs u db) as [Hrej|Hspec]; [congruence|].
    rewrite Hspec in Hrun. apply (f_equal snd) in Hrun.
    rewrite partition_and_persist_outcome in Hrun. cbn [snd] in Hrun.
    destruct (_ || _)%bool; [discriminate|]. injection Hrun as <-.
    apply decision_lengths. }
  split; [exact Hkeep|]. split; [exact Hsum|]. split; [|split; [|split]].
  - rewrite Hsum, <- Hkeep. apply filter_length_le.
  - apply rows_of_unique. rewrite Hcat. now apply insert_all_NoDup.
  - apply rows_of_n_unique. rewrite Hman. now apply insert_all_n_NoDup.
  - vm_compute. reflexivity.
Qed.

Lemma duplicates_in_batch_are_counted_witness :
  (List.length (List.filter (has_id "T3") [Scenario.T3_plain; Scenario.T3_plain])
   <= 0 + 2)%nat /\
  (List.length (manual_review_of (1%Z, "T3")
     (fst (processTransactionsForCategorization Scenario.online 7%Z
             [Scenario.T3_plain; Scenario.T3_plain] 1%Z Scenario.empty_db))) <= 1)%nat.
Proof.
  pose proof (duplicates_in_batch_are_counted Scenario.online 7
                [Scenario.T3_plain; Scenario.T3_plain] 1 Scenario.empty_db
                _ {| autoCount := 0; manualCount := 2 |} "T3" eq_refl
                (conj (NoDup_nil_2 : NoDup (map categorization_key []))
                      (NoDup_nil_2 : NoDup (omap manual_review_key [])))
                eq_refl eq_refl)
    as (_ & _ & Hle & _ & Hone & _).
  split; [exact Hle | exact Hone].
Defined.

(** * The other routes *)

(** ** [addCategorizationData]: the category shown for a transaction *)

Lemma js_set_lookup (key value k : string) (obj : gmap string string) :
  k <> "__proto__" ->
  js_set key value obj !! k = if String.eqb key k then Some value else obj !! k.
Proof.
  intros Hk. unfold js_set. destruct (String.eqb key "__proto__") eqn:Ep.
  - apply String.eqb_eq in Ep. subst key.
    destruct (String.eqb "__proto__" k) eqn:E; [|reflexivity].
    apply String.eqb_eq in E. congruence.
  - destruct (String.eqb key k) eqn:E.
    + apply String.eqb_eq in E. subst k. apply lookup_insert_eq.
    + apply String.eqb_neq in E. now apply lookup_insert_ne.
Qed.

(** The last assignment to a key is the one that is read. *)
Lemma fold_js_set_lookup (rows : list CategorizationRow) (obj : gmap string string)
    (k : string) :
  k <> "__proto__" ->
  fold_left (fun o row => js_set (c_transaction_id row) (c_category row) o) rows obj !! k
  = match last (List.filter (same_transaction k) rows) with
    | Some r => Some (c_category r)
    | None => obj !! k
    end.
Proof.
  intros Hk. revert obj. induction rows as [|r rows IH]; intros obj; [reflexivity|].
  cbn [fold_left List.filter]. rewrite IH, js_set_lookup by assumption.
  unfold same_transaction at 2.
  destruct (String.eqb (c_transaction_id r) k).
  - rewrite last_cons. now destruct (last (List.filter (same_transaction k) rows)).
  - reflexivity.
Qed.

Lemma rows_of_user_then_id (u : Z) (t : string) (rows : list CategorizationRow) :
  List.filter (same_transaction t)
    (List.filter (fun r => Z.eqb (c_user_id r) u) rows)
  = rows_of categorization_key (u, t) rows.
Proof.
  unfold rows_of, same_transaction, key_eqb, categorization_key.
  induction rows as [|r rows IH]; [reflexivity|].
  cbn [List.filter fst snd]. destruct (Z.eqb (c_user_id r) u); cbn [andb List.filter].
  - destruct (String.eqb (c_transaction_id r) t); [f_equal|]; exact IH.
  - exact IH.
Qed.

(** The category the helper shows for an id, from the rows stored under
    the key of the user and the id. *)
Lemma shown_category (u : Z) (t : string) (db : Database) :
  t <> "__proto__" ->
  or_null (js_get t
             (categorizationMap_of
                (List.filter (fun r => Z.eqb (c_user_id r) u)
                             (transaction_categorizations db))))
  = match last (categorization_of (u, t) db) with
    | Some r => if String.eqb (c_category r) EmptyString then NoCategory
                else Category (c_category r)
    | None => if Js.includes Object_prototype_names t then InheritedMember t
              else NoCategory
    end.
Proof.
  intros Ht. unfold js_get, categorizationMap_of, categorization_of.
  rewrite fold_js_set_lookup by assumption. rewrite rows_of_user_then_id.
  destruct (last _) as [r|]; [reflexivity|]. rewrite lookup_empty.
  now destruct (Js.includes Object_prototype_names t).
Qed.

(** What the helper answers when its query is carried. *)
Lemma addCategorizationData_rows
    (pool : Pool) (txs : list Transaction) (u : Z)
    (banksResult : list BankRow) (allAccounts : list Account) (db : Database) :
  pool (SelectCategorizationPairs u) = true ->
  exists out,
    addCategorizationData pool txs u banksResult allAccounts db = Fulfilled out /\
    map annotated out = txs /\
    (forall a, In a out -> bank_name a = "Connected Bank") /\
    (forall a t, In a out -> transaction_id (annotated a) = Some t ->
       t <> "__proto__" ->
       user_category a =
       match last (categorization_of (u, t) db) with
       | Some r => if String.eqb (c_category r) EmptyString then NoCategory
                   else Category (c_category r)
       | None => if Js.includes Object_prototype_names t then InheritedMember t
                 else NoCategory
       end).
Proof.
  intros Hpool. unfold addCategorizationData. destruct txs as [|tx txs].
  - exists []. cbn. repeat split; intros a; intros; contradiction.
  - cbn [List.length Nat.eqb]. rewrite Hpool. eexists. split; [reflexivity|].
    split; [|split].
    + rewrite map_map. cbn [annotated]. apply map_id.
    + intros a Ha. apply in_map_iff in Ha. destruct Ha as (x & <- & _). reflexivity.
    + intros a t Ha Ht Hp. apply in_map_iff in Ha. destruct Ha as (x & <- & _).
      cbn [annotated user_category] in *. rewrite Ht. cbn [property_key].
      now apply shown_category.
Qed.

(** X1: with its query carried, the helper answers one annotated record
    per transaction, in order, each under the bank name "Connected
    Bank"; the category shown for a record with an id (other than
    [__proto__]) is the category of the last row stored under the key of
    the user and that id, [null] when that category is the empty string;
    without such a row it is [null], unless the id is the name of a
    member of [Object.prototype], which is then what is shown. *)
Theorem addCategorizationData_shows_stored_category
    (pool : Pool) (txs : list Transaction) (u : Z)
    (banksResult : list BankRow) (allAccounts : list Account) (db : Database) :
  pool (SelectCategorizationPairs u) = true ->
  exists out,
    addCategorizationData pool txs u banksResult allAccounts db = Fulfilled out /\
    map annotated out = txs /\
    (forall a, In a out -> bank_name a = "Connected Bank") /\
    (forall a t, In a out -> transaction_id (annotated a) = Some t ->
       t <> "__proto__" ->
       user_category a =
       match last (categorization_of (u, t) db) with
       | Some r => if String.eqb (c_category r) EmptyString then NoCategory
                   else Category (c_category r)
       | None => if Js.includes Object_prototype_names t then InheritedMember t
                 else NoCategory
       end).
Proof. apply addCategorizationData_rows. Qed.

Lemma addCategorizationData_shows_stored_category_witness :
  exists out,
    addCategorizationData Routes.reachable
      [Scenario.T1_income; Scenario.T2_food] 1 [] [] Scenario.T1_categorized
    = Fulfilled out /\
    map annotated out = [Scenario.T1_income; Scenario.T2_food].
Proof.
  destruct (addCategorizationData_shows_stored_category Routes.reachable
              [Scenario.T1_income; Scenario.T2_food] 1 [] [] Scenario.T1_categorized
              eq_refl) as (out & Hout & Hmap & _).
  exists out. split; assumption.
Defined.

Lemma last_of_equal_rows {A : Type} (l : list A) (x : A) :
  l <> [] -> (forall y, In y l -> y = x) -> last l = Some x.
Proof.
  intros Hne Hall. apply last_is_Some in Hne. destruct Hne as [y Hy].
  rewrite Hy. f_equal. apply Hall. apply list_elem_of_In.
  now apply last_Some_elem_of.
Qed.

(** X2: explicit categorization is read back by the helper.  After a
    request answered with success, every transaction carrying the id of
    the row answered (the id of the request as the table stores it) is
    shown with the category of that row (the category of the request as
    the table stores it); a request whose category is the empty string
    is stored, and shown as [null]. *)
Theorem categorized_transaction_shows_request_category
    (conn : Connection) (pool : Pool) (now u : Z) (body : CategorizeBody)
    (db db' : Database) (row : CategorizationRow)
    (txs : list Transaction) (banksResult : list BankRow) (allAccounts : list Account) :
  categorize conn now u body db = (db', Fulfilled row) ->
  pool (SelectCategorizationPairs u) = true ->
  c_transaction_id row <> "__proto__" ->
  exists out,
    addCategorizationData pool txs u banksResult allAccounts db' = Fulfilled out /\
    map annotated out = txs /\
    forall a, In a out ->
      transaction_id (annotated a) = Some (c_transaction_id row) ->
      user_category a =
      if String.eqb (c_category row) EmptyString then NoCategory
      else Category (c_category row).
Proof.
  intros Hrun Hpool Hproto.
  destruct (categorize_fulfilled_effect _ _ _ _ _ _ _ Hrun)
    as (t & c & t' & c' & Ht & Hc & Ht' & Hc' & Hrow & Hhas & Hall & _).
  assert (Hid : c_transaction_id row = t') by now rewrite Hrow.
  destruct (addCategorizationData_rows pool txs u banksResult allAccounts db' Hpool)
    as (out & Hout & Hmap & _ & Hshown).
  exists out. split; [assumption|]. split; [assumption|].
  intros a Ha Hta. rewrite (Hshown a _ Ha Hta Hproto), Hid.
  rewrite (last_of_equal_rows _ row); [reflexivity| |exact Hall].
  destruct (rows_of_present categorization_key (u, t') _ Hhas) as (x & Hx).
  intros Hnil. unfold categorization_of in Hnil. rewrite Hnil in Hx. destruct Hx.
Qed.

Lemma categorized_transaction_shows_request_category_witness :
  exists out,
    addCategorizationData Routes.reachable [Scenario.T2_food] 1 [] []
      (fst (categorize Scenario.online 9 1 Scenario.T2_groceries Scenario.T2_pending))
    = Fulfilled out /\
    map user_category out = [Category "Groceries"].
Proof.
  destruct (categorized_transaction_shows_request_category Scenario.online
              Routes.reachable 9 1 Scenario.T2_groceries Scenario.T2_pending
              (fst (categorize Scenario.online 9 1 Scenario.T2_groceries
                      Scenario.T2_pending))
              {| c_user_id := 1; c_transaction_id := "T2"; c_category := "Groceries";
                 c_plaid_data := None; c_created_at := 9 |}
              [Scenario.T2_food] [] [] eq_refl eq_refl)
    as (out & Hout & _).
  - discriminate.
  - exists out. split; [exact Hout|].
    vm_compute in Hout. injection Hout as <-. reflexivity.
Defined.

(** ** From ingestion to the shown category *)




(** ** The transactions routes *)

Lemma fetch_transactions_spec (client : PlaidClient) (start_date end_date : string)
    (banks : list BankRow) (allTransactions : list Transaction)
    (allAccounts : list Account) :
  fetch_transactions client start_date end_date banks allTransactions allAccounts
  = ((allTransactions ++ fetched_transactions client start_date end_date banks)%list,
     (allAccounts ++ fetched_accounts client start_date end_date banks)%list).
Proof.
  revert allTransactions allAccounts.
  induction banks as [|bank banks IH]; intros allTransactions allAccounts.
  - cbn. now rewrite !app_nil_r.
  - cbn [fetch_transactions fetched_transactions fetched_accounts flat_map].
    unfold bank_transactions.
    destruct (transactionsGet client _ _ _) as [transactions|].
    + destruct (accountsGet client _) as [accounts|].
      * rewrite IH. unfold fetched_transactions, fetched_accounts, bank_transactions.
        now rewrite <- !app_assoc.
      * apply IH.
    + apply IH.
Qed.

(** The route, once its query is carried and the user has a bank. *)
Lemma transactions_route_fetched (pool : Pool) (conn : Connection)
    (client : PlaidClient) (now : Z) (start_date end_date : string)
    (u : Z) (user_banks : list BankRow) (db : Database) :
  pool (SelectUserBanks u) = true ->
  banks_of u user_banks <> [] ->
  let ts := fetched_transactions client start_date end_date (banks_of u user_banks) in
  let accs := fetched_accounts client start_date end_date (banks_of u user_banks) in
  transactions_route pool conn client now start_date end_date u user_banks db
  = match processTransactionsForCategorization conn now ts u db with
    | (db', Fulfilled counts) =>
        (db', Json (Fetched ts accs
                      {| total := List.length ts;
                         auto_categorized := autoCount counts;
                         manual_review_added := manualCount counts |}))
    | (db', Rejected) => (db', ServerError)
    end.
Proof.
  intros Hpool Hbanks. cbv zeta. unfold transactions_route. rewrite Hpool.
  destruct (banks_of u user_banks) as [|bank banks] eqn:E; [congruence|].
  cbn [List.length Nat.eqb]. rewrite fetch_transactions_spec. reflexivity.
Qed.

Lemma transactions_route_inv (pool : Pool) (conn : Connection)
    (client : PlaidClient) (now : Z) (start_date end_date : string)
    (u : Z) (user_banks : list BankRow) (db db' : Database)
    (ts : list Transaction) (accs : list Account) (sm : ProcessingSummary) :
  transactions_route pool conn client now start_date end_date u user_banks db
  = (db', Json (Fetched ts accs sm)) ->
  pool (SelectUserBanks u) = true /\
  ts = fetched_transactions client start_date end_date (banks_of u user_banks) /\
  accs = fetched_accounts client start_date end_date (banks_of u user_banks) /\
  exists counts,
    processTransactionsForCategorization conn now ts u db = (db', Fulfilled counts) /\
    sm = {| total := List.length ts; auto_categorized := autoCount counts;
            manual_review_added := manualCount counts |}.
Proof.
  intros Hrun. destruct (pool (SelectUserBanks u)) eqn:Hpool.
  - destruct (banks_of u user_banks) as [|bank banks] eqn:E.
    + unfold transactions_route in Hrun. rewrite Hpool, E in Hrun. discriminate.
    + rewrite transactions_route_fetched in Hrun by (assumption || congruence).
      rewrite E in Hrun.
      destruct (processTransactionsForCategorization conn now _ u db)
        as [db1 [counts|]] eqn:Hp; [|discriminate].
      injection Hrun as <- <- <- <-. repeat split. eauto.
  - unfold transactions_route in Hrun. rewrite Hpool in Hrun. discriminate.
Qed.

(** X4: in the answer of [GET /transactions] and [POST /transactions]
    the transactions and the accounts are those of the user's banks, in
    the order of the banks, for which both the transactions call and the
    accounts call were answered: a bank one of whose calls failed adds
    neither (its fetched transactions are dropped when its accounts call
    fails); [total] is the number of those transactions; and [GET] is
    [POST] without dates. *)
Theorem transactions_answer_keeps_banks_that_answered
    (pool : Pool) (conn : Connection) (client : PlaidClient) (clock : Clock) (now : Z)
    (start_date end_date : option string)
    (u : Z) (user_banks : list BankRow) (db db' : Database)
    (ts : list Transaction) (accs : list Account) (sm : ProcessingSummary) :
  post_transactions pool conn client clock now start_date end_date u user_banks db
  = (db', Json (Fetched ts accs sm)) ->
  let s := or_else start_date (thirty_days_ago clock) in
  let e := or_else end_date (today clock) in
  ts = flat_map (fun bank =>
                   match transactionsGet client (b_access_token bank) s e,
                         accountsGet client (b_access_token bank) with
                   | Some transactions, Some _ => transactions
                   | _, _ => []
                   end) (banks_of u user_banks) /\
  accs = flat_map (fun bank =>
                     match transactionsGet client (b_access_token bank) s e,
                           accountsGet client (b_access_token bank) with
                     | Some _, Some accounts => accounts
                     | _, _ => []
                     end) (banks_of u user_banks) /\
  total sm = List.length ts /\
  get_transactions pool conn client clock now u user_banks db
  = post_transactions pool conn client clock now None None u user_banks db.
Proof.
  intros Hrun. cbv zeta. unfold post_transactions in Hrun.
  apply transactions_route_inv in Hrun.
  destruct Hrun as (_ & -> & -> & counts & _ & ->).
  split; [|split; [|split]]; try reflexivity.
  - unfold fetched_transactions, bank_transactions. apply flat_map_ext. intros bank.
    destruct (transactionsGet client _ _ _); [|reflexivity].
    now destruct (accountsGet client _).
  - unfold fetched_accounts, bank_transactions. apply flat_map_ext. intros bank.
    destruct (transactionsGet client _ _ _); [|reflexivity].
    now destruct (accountsGet client _).
Qed.

Lemma transactions_answer_keeps_banks_that_answered_witness :
  [Scenario.T1_income; Scenario.T2_food; Scenario.T3_plain]
  = flat_map (fun bank =>
                match transactionsGet Routes.client (b_access_token bank)
                        "2024-05-01" "2024-05-31",
                      accountsGet Routes.client (b_access_token bank) with
                | Some transactions, Some _ => transactions
                | _, _ => []
                end) (banks_of 1 Routes.three_banks).
Proof.
  refine (proj1 (transactions_answer_keeps_banks_that_answered Routes.reachable
            Scenario.online Routes.client Routes.clock 7 None None 1
            Routes.three_banks Scenario.empty_db Scenario.after_mixed_batch
            [Scenario.T1_income; Scenario.T2_food; Scenario.T3_plain]
            [Routes.checking; Routes.brokerage]
            {| total := 3; auto_categorized := 1; manual_review_added := 2 |} _)).
  vm_compute. reflexivity.
Defined.

Lemma filter_partition_length {A : Type} (p : A -> bool) (l : list A) :
  (List.length (List.filter p l) + List.length (List.filter (fun x => negb (p x)) l)
   = List.length l)%nat.
Proof.
  induction l as [|x l IH]; [reflexivity|]. cbn [List.filter].
  destruct (p x); cbn [negb List.length]; lia.
Qed.

(** X5: in the summary of an answer of the transactions routes, the
    records auto-categorized, the records added to manual review and
    the fetched records that were already known to one of the two
    tables add up to [total]. *)
Theorem transactions_summary_accounts_for_every_record
    (pool : Pool) (conn : Connection) (client : PlaidClient) (now : Z)
    (start_date end_date : string)
    (u : Z) (user_banks : list BankRow) (db db' : Database)
    (ts : list Transaction) (accs : list Account) (sm : ProcessingSummary) :
  transactions_route pool conn client now start_date end_date u user_banks db
  = (db', Json (Fetched ts accs sm)) ->
  (auto_categorized sm + manual_review_added sm
   + List.length (List.filter (known_spec u db) ts) = total sm)%nat.
Proof.
  intros Hrun. apply transactions_route_inv in Hrun.
  destruct Hrun as (_ & _ & _ & counts & Hp & ->).
  cbn [auto_categorized manual_review_added total].
  destruct (counts_by_decision _ _ _ _ _ _ _ Hp) as (_ & _ & Hsum).
  rewrite Hsum. unfold dedup_spec.
  pose proof (filter_partition_length (known_spec u db) ts). lia.
Qed.

Lemma transactions_summary_accounts_for_every_record_witness :
  (1 + 0 + List.length (List.filter (known_spec 1 Scenario.T1_categorized)
                          [Scenario.T1_income; Scenario.T2_transfer]) = 2)%nat.
Proof.
  refine (transactions_summary_accounts_for_every_record Routes.reachable
            Scenario.online
            {| transactionsGet := fun _ _ _ =>
                 Some [Scenario.T1_income; Scenario.T2_transfer];
               accountsGet := fun _ => Some [];
               investmentsHoldingsGet := fun _ => None;
               itemPublicTokenExchange := fun _ => None;
               itemRemove := fun _ => true |}
            7 "2024-05-01" "2024-05-31" 1 [Routes.bank 10 1 "item-a" "token-a"]
            Scenario.T1_categorized _ [Scenario.T1_income; Scenario.T2_transfer] []
            {| total := 2; auto_categorized := 1; manual_review_added := 0 |} _).
  vm_compute. reflexivity.
Defined.

(** X6: asking for the transactions again is harmless.  If a
    transactions route answered with a summary, and every fetched
    record that was new has an id of at most 255 characters, then the
    same request repeated while the provider answers the same and the
    two lookups of the ingestion step are carried, answers the same
    transactions and accounts with 0 auto-categorized and 0 added to
    manual review, and changes no table. *)
Theorem transactions_route_repeat_adds_nothing
    (pool : Pool) (conn1 conn2 : Connection) (client : PlaidClient) (now1 now2 : Z)
    (start_date end_date : string)
    (u : Z) (user_banks : list BankRow) (db db1 : Database)
    (ts : list Transaction) (accs : list Account) (sm : ProcessingSummary) :
  transactions_route pool conn1 client now1 start_date end_date u user_banks db
  = (db1, Json (Fetched ts accs sm)) ->
  (forall tx, In tx ts -> known_spec u db tx = false -> id_kept tx = true) ->
  conn2 (SelectCategorizedIds u) = true ->
  conn2 (SelectManualReviewIds u) = true ->
  transactions_route pool conn2 client now2 start_date end_date u user_banks db1
  = (db1, Json (Fetched ts accs
                  {| total := total sm; auto_categorized := 0;
                     manual_review_added := 0 |})).
Proof.
  intros Hrun Hkept Hc Hm.
  assert (Hbanks : banks_of u user_banks <> []).
  { intros E. unfold transactions_route in Hrun. rewrite E in Hrun.
    destruct (pool _); discriminate. }
  apply transactions_route_inv in Hrun.
  destruct Hrun as (Hpool & Hts & Haccs & counts & Hp & ->).
  rewrite transactions_route_fetched by assumption. rewrite <- Hts, <- Haccs.
  assert (Hknown : forall tx, In tx ts -> known_spec u db1 tx = true).
  { intros tx Hin. apply (process_fulfilled_all_known _ _ _ _ _ _ _ Hp tx Hin).
    now apply Hkept. }
  apply dedup_spec_all_known in Hknown.
  rewrite process_lookups_carried by assumption.
  rewrite Hknown, partition_and_persist_nil. reflexivity.
Qed.

Lemma transactions_route_repeat_adds_nothing_witness :
  transactions_route Routes.reachable Scenario.online Routes.client 8
    "2024-05-01" "2024-05-31" 1 Routes.three_banks Scenario.after_mixed_batch
  = (Scenario.after_mixed_batch,
     Json (Fetched [Scenario.T1_income; Scenario.T2_food; Scenario.T3_plain]
             [Routes.checking; Routes.brokerage]
             {| total := 3; auto_categorized := 0; manual_review_added := 0 |})).
Proof.
  refine (transactions_route_repeat_adds_nothing Routes.reachable Scenario.online
            Scenario.online Routes.client 7 8 "2024-05-01" "2024-05-31" 1
            Routes.three_banks Scenario.empty_db Scenario.after_mixed_batch
            [Scenario.T1_income; Scenario.T2_food; Scenario.T3_plain]
            [Routes.checking; Routes.brokerage]
            {| total := 3; auto_categorized := 1; manual_review_added := 2 |} _ _ _ _).
  - vm_compute. reflexivity.
  - intros tx Hin _. cbn in Hin.
    destruct Hin as [<-|[<-|[<-|[]]]]; vm_compute; reflexivity.
  - reflexivity.
  - reflexivity.
Defined.

(** X7: an answer 500 of a transactions route does not mean that
    nothing was written.  When the lookups are carried and the write of
    one fetched new record fails, the route answers 500, and yet every
    fetched new record decided auto whose own write does not fail is
    categorized afterwards, under its id as the table stores it. *)
Theorem transactions_error_keeps_written_categorizations
    (pool : Pool) (conn : Connection) (client : PlaidClient) (now : Z)
    (start_date end_date : string)
    (u : Z) (user_banks : list BankRow) (db : Database) (tx : Transaction) :
  pool (SelectUserBanks u) = true ->
  conn (SelectCategorizedIds u) = true ->
  conn (SelectManualReviewIds u) = true ->
  let ts := fetched_transactions client start_date end_date (banks_of u user_banks) in
  In tx (dedup_spec u db ts) ->
  write_fails conn now (statement_for u tx) = true ->
  exists db',
    transactions_route pool conn client now start_date end_date u user_banks db
    = (db', ServerError) /\
    forall tx' category,
      In tx' (dedup_spec u db ts) -> decision_spec tx' = Auto category ->
      write_fails conn now (statement_for u tx') = false ->
      exists t, stored_id tx' = Some t /\ has_categorization (u, t) db' = true.
Proof.
  intros Hpool Hc Hm ts Hin Hw.
  assert (Hbanks : banks_of u user_banks <> []).
  { intros E. subst ts. rewrite E in Hin. destruct Hin. }
  rewrite transactions_route_fetched by assumption. fold ts.
  rewrite process_lookups_carried by assumption.
  pose proof (partition_and_persist_outcome conn now u db (dedup_spec u db ts)) as Hout.
  pose proof (partition_and_persist_categorizations conn now u db (dedup_spec u db ts))
    as Hcat.
  destruct (partition_and_persist_spec conn now u db (dedup_spec u db ts))
    as [db' out]. cbn [fst snd] in Hout, Hcat. exists db'.
  assert (Hfail : (existsb (write_fails conn now)
                     (auto_statements_spec u (dedup_spec u db ts))
                   || existsb (write_fails conn now)
                        (map (manual_insert u)
                           (manual_transactions_spec (dedup_spec u db ts))))%bool
                  = true).
  { apply Bool.orb_true_iff. unfold statement_for in Hw.
    destruct (decision_spec tx) as [category|] eqn:Hd.
    - left. apply (existsb_true_In _ _ _ ltac:(apply auto_statements_In; eauto) Hw).
    - right. apply (existsb_true_In _ _ (manual_insert u tx)); [|exact Hw].
      apply in_map. now apply manual_transactions_In. }
  rewrite Hfail in Hout. subst out. split; [reflexivity|].
  intros tx' category Hin' Hd' Hw'. unfold statement_for in Hw'. rewrite Hd' in Hw'.
  destruct (auto_write_proposed _ _ _ _ _ _ Hin' Hd' Hw') as (t & Ht & Hrow).
  exists t. split; [assumption|]. unfold has_categorization.
  rewrite Hcat, insert_all_has, Hrow. apply Bool.orb_true_r.
Qed.

Lemma transactions_error_keeps_written_categorizations_witness :
  exists db',
    transactions_route Routes.reachable Scenario.losing_T1
      {| transactionsGet := fun _ _ _ =>
           Some [Scenario.T1_income; Scenario.T2_transfer];
         accountsGet := fun _ => Some [];
         investmentsHoldingsGet := fun _ => None;
         itemPublicTokenExchange := fun _ => None;
         itemRemove := fun _ => true |}
      7 "2024-05-01" "2024-05-31" 1 [Routes.bank 10 1 "item-a" "token-a"]
      Scenario.empty_db
    = (db', ServerError) /\
    has_categorization (1, "T2") db' = true.
Proof.
  destruct (transactions_error_keeps_written_categorizations Routes.reachable
              Scenario.losing_T1
              {| transactionsGet := fun _ _ _ =>
                   Some [Scenario.T1_income; Scenario.T2_transfer];
                 accountsGet := fun _ => Some [];
                 investmentsHoldingsGet := fun _ => None;
                 itemPublicTokenExchange := fun _ => None;
                 itemRemove := fun _ => true |}
              7 "2024-05-01" "2024-05-31" 1 [Routes.bank 10 1 "item-a" "token-a"]
              Scenario.empty_db Scenario.T1_income eq_refl eq_refl eq_refl)
    as (db' & Hrun & Hkept).
  - vm_compute. auto.
  - vm_compute. reflexivity.
  - exists db'. split; [exact Hrun|].
    destruct (Hkept Scenario.T2_transfer "Transfer In") as (t & Ht & Hhas).
    + vm_compute. auto.
    + vm_compute. reflexivity.
    + vm_compute. reflexivity.
    + vm_compute in Ht. injection Ht as <-. exact Hhas.
Defined.

(** ** The manual-review queue *)

Lemma insert_by_created_at_perm (r : ManualReviewRow) (rows : list ManualReviewRow) :
  Permutation (insert_by_created_at r rows) (r :: rows).
Proof.
  induction rows as [|r' rows IH]; [reflexivity|].
  cbn [insert_by_created_at]. destruct (Z.leb _ _); [reflexivity|].
  rewrite IH. apply perm_swap.
Qed.

Lemma order_by_created_at_perm (rows : list ManualReviewRow) :
  Permutation (order_by_created_at rows) rows.
Proof.
  unfold order_by_created_at. induction rows as [|r rows IH]; [reflexivity|].
  cbn [fold_right]. rewrite insert_by_created_at_perm. now apply perm_skip.
Qed.

Lemma insert_by_created_at_sorted (r : ManualReviewRow) (rows : list ManualReviewRow) :
  StronglySorted (fun a b => m_created_at a <= m_created_at b) rows ->
  StronglySorted (fun a b => m_created_at a <= m_created_at b)
    (insert_by_created_at r rows).
Proof.
  induction rows as [|r' rows IH]; intros Hs.
  - repeat constructor.
  - cbn [insert_by_created_at]. destruct (Z.leb _ _) eqn:E.
    + apply Z.leb_le in E. constructor; [assumption|].
      pose proof (StronglySorted_inv Hs) as [_ Hall].
      constructor; [assumption|].
      eapply Forall_impl; [exact Hall|]. intros a Ha. cbn in *. lia.
    + apply Z.leb_gt in E. apply StronglySorted_inv in Hs. destruct Hs as [Hs Hall].
      constructor; [now apply IH|].
      rewrite (insert_by_created_at_perm r rows). constructor; [lia | assumption].
Qed.

Lemma order_by_created_at_sorted (rows : list ManualReviewRow) :
  StronglySorted (fun a b => m_created_at a <= m_created_at b)
    (order_by_created_at rows).
Proof.
  unfold order_by_created_at. induction rows as [|r rows IH]; [constructor|].
  cbn [fold_right]. now apply insert_by_created_at_sorted.
Qed.

(** X8: the answer of the manual-review route holds the data of
    exactly the rows waiting for the user, each once, oldest first, and
    [count] is their number. *)
Theorem manual_review_answer_lists_pending_oldest_first
    (pool : Pool) (u : Z) (db : Database) (body : ManualReviewBody) :
  get_manual_review pool u db = Json body ->
  exists rows,
    Permutation rows
      (List.filter (fun r => Z.eqb (m_user_id r) u) (manual_review_transactions db)) /\
    StronglySorted (fun a b => m_created_at a <= m_created_at b) rows /\
    review_transactions body = map m_transaction_data rows /\
    review_count body = List.length rows.
Proof.
  unfold get_manual_review. destruct (pool _); [|discriminate]. intros [= <-].
  exists (pending_rows u db). unfold pending_rows. cbn [review_transactions review_count].
  split; [apply order_by_created_at_perm|]. split; [apply order_by_created_at_sorted|].
  split; [reflexivity|]. apply length_map.
Qed.

Lemma manual_review_answer_lists_pending_oldest_first_witness :
  exists rows,
    Permutation rows
      (List.filter (fun r => Z.eqb (m_user_id r) 1)
                   (manual_review_transactions Scenario.after_mixed_batch)) /\
    2%nat = List.length rows.
Proof.
  destruct (manual_review_answer_lists_pending_oldest_first Routes.reachable 1
              Scenario.after_mixed_batch
              {| review_transactions := [Some "{}"; Some "{}"]; review_count := 2 |})
    as (rows & Hperm & _ & _ & Hcount).
  - vm_compute. reflexivity.
  - exists rows. split; [exact Hperm | exact Hcount].
Defined.

Lemma filter_comm {A : Type} (p q : A -> bool) (l : list A) :
  List.filter p (List.filter q l) = List.filter q (List.filter p l).
Proof.
  induction l as [|x l IH]; [reflexivity|]. cbn [List.filter].
  destruct (p x) eqn:Hp, (q x) eqn:Hq; cbn [List.filter];
    rewrite ?Hp, ?Hq, ?IH; reflexivity.
Qed.

Lemma filter_all {A : Type} (p : A -> bool) (l : list A) :
  (forall x, In x l -> p x = true) -> List.filter p l = l.
Proof.
  induction l as [|x l IH]; intros H; [reflexivity|]. cbn [List.filter].
  rewrite (H x) by now left. f_equal. apply IH. intros y Hy. apply H. now right.
Qed.

Lemma pending_rows_user (v : Z) (db : Database) (r : ManualReviewRow) :
  In r (pending_rows v db) <->
  In r (manual_review_transactions db) /\ m_user_id r = v.
Proof.
  unfold pending_rows. rewrite <- list_elem_of_In.
  rewrite (order_by_created_at_perm _), list_elem_of_In, filter_In, Z.eqb_eq.
  reflexivity.
Qed.

(** X9: resolving a transaction takes it out of the review queue and
    leaves the rest of the queue alone.  After a request to categorize
    that was answered with success, the manual-review route answers, for
    any user, the data of exactly the rows of the former queue of that
    user whose id is not the id the request sent, oldest first; for
    another user than the one of the request these are all the rows of
    the former queue. *)
Theorem categorize_takes_transaction_out_of_queue
    (conn : Connection) (pool : Pool) (now u v : Z) (body : CategorizeBody)
    (db db' : Database) (row : CategorizationRow) :
  categorize conn now u body db = (db', Fulfilled row) ->
  pool (SelectManualReviewData v) = true ->
  exists t rows,
    body_transaction_id body = Some t /\
    get_manual_review pool v db'
    = Json {| review_transactions := map m_transaction_data rows;
              review_count := List.length rows |} /\
    Permutation rows
      (delete_key_n manual_review_key (u, t)
         (List.filter (fun r => Z.eqb (m_user_id r) v)
                      (manual_review_transactions db))) /\
    StronglySorted (fun a b => m_created_at a <= m_created_at b) rows /\
    (v <> u ->
     Permutation rows
       (List.filter (fun r => Z.eqb (m_user_id r) v) (manual_review_transactions db))).
Proof.
  intros Hrun Hpool. apply categorize_fulfilled_inv in Hrun.
  destruct Hrun as (t & c & t' & c' & Ht & Hc & _ & _ & Hrow & _ & Hman).
  exists t, (pending_rows v db'). split; [assumption|].
  assert (Hperm : Permutation (pending_rows v db')
            (delete_key_n manual_review_key (u, t)
               (List.filter (fun r => Z.eqb (m_user_id r) v)
                            (manual_review_transactions db)))).
  { unfold pending_rows. rewrite order_by_created_at_perm, Hman. unfold delete_key_n.
    now rewrite filter_comm. }
  split; [|split; [exact Hperm|split]].
  - unfold get_manual_review. now rewrite Hpool, length_map.
  - apply order_by_created_at_sorted.
  - intros Hv. rewrite Hperm. unfold delete_key_n. rewrite filter_all; [reflexivity|].
    intros r Hr. apply filter_In in Hr. destruct Hr as [_ Hr]. apply Z.eqb_eq in Hr.
    apply Bool.negb_true_iff, key_is_neq. unfold manual_review_key.
    destruct (m_transaction_id r); [|discriminate]. congruence.
Qed.

Lemma categorize_takes_transaction_out_of_queue_witness :
  exists t rows,
    body_transaction_id Scenario.T2_groceries = Some t /\
    get_manual_review Routes.reachable 1
      (fst (categorize Scenario.online 9 1 Scenario.T2_groceries Scenario.T2_pending))
    = Json {| review_transactions := map m_transaction_data rows;
              review_count := List.length rows |} /\
    Permutation rows
      (delete_key_n manual_review_key (1, t)
         (List.filter (fun r => Z.eqb (m_user_id r) 1)
                      (manual_review_transactions Scenario.T2_pending))).
Proof.
  destruct (categorize_takes_transaction_out_of_queue Scenario.online
              Routes.reachable 9 1 1 Scenario.T2_groceries Scenario.T2_pending
              (fst (categorize Scenario.online 9 1 Scenario.T2_groceries
                      Scenario.T2_pending))
              {| c_user_id := 1; c_transaction_id := "T2"; c_category := "Groceries";
                 c_plaid_data := None; c_created_at := 9 |} eq_refl eq_refl)
    as (t & rows & Ht & Hq & Hperm & _).
  exists t, rows. auto.
Defined.

(** The review rows a run leaves under a key that had none: each was
    written from a record of the batch with that id, decided manual. *)
Lemma process_new_manual_review_rows (conn : Connection) (now : Z)
    (txs : list Transaction) (u : Z) (db db' : Database) (out : Outcome Counts)
    (t : string) (row : ManualReviewRow) :
  processTransactionsForCategorization conn now txs u db = (db', out) ->
  has_manual_review (u, t) db = false ->
  In row (manual_review_of (u, t) db') ->
  exists tx,
    In tx txs /\ transaction_id tx = Some t /\ decision_spec tx = Manual /\
    row = {| m_user_id := u; m_transaction_id := Some t;
             m_transaction_data := Some (json tx); m_created_at := now |}.
Proof.
  intros Hrun Hk Hrow.
  destruct (process_manual_reviews _ _ _ _ _ _ _ Hrun) as (rows & Hrows & Hman).
  unfold manual_review_of in Hrow. rewrite Hman in Hrow.
  destruct (insert_all_n_extends manual_review_key rows
              (manual_review_transactions db)) as (added & Heq & Hadded).
  rewrite Heq, rows_of_n_app in Hrow. unfold has_manual_review in Hk.
  rewrite (rows_of_n_absent _ _ _ Hk) in Hrow. cbn [app] in Hrow.
  apply rows_of_n_key in Hrow. destruct Hrow as [Hrow Hkey].
  apply Hadded, Hrows, manual_rows_In in Hrow.
  destruct Hrow as (tx & Hin & Hd & Hp).
  unfold manual_insert in Hp. cbn [manual_review_proposed] in Hp.
  destruct (conn _); [|discriminate].
  apply manual_review_values_row in Hp. subst row.
  unfold manual_review_key in Hkey. cbn [m_transaction_id m_user_id] in Hkey.
  destruct (transaction_id tx) as [t'|] eqn:Ht; [|discriminate].
  injection Hkey as ->.
  apply dedup_spec_In in Hin. exists tx. tauto.
Qed.

(** X10: what ingestion queues is what the manual-review route shows.
    After a run of the ingestion step that returned its counts, for a
    record of the batch that was new and decided manual, the answer of
    the manual-review route for the user holds the stored text of a
    record of the batch carrying that id. *)
Theorem ingested_manual_record_is_in_queue
    (conn : Connection) (pool : Pool) (now : Z) (txs : list Transaction) (u : Z)
    (db db' : Database) (r : Counts) (tx : Transaction) (t : string) :
  processTransactionsForCategorization conn now txs u db = (db', Fulfilled r) ->
  In tx txs -> transaction_id tx = Some t -> known_spec u db tx = false ->
  decision_spec tx = Manual ->
  pool (SelectManualReviewData u) = true ->
  exists body tx',
    get_manual_review pool u db' = Json body /\
    In tx' txs /\ transaction_id tx' = Some t /\ decision_spec tx' = Manual /\
    In (Some (json tx')) (review_transactions body).
Proof.
  intros Hrun Hin Ht Hk Hd Hpool.
  destruct (process_fulfilled_tables _ _ _ _ _ _ _ Hrun) as (_ & Hm & _ & Hman).
  assert (Hfresh : In tx (dedup_spec u db txs)) by now apply dedup_spec_In.
  assert (Hw : write_fails conn now (manual_insert u tx) = false).
  { apply (existsb_false_In _ _ _ Hm). apply in_map. now apply manual_transactions_In. }
  pose proof (manual_write_proposed _ _ _ _ _ _ Hfresh Hd Hw Ht) as Hrow.
  assert (Hhas : has_manual_review (u, t) db' = true).
  { unfold has_manual_review. rewrite Hman, insert_all_n_has, Hrow.
    apply Bool.orb_true_r. }
  destruct (known_spec_false _ _ _ _ Ht Hk) as [_ Hnone].
  destruct (rows_of_n_present manual_review_key (u, t) _ Hhas) as (row & Hrow').
  destruct (process_new_manual_review_rows _ _ _ _ _ _ _ _ _ Hrun Hnone Hrow')
    as (tx' & Hin' & Ht' & Hd' & Hrow_eq).
  unfold get_manual_review. rewrite Hpool. eexists. exists tx'.
  split; [reflexivity|]. repeat (split; [assumption|]).
  cbn [review_transactions]. apply in_map_iff. exists row.
  split; [now rewrite Hrow_eq|]. apply pending_rows_user.
  apply rows_of_n_key in Hrow'. destruct Hrow' as [Hrow' _].
  split; [assumption | now rewrite Hrow_eq].
Qed.

Lemma ingested_manual_record_is_in_queue_witness :
  exists body tx',
    get_manual_review Routes.reachable 1 Scenario.after_mixed_batch = Json body /\
    In tx' Scenario.mixed_batch /\ transaction_id tx' = Some "T3" /\
    decision_spec tx' = Manual /\
    In (Some (json tx')) (review_transactions body).
Proof.
  apply (ingested_manual_record_is_in_queue Scenario.online Routes.reachable 7
           Scenario.mixed_batch 1 Scenario.empty_db Scenario.after_mixed_batch
           {| autoCount := 1; manualCount := 2 |} Scenario.T3_plain "T3").
  - vm_compute. reflexivity.
  - right. right. left. reflexivity.
  - reflexivity.
  - reflexivity.
  - reflexivity.
  - reflexivity.
Defined.

(** ** Listing the categorizations *)

Lemma has_key_filter_user (u : Z) (t : string) (rows : list CategorizationRow) :
  has_key categorization_key (u, t)
    (List.filter (fun r => Z.eqb (c_user_id r) u) rows)
  = has_key categorization_key (u, t) rows.
Proof.
  unfold has_key. induction rows as [|r rows IH]; [reflexivity|].
  cbn [List.filter existsb]. destruct (Z.eqb (c_user_id r) u) eqn:E.
  - cbn [existsb]. now rewrite IH.
  - rewrite IH. unfold key_eqb at 2, categorization_key. cbn [fst snd]. now rewrite E.
Qed.

Lemma filter_user_upsert (u v : Z) (t : string) (row : CategorizationRow)
    (rows : list CategorizationRow) :
  categorization_key row = (u, t) ->
  List.filter (fun r => Z.eqb (c_user_id r) v)
    (insert_do_update categorization_key (overwrite_with row) row rows)
  = if Z.eqb u v
    then insert_do_update categorization_key (overwrite_with row) row
           (List.filter (fun r => Z.eqb (c_user_id r) v) rows)
    else List.filter (fun r => Z.eqb (c_user_id r) v) rows.
Proof.
  intros Hkey. unfold insert_do_update. rewrite Hkey.
  destruct (Z.eqb u v) eqn:Euv.
  - apply Z.eqb_eq in Euv. subst v. rewrite has_key_filter_user.
    destruct (has_key categorization_key (u, t) rows).
    + induction rows as [|r rows IH]; [reflexivity|].
      cbn [map List.filter].
      destruct (key_eqb (categorization_key r) (u, t)) eqn:E.
      * cbn [overwrite_with c_user_id]. destruct (Z.eqb (c_user_id r) u); [|exact IH].
        cbn [map]. rewrite E. f_equal. exact IH.
      * destruct (Z.eqb (c_user_id r) u); [|exact IH].
        cbn [map]. rewrite E. f_equal. exact IH.
    + rewrite List.filter_app. cbn [List.filter].
      replace (c_user_id row) with u by (now injection Hkey). now rewrite Z.eqb_refl.
  - destruct (has_key categorization_key (u, t) rows).
    + induction rows as [|r rows IH]; [reflexivity|].
      cbn [map List.filter].
      destruct (key_eqb (categorization_key r) (u, t)) eqn:E.
      * cbn [overwrite_with c_user_id]. apply key_eqb_eq in E.
        injection E as Eu _. rewrite Eu, Euv. exact IH.
      * destruct (Z.eqb (c_user_id r) v); [f_equal|]; exact IH.
    + rewrite List.filter_app. cbn [List.filter].
      replace (c_user_id row) with u by (now injection Hkey).
      rewrite Euv. apply app_nil_r.
Qed.

(** X11: explicit categorization as the listing shows it.  After a
    request answered with success, [GET /categorizations] answers for
    the user, up to the order of the rows, the former listing with the
    row answered upserted: the row with its id (the id of the request
    as the table stores it) takes its category, data and time when
    there is one, and the row is added when there is none; the listing
    of any other user holds the rows it held. *)
Theorem categorize_upserts_into_listing
    (conn : Connection) (pool : Pool) (now u v : Z) (body : CategorizeBody)
    (db db' : Database) (row : CategorizationRow) (before : list CategorizationRow) :
  categorize conn now u body db = (db', Fulfilled row) ->
  get_categorizations pool v db = Json before ->
  exists after,
    get_categorizations pool v db' = Json after /\
    Permutation after
      (if Z.eqb u v
       then insert_do_update categorization_key (overwrite_with row) row before
       else before).
Proof.
  intros Hrun Hlist. apply categorize_fulfilled_inv in Hrun.
  destruct Hrun as (t & c & t' & c' & Ht & Hc & _ & _ & Hrow & Hcat & _).
  assert (Hkey : categorization_key row = (u, t')) by now rewrite Hrow.
  unfold get_categorizations in *. destruct (pool CreateCategorizationsTable); [|discriminate].
  destruct (pool (SelectCategorizations v)); [|discriminate].
  injection Hlist as <-. eexists. split; [reflexivity|].
  rewrite Hcat, (filter_user_upsert u v t' row _ Hkey). reflexivity.
Qed.

Lemma categorize_upserts_into_listing_witness :
  exists after,
    get_categorizations Routes.reachable 1
      (fst (categorize Scenario.online 9 1
              {| body_transaction_id := Some "T1"; body_category := Some "Bonus";
                 body_plaid_data := None |} Scenario.T1_categorized))
    = Json after /\
    Permutation after
      [ {| c_user_id := 1; c_transaction_id := "T1"; c_category := "Bonus";
           c_plaid_data := None; c_created_at := 9 |} ].
Proof.
  exact (categorize_upserts_into_listing Scenario.online Routes.reachable 9 1 1
           {| body_transaction_id := Some "T1"; body_category := Some "Bonus";
              body_plaid_data := None |}
           Scenario.T1_categorized
           (fst (categorize Scenario.online 9 1
                   {| body_transaction_id := Some "T1"; body_category := Some "Bonus";
                      body_plaid_data := None |} Scenario.T1_categorized))
           {| c_user_id := 1; c_transaction_id := "T1"; c_category := "Bonus";
              c_plaid_data := None; c_created_at := 9 |}
           [Scenario.T1_row] eq_refl eq_refl).
Defined.

(** ** Linking and unlinking a bank *)

Lemma refresh_token_key (proposed old : BankRow) :
  bank_key (refresh_token proposed old) = bank_key old.
Proof. reflexivity. Qed.

Lemma exchange_fulfilled_inv (pool : Pool) (client : PlaidClient)
    (now nextval : Z) (public_token : option string)
    (u : Z) (user_banks banks' : list BankRow) :
  exchange_public_token pool client now nextval public_token u user_banks
  = (banks', Json tt) ->
  exists accessToken itemId token item,
    itemPublicTokenExchange client public_token = Some (accessToken, itemId) /\
    varchar 500 accessToken = Some token /\ varchar 255 itemId = Some item /\
    let row := {| b_id := nextval; b_user_id := u; b_item_id := item;
                  b_access_token := token;
                  b_institution_name := Some "Connected Bank";
                  b_created_at := now; b_updated_at := now |} in
    banks' = insert_do_update bank_key (refresh_token row) row user_banks.
Proof.
  unfold exchange_public_token.
  destruct (itemPublicTokenExchange client public_token) as [[accessToken itemId]|];
    [|discriminate].
  destruct (pool CreateUserBanksTable); [|discriminate].
  destruct (pool (UpsertUserBank _ _ _ _)); [|discriminate].
  destruct (bank_values now nextval u itemId accessToken "Connected Bank")
    as [row|] eqn:Hv; [|discriminate].
  intros [= <-]. unfold bank_values in Hv. cbn [varchar_not_null] in Hv.
  destruct (varchar 255 itemId) as [item|] eqn:Hi; [|discriminate].
  destruct (varchar 500 accessToken) as [token|] eqn:Ha; [|discriminate].
  replace (varchar 255 "Connected Bank") with (Some "Connected Bank") in Hv
    by (vm_compute; reflexivity).
  injection Hv as <-. exists accessToken, itemId, token, item. auto.
Qed.

Lemma map_insert_do_update_perm {A : Type} (f : BankRow -> A)
    (row : BankRow) (rows : list BankRow) :
  (forall old, f (refresh_token row old) = f old) ->
  has_key bank_key (bank_key row) rows = true ->
  map f (insert_do_update bank_key (refresh_token row) row rows) = map f rows.
Proof.
  intros Hf Hhas. unfold insert_do_update. rewrite Hhas, map_map.
  apply map_ext. intros old. now destruct (key_eqb _ _).
Qed.

(** X12: linking a bank keeps one connection per user and item.  After
    an exchange answered with success, the item the provider named has,
    under its id as the table stores it, a connection of the user, and
    every connection of the user for that item carries the new access
    token (as the table stores it) and the time of the exchange; when
    the item was already linked, the table holds as many rows as
    before, with the same ids, keys, institution names and creation
    times; when it was not, the table holds the rows it held and one
    new row with the next id; connections of other users or items are
    untouched, and keys that were unique stay unique.  All of this up
    to the order of the rows. *)
Theorem exchange_links_or_refreshes_connection
    (pool : Pool) (client : PlaidClient) (now nextval : Z)
    (public_token : option string) (u : Z) (user_banks banks' : list BankRow) :
  exchange_public_token pool client now nextval public_token u user_banks
  = (banks', Json tt) ->
  exists accessToken itemId token item,
    itemPublicTokenExchange client public_token = Some (accessToken, itemId) /\
    varchar 500 accessToken = Some token /\ varchar 255 itemId = Some item /\
    has_key bank_key (u, item) banks' = true /\
    (forall b, In b (rows_of bank_key (u, item) banks') ->
       b_access_token b = token /\ b_updated_at b = now) /\
    (has_key bank_key (u, item) user_banks = true ->
     Permutation
       (map (fun b => (b_id b, bank_key b, b_institution_name b, b_created_at b)) banks')
       (map (fun b => (b_id b, bank_key b, b_institution_name b, b_created_at b))
            user_banks)) /\
    (has_key bank_key (u, item) user_banks = false ->
     Permutation banks'
       ({| b_id := nextval; b_user_id := u; b_item_id := item;
           b_access_token := token;
           b_institution_name := Some "Connected Bank";
           b_created_at := now; b_updated_at := now |} :: user_banks)) /\
    (forall k, k <> (u, item) ->
       Permutation (rows_of bank_key k banks') (rows_of bank_key k user_banks)) /\
    (NoDup (map bank_key user_banks) -> NoDup (map bank_key banks')).
Proof.
  intros Hrun. apply exchange_fulfilled_inv in Hrun.
  destruct Hrun as (accessToken & itemId & token & item & Hex & Htok & Hitem & Hbanks).
  cbv zeta in Hbanks.
  exists accessToken, itemId, token, item. repeat (split; [assumption|]).
  set (row := {| b_id := nextval; b_user_id := u; b_item_id := item;
                 b_access_token := token;
                 b_institution_name := Some "Connected Bank";
                 b_created_at := now; b_updated_at := now |}) in *.
  assert (Hkey : bank_key row = (u, item)) by reflexivity.
  assert (Hkeys : map bank_key banks' = map bank_key (insert_do_nothing bank_key row user_banks)).
  { rewrite Hbanks. apply insert_do_update_keys. apply refresh_token_key. }
  split; [|split; [|split; [|split; [|split]]]].
  - rewrite (has_key_map_key _ _ _ _ Hkeys), insert_do_nothing_has, Hkey, key_eqb_refl.
    apply Bool.orb_true_r.
  - intros b Hb. apply rows_of_key in Hb. destruct Hb as [Hb Hk].
    rewrite Hbanks in Hb. unfold insert_do_update in Hb. rewrite Hkey in Hb.
    destruct (has_key bank_key (u, item) user_banks) eqn:Hh.
    + apply in_map_iff in Hb. destruct Hb as (old & Hold & _).
      destruct (key_eqb (bank_key old) (u, item)) eqn:E.
      * subst b. split; reflexivity.
      * subst b. apply key_eqb_neq in E. contradiction.
    + apply in_app_iff in Hb. destruct Hb as [Hb|[<-|[]]]; [|split; reflexivity].
      assert (Hin : In (u, item) (map bank_key user_banks))
        by (rewrite <- Hk; now apply in_map).
      apply has_key_In in Hin. congruence.
  - intros Hhas. rewrite Hbanks, map_insert_do_update_perm; [reflexivity| |].
    + intros old. reflexivity.
    + now rewrite Hkey.
  - intros Hhas. rewrite Hbanks. unfold insert_do_update. rewrite Hkey, Hhas.
    rewrite Permutation_app_comm. reflexivity.
  - intros k Hk. rewrite Hbanks, insert_do_update_rows_of_other; [reflexivity| |].
    + apply refresh_token_key.
    + rewrite Hkey. congruence.
  - intros Hnd. rewrite Hkeys. now apply insert_do_nothing_NoDup.
Qed.

Lemma exchange_links_or_refreshes_connection_witness :
  exists accessToken itemId token item,
    itemPublicTokenExchange Routes.client (Some "public") = Some (accessToken, itemId) /\
    varchar 500 accessToken = Some token /\ varchar 255 itemId = Some item /\
    has_key bank_key (1, item)
      (fst (exchange_public_token Routes.reachable Routes.client 9 13 (Some "public")
              1 Routes.three_banks)) = true.
Proof.
  destruct (exchange_links_or_refreshes_connection Routes.reachable Routes.client
              9 13 (Some "public") 1 Routes.three_banks
              (fst (exchange_public_token Routes.reachable Routes.client 9 13
                      (Some "public") 1 Routes.three_banks)) eq_refl)
    as (accessToken & itemId & token & item & Hex & Htok & Hitem & Hhas & _).
  exists accessToken, itemId, token, item. auto.
Defined.

Lemma int4_Some (n m : Z) : int4 n = Some m -> m = n.
Proof. unfold int4. destruct (_ && _)%bool; congruence. Qed.

(** What the handler does with a value that is no connection of the
    user. *)
Lemma disconnect_bank_foreign
    (pool : Pool) (client : PlaidClient) (bankId : option Z) (u : Z)
    (user_banks : list BankRow) :
  (forall id b, bankId = Some id -> In b user_banks -> b_id b = id -> b_user_id b <> u) ->
  exists reply,
    disconnect_bank pool client bankId u user_banks = (user_banks, None, reply) /\
    reply <> Json tt /\
    (pool (SelectBank bankId u) = true -> bankId <> None -> reply = NotFound) /\
    (bankId = None -> reply = ServerError).
Proof.
  intros Hforeign. unfold disconnect_bank.
  destruct (pool (SelectBank bankId u)).
  - destruct bankId as [id|].
    + destruct (List.filter (is_bank id u) user_banks) as [|bank l] eqn:E.
      * exists NotFound. split; [reflexivity|]. split; [discriminate|].
        split; [auto | discriminate].
      * exfalso. assert (Hin : In bank (List.filter (is_bank id u) user_banks))
          by (rewrite E; now left).
        apply filter_In in Hin. destruct Hin as [Hin Hb]. unfold is_bank in Hb.
        apply Bool.andb_true_iff in Hb. destruct Hb as [Hid Hu].
        apply Z.eqb_eq in Hid, Hu. exact (Hforeign id bank eq_refl Hin Hid Hu).
    + exists ServerError. split; [reflexivity|]. split; [discriminate|].
      split; [congruence | reflexivity].
  - exists ServerError. split; [reflexivity|]. split; [discriminate|].
    split; [discriminate | reflexivity].
Qed.

(** X13: a user cannot disconnect a bank that is not theirs.  When no
    connection with the given id belongs to the user, the route leaves
    the table as it is and does not ask the provider to remove
    anything; it never answers success; it answers 404 when the id is
    an integer of the 32-bit range and its lookup is carried, and 500
    when the id is an integer out of that range or no integer. *)
Theorem disconnect_refuses_foreign_bank
    (pool : Pool) (client : PlaidClient) (param : option Z) (u : Z)
    (user_banks : list BankRow) :
  (forall id b, param = Some id -> In b user_banks -> b_id b = id -> b_user_id b <> u) ->
  exists reply,
    delete_bank pool client param u user_banks = (user_banks, None, reply) /\
    reply <> Json tt /\
    (forall id, param = Some id -> -2147483648 <= id <= 2147483647 ->
       pool (SelectBank (Some id) u) = true -> reply = NotFound) /\
    (forall id, param = Some id -> ~ -2147483648 <= id <= 2147483647 ->
       reply = ServerError) /\
    (param = None -> reply = ServerError).
Proof.
  intros Hforeign. unfold delete_bank.
  destruct (disconnect_bank_foreign pool client
              (match param with Some n => int4 n | None => None end) u user_banks)
    as (reply & Hrun & Hno & Hnf & Herr).
  { intros id b Hid. destruct param as [n|]; [|discriminate].
    apply int4_Some in Hid. subst id. now apply Hforeign. }
  exists reply. split; [assumption|]. split; [assumption|]. split; [|split].
  - intros id -> Hrange Hsel.
    assert (E : int4 id = Some id).
    { unfold int4. replace (_ && _)%bool with true; [reflexivity|]. symmetry.
      apply Bool.andb_true_iff. split; apply Z.leb_le; lia. }
    rewrite E in Hnf. apply Hnf; [assumption | discriminate].
  - intros id -> Hrange. apply Herr. unfold int4.
    destruct (_ && _)%bool eqn:E; [|reflexivity].
    apply Bool.andb_true_iff in E. destruct E as [E1 E2].
    apply Z.leb_le in E1, E2. lia.
  - intros ->. now apply Herr.
Qed.

Lemma disconnect_refuses_foreign_bank_witness :
  delete_bank Routes.reachable Routes.client (Some 11) 1 Routes.three_banks
  = (Routes.three_banks, None, NotFound).
Proof.
  destruct (disconnect_refuses_foreign_bank Routes.reachable Routes.client (Some 11) 1
              Routes.three_banks) as (reply & Hrun & _ & Hnf & _).
  - intros id b [= <-] Hin Hid. cbn in Hin.
    destruct Hin as [<-|[<-|[<-|[]]]]; cbn in *; congruence.
  - rewrite Hrun. rewrite (Hnf 11); [reflexivity | reflexivity | lia | reflexivity].
Defined.

(** X14: disconnecting an own bank.  When the user has a connection
    with the given id and the two statements are carried, the handler
    answers success whatever the provider answers to the removal: it
    has asked the provider to remove the item of a connection with that
    id of the user, and the table afterwards holds exactly the rows
    that are not that connection, in their order.  When the delete is
    not carried the provider has been asked all the same, and the table
    is unchanged. *)
Theorem disconnect_removes_own_bank
    (pool : Pool) (client : PlaidClient) (id u : Z)
    (user_banks : list BankRow) (bank : BankRow) :
  In bank user_banks -> b_id bank = id -> b_user_id bank = u ->
  pool (SelectBank (Some id) u) = true ->
  exists owned,
    In owned user_banks /\ b_id owned = id /\ b_user_id owned = u /\
    disconnect_bank pool client (Some id) u user_banks
    = if pool (DeleteBank (Some id) u)
      then (List.filter (fun b => negb (is_bank id u b)) user_banks,
            Some (b_access_token owned), Json tt)
      else (user_banks, Some (b_access_token owned), ServerError).
Proof.
  intros Hin Hid Hu Hsel. unfold disconnect_bank. rewrite Hsel.
  destruct (List.filter (is_bank id u) user_banks) as [|owned l] eqn:E.
  - exfalso. assert (H : In bank (List.filter (is_bank id u) user_banks)).
    { apply filter_In. split; [assumption|]. unfold is_bank.
      apply Bool.andb_true_iff. split; now apply Z.eqb_eq. }
    rewrite E in H. destruct H.
  - assert (H : In owned (List.filter (is_bank id u) user_banks))
      by (rewrite E; now left).
    apply filter_In in H. destruct H as [Ho Hb]. unfold is_bank in Hb.
    apply Bool.andb_true_iff in Hb. destruct Hb as [Hoid Hou].
    apply Z.eqb_eq in Hoid, Hou. exists owned. repeat (split; [assumption|]).
    now destruct (pool (DeleteBank (Some id) u)).
Qed.

Lemma disconnect_removes_own_bank_witness :
  exists owned,
    In owned Routes.three_banks /\ b_id owned = 10 /\ b_user_id owned = 1 /\
    disconnect_bank Routes.reachable Routes.client (Some 10) 1 Routes.three_banks
    = (List.filter (fun b => negb (is_bank 10 1 b)) Routes.three_banks,
       Some (b_access_token owned), Json tt).
Proof.
  exact (disconnect_removes_own_bank Routes.reachable Routes.client 10 1
           Routes.three_banks (Routes.bank 10 1 "item-a" "token-a")
           (or_introl eq_refl) eq_refl eq_refl eq_refl).
Defined.

(** ** Accounts and holdings *)

Lemma fetch_accounts_spec (client : PlaidClient) (banks : list BankRow)
    (allAccounts : list AccountWithBank) (bankSummary : list BankSummary) :
  fetch_accounts client banks allAccounts bankSummary
  = ((allAccounts ++
      flat_map (fun bank =>
                  match accountsGet client (b_access_token bank) with
                  | Some accounts =>
                      map (fun account =>
                             {| awb_account := account; awb_bank_id := b_id bank;
                                awb_bank_name := b_institution_name bank;
                                awb_item_id := b_item_id bank |}) accounts
                  | None => []
                  end) banks)%list,
     (bankSummary ++
      omap (fun bank =>
              match accountsGet client (b_access_token bank) with
              | Some accounts =>
                  Some {| summary_bank_id := b_id bank;
                          summary_bank_name := b_institution_name bank;
                          account_count := List.length accounts;
                          summary_item_id := b_item_id bank |}
              | None => None
              end) banks)%list).
Proof.
  revert allAccounts bankSummary.
  induction banks as [|bank banks IH]; intros allAccounts bankSummary.
  - cbn. now rewrite !app_nil_r.
  - cbn [fetch_accounts flat_map omap list_omap].
    destruct (accountsGet client (b_access_token bank)) as [accounts|].
    + rewrite IH, <- !app_assoc. reflexivity.
    + apply IH.
Qed.

(** X15: the totals of [GET /accounts].  In an answer with accounts,
    [total_accounts] is the number of accounts answered and the sum of
    the [account_count] of the bank summaries; the summaries are those
    of the user's banks whose accounts call was answered, in order, so
    there are at most [total_banks] of them, [total_banks] counting
    every bank of the user; and every account answered carries the id
    of a bank of the user that delivered it. *)
Theorem accounts_totals_add_up
    (pool : Pool) (client : PlaidClient) (u : Z) (user_banks : list BankRow)
    (accs : list AccountWithBank) (sums : list BankSummary) (ta tb : nat) :
  get_accounts pool client u user_banks = Json (Accounts accs sums ta tb) ->
  ta = List.length accs /\
  ta = list_sum (map account_count sums) /\
  tb = List.length (banks_of u user_banks) /\
  map summary_bank_id sums
  = map b_id (List.filter (fun bank =>
                             match accountsGet client (b_access_token bank) with
                             | Some _ => true | None => false end)
                          (banks_of u user_banks)) /\
  (List.length sums <= tb)%nat /\
  (forall a, In a accs ->
     exists bank accounts,
       In bank (banks_of u user_banks) /\
       accountsGet client (b_access_token bank) = Some accounts /\
       In (awb_account a) accounts /\ awb_bank_id a = b_id bank).
Proof.
  unfold get_accounts. destruct (pool _); [|discriminate].
  destruct (banks_of u user_banks) as [|b0 bs] eqn:E; [discriminate|].
  rewrite <- E. destruct (Nat.eqb _ 0) eqn:El; [rewrite E in El; discriminate|].
  rewrite fetch_accounts_spec. cbn [app]. intros [= <- <- <- <-].
  generalize (banks_of u user_banks) as banks. clear. intros banks.
  split; [reflexivity|]. split; [|split; [reflexivity|split; [|split]]].
  - induction banks as [|bank banks IH]; [reflexivity|].
    cbn [flat_map omap list_omap].
    destruct (accountsGet client (b_access_token bank)) as [accounts|]; [|exact IH].
    rewrite length_app, length_map. cbn [map list_sum account_count]. now rewrite IH.
  - induction banks as [|bank banks IH]; [reflexivity|].
    cbn [omap list_omap List.filter].
    destruct (accountsGet client (b_access_token bank)); [|exact IH].
    cbn [map summary_bank_id]. now rewrite IH.
  - induction banks as [|bank banks IH]; [cbn; lia|].
    cbn [omap list_omap List.length].
    destruct (accountsGet client (b_access_token bank)); cbn [List.length]; lia.
  - intros a Ha. apply in_flat_map in Ha. destruct Ha as (bank & Hbank & Ha).
    destruct (accountsGet client (b_access_token bank)) as [accounts|] eqn:Hget;
      [|destruct Ha].
    apply in_map_iff in Ha. destruct Ha as (account & <- & Hacc).
    exists bank, accounts. auto.
Qed.

Lemma accounts_totals_add_up_witness :
  3%nat = list_sum (map account_count
            [ {| summary_bank_id := 10; summary_bank_name := Some "Connected Bank";
                 account_count := 2; summary_item_id := "item-a" |};
              {| summary_bank_id := 12; summary_bank_name := Some "Connected Bank";
                 account_count := 1; summary_item_id := "item-c" |} ]).
Proof.
  refine (proj1 (proj2 (accounts_totals_add_up Routes.reachable Routes.client 1
            Routes.three_banks _ _ 3 2 _))).
  vm_compute. reflexivity.
Defined.

Lemma find_security_Some (x : Security) (l : list Security) :
  (exists s, List.find (fun s => String.eqb (security_id s) (security_id x)) l = Some s)
  <-> In (security_id x) (map security_id l).
Proof.
  split.
  - intros (s & Hs). apply find_some in Hs. destruct Hs as [Hin E].
    apply String.eqb_eq in E. rewrite <- E. now apply in_map.
  - intros Hin. apply in_map_iff in Hin. destruct Hin as (s & E & Hin).
    destruct (List.find _ l) as [s'|] eqn:F; [eauto|].
    apply (find_none _ _ F) in Hin. cbn in Hin. rewrite E, String.eqb_refl in Hin.
    discriminate.
Qed.

(** The loop that adds the securities of a bank keeps the ids distinct,
    keeps what was there, and adds every id that was not there. *)
Lemma add_securities_ids (securities allSecurities : list Security) :
  NoDup (map security_id allSecurities) ->
  NoDup (map security_id (add_securities securities allSecurities)) /\
  (forall s, In s (add_securities securities allSecurities) ->
     In s allSecurities \/ In s securities) /\
  (forall x, In x (map security_id (add_securities securities allSecurities)) <->
     In x (map security_id allSecurities) \/ In x (map security_id securities)).
Proof.
  revert allSecurities. induction securities as [|sec rest IH]; intros allSecurities Hnd.
  - cbn. split; [assumption|]. split; [auto | tauto].
  - cbn [add_securities].
    destruct (List.find _ allSecurities) as [s'|] eqn:F.
    + destruct (IH _ Hnd) as (H1 & H2 & H3). split; [assumption|]. split.
      * intros s Hs. destruct (H2 s Hs); [now left | right; now right].
      * intros x. rewrite H3. cbn [map In].
        assert (Hin : In (security_id sec) (map security_id allSecurities))
          by (apply find_security_Some; eauto).
        split; [tauto|]. intros [H|[<-|H]]; tauto.
    + assert (Hnot : ~ In (security_id sec) (map security_id allSecurities)).
      { intros Hin. apply find_security_Some in Hin. destruct Hin as (s & Hs). congruence. }
      assert (Hnd' : NoDup (map security_id (allSecurities ++ [sec]))).
      { rewrite map_app. apply NoDup_app. split; [assumption|]. split.
        - intros x Hx Hx'. cbn in Hx'. apply list_elem_of_In in Hx, Hx'.
          destruct Hx' as [<-|[]]. contradiction.
        - cbn. apply NoDup_singleton. }
      destruct (IH _ Hnd') as (H1 & H2 & H3). split; [assumption|]. split.
      * intros s Hs. destruct (H2 s Hs) as [H|H]; [|right; now right].
        apply in_app_iff in H. destruct H as [H|[<-|[]]]; [now left | right; now left].
      * intros x. rewrite H3, map_app, in_app_iff. cbn [map In]. tauto.
Qed.

Lemma fetch_holdings_securities (client : PlaidClient) (banks : list BankRow)
    (allHoldings : list HoldingWithInfo) (allSecurities : list Security) :
  NoDup (map security_id allSecurities) ->
  let secs := snd (fetch_holdings client banks allHoldings allSecurities) in
  NoDup (map security_id secs) /\
  (forall s, In s secs ->
     In s allSecurities \/
     exists bank data, In bank banks /\ bank_holdings client bank = Some data /\
                       In s (or_empty (securities data))) /\
  (forall x, In x (map security_id secs) <->
     In x (map security_id allSecurities) \/ In x (delivered_security_ids client banks)).
Proof.
  cbv zeta. revert allHoldings allSecurities.
  induction banks as [|bank banks IH]; intros allHoldings allSecurities Hnd.
  - cbn. split; [assumption|]. split; [auto | tauto].
  - cbn [fetch_holdings delivered_security_ids flat_map]. unfold bank_holdings at 2.
    assert (Hskip : forall aH,
      bank_holdings client bank = None ->
      NoDup (map security_id (snd (fetch_holdings client banks aH allSecurities))) /\
      (forall s, In s (snd (fetch_holdings client banks aH allSecurities)) ->
         In s allSecurities \/
         exists bank0 data, In bank0 (bank :: banks) /\
                            bank_holdings client bank0 = Some data /\
                            In s (or_empty (securities data))) /\
      (forall x, In x (map security_id (snd (fetch_holdings client banks aH allSecurities))) <->
         In x (map security_id allSecurities) \/
         In x ([] ++ delivered_security_ids client banks)%list)).
    { intros aH _. destruct (IH aH _ Hnd) as (H1 & H2 & H3).
      split; [assumption|]. split; [|exact H3].
      intros s Hs. destruct (H2 s Hs) as [H|(b & d & Hb & Hd & Hin)]; [now left|].
      right. exists b, d. split; [now right | auto]. }
    destruct (accountsGet client (b_access_token bank)) as [accounts|] eqn:Hacc.
    + destruct (Nat.eqb (List.length (List.filter is_investment accounts)) 0) eqn:Hinv.
      * apply Hskip. unfold bank_holdings. now rewrite Hacc, Hinv.
      * destruct (investmentsHoldingsGet client (b_access_token bank)) as [data|] eqn:Hget.
        -- assert (Hbank : bank_holdings client bank = Some data)
             by (unfold bank_holdings; now rewrite Hacc, Hinv).
           destruct (add_securities_ids (or_empty (securities data)) _ Hnd)
             as (A1 & A2 & A3).
           destruct (IH (allHoldings ++ map (with_info bank accounts)
                                          (or_empty (holdings data)))%list _ A1)
             as (H1 & H2 & H3).
           split; [assumption|]. split.
           ++ intros s Hs. destruct (H2 s Hs) as [H|(b & d & Hb & Hd & Hin)].
              ** destruct (A2 s H) as [H'|H']; [now left|].
                 right. exists bank, data. split; [now left | auto].
              ** right. exists b, d. split; [now right | auto].
           ++ intros x. rewrite H3, A3, in_app_iff. tauto.
        -- apply Hskip. unfold bank_holdings. now rewrite Hacc, Hinv.
    + apply Hskip. unfold bank_holdings. now rewrite Hacc.
Qed.

(** X16: the securities of [GET /holdings] are listed once each.  In
    the answer no two securities share a [security_id]; the ids listed
    are exactly the ids delivered by the user's banks that answered the
    accounts call with an investment account and then the holdings
    call; each security listed is one such a bank delivered; and the two
    totals are the lengths of the two lists. *)
Theorem holdings_answer_lists_each_security_once
    (pool : Pool) (client : PlaidClient) (u : Z) (user_banks : list BankRow)
    (body : HoldingsBody) :
  get_holdings pool client u user_banks = Json body ->
  NoDup (map security_id (body_securities body)) /\
  (forall x, In x (map security_id (body_securities body)) <->
     In x (delivered_security_ids client (banks_of u user_banks))) /\
  (forall s, In s (body_securities body) ->
     exists bank data,
       In bank (banks_of u user_banks) /\ bank_holdings client bank = Some data /\
       In s (or_empty (securities data))) /\
  total_securities body = List.length (body_securities body) /\
  total_holdings body = List.length (body_holdings body).
Proof.
  unfold get_holdings. destruct (pool _); [|discriminate].
  destruct (Nat.eqb (List.length (banks_of u user_banks)) 0) eqn:E.
  - intros [= <-]. cbn. destruct (banks_of u user_banks); [|discriminate].
    split; [apply NoDup_nil_2|]. split; [tauto|]. split; [intros s []|]. auto.
  - pose proof (fetch_holdings_securities client (banks_of u user_banks) [] []
                  (NoDup_nil_2 : NoDup (map security_id []))) as H.
    cbv zeta in H.
    destruct (fetch_holdings client (banks_of u user_banks) [] [])
      as [allHoldings allSecurities].
    cbn [snd] in H. destruct H as (H1 & H2 & H3).
    intros [= <-]. cbn [body_securities body_holdings total_securities total_holdings].
    split; [assumption|]. split; [|split; [|auto]].
    + intros x. rewrite H3. cbn. tauto.
    + intros s Hs. destruct (H2 s Hs) as [[]|H]. exact H.
Qed.

Lemma holdings_answer_lists_each_security_once_witness :
  NoDup (map security_id [Routes.share "s1"; Routes.share "s2"]).
Proof.
  refine (proj1 (holdings_answer_lists_each_security_once Routes.reachable
            Routes.client 1 Routes.three_banks
            {| body_holdings :=
                 [ {| hwi_holding := {| holding_account_id := "acc-2";
                                        holding_security_id := "s1";
                                        holding_json := "{}" |};
                      hwi_bank_id := 10; hwi_bank_name := Some "Connected Bank";
                      hwi_account_name := "Unknown Account";
                      hwi_account_type := "investment";
                      hwi_account_subtype := "brokerage" |} ];
               body_securities := [Routes.share "s1"; Routes.share "s2"];
               total_holdings := 1; total_securities := 2 |} _)).
  vm_compute. reflexivity.
Defined.

(** ** What a transactions route leaves behind *)

(** X17: no fetched transaction is lost.  After an answer of a
    transactions route with a summary, every transaction of the answer
    that has an id of at most 255 characters is known to the tables
    under it: it is categorized or it waits in the review queue of the
    user. *)
Theorem fetched_transactions_are_categorized_or_queued
    (pool : Pool) (conn : Connection) (client : PlaidClient) (now : Z)
    (start_date end_date : string)
    (u : Z) (user_banks : list BankRow) (db db' : Database)
    (ts : list Transaction) (accs : list Account) (sm : ProcessingSummary) :
  transactions_route pool conn client now start_date end_date u user_banks db
  = (db', Json (Fetched ts accs sm)) ->
  forall tx t, In tx ts ->
    transaction_id tx = Some t -> varchar 255 t = Some t ->
    has_categorization (u, t) db' = true \/ has_manual_review (u, t) db' = true.
Proof.
  intros Hrun tx t Hin Ht Hkept. apply transactions_route_inv in Hrun.
  destruct Hrun as (_ & _ & _ & counts & Hp & _).
  assert (Hk : known_spec u db' tx = true).
  { apply (process_fulfilled_all_known _ _ _ _ _ _ _ Hp tx Hin). intros _.
    unfold id_kept. rewrite Ht, Hkept. apply String.eqb_refl. }
  unfold known_spec in Hk. rewrite Ht in Hk. now apply Bool.orb_true_iff.
Qed.

Lemma fetched_transactions_are_categorized_or_queued_witness :
  has_categorization (1, "T3") Scenario.after_mixed_batch = true \/
  has_manual_review (1, "T3") Scenario.after_mixed_batch = true.
Proof.
  apply (fetched_transactions_are_categorized_or_queued Routes.reachable
           Scenario.online Routes.client 7 "2024-05-01" "2024-05-31" 1
           Routes.three_banks Scenario.empty_db Scenario.after_mixed_batch
           [Scenario.T1_income; Scenario.T2_food; Scenario.T3_plain]
           [Routes.checking; Routes.brokerage]
           {| total := 3; auto_categorized := 1; manual_review_added := 2 |}
           ltac:(vm_compute; reflexivity) Scenario.T3_plain "T3").
  - right. right. left. reflexivity.
  - reflexivity.
  - vm_compute. reflexivity.
Defined.

Lemma filter_insert_all_other {Row : Type} (key : Row -> Key) (p : Row -> bool)
    (rs rows : list Row) :
  (forall r, In r rs -> p r = false) ->
  List.filter p (insert_all key rs rows) = List.filter p rows.
Proof.
  intros Hrs. destruct (insert_all_extends key rs rows) as (added & -> & Hadded).
  rewrite List.filter_app. replace (List.filter p added) with (@nil Row).
  - apply app_nil_r.
  - symmetry. induction added as [|r added IH]; [reflexivity|].
    cbn [List.filter]. rewrite (Hrs r) by (apply Hadded; now left).
    apply IH. intros x Hx. apply Hadded. now right.
Qed.

(** The ingestion step writes rows of its user only. *)
Lemma process_other_users (conn : Connection) (now : Z)
    (txs : list Transaction) (u v : Z) (db db' : Database) (out : Outcome Counts) :
  v <> u ->
  processTransactionsForCategorization conn now txs u db = (db', out) ->
  List.filter (fun r => Z.eqb (c_user_id r) v) (transaction_categorizations db')
  = List.filter (fun r => Z.eqb (c_user_id r) v) (transaction_categorizations db) /\
  List.filter (fun r => Z.eqb (m_user_id r) v) (manual_review_transactions db')
  = List.filter (fun r => Z.eqb (m_user_id r) v) (manual_review_transactions db).
Proof.
  intros Hv Hrun.
  destruct (process_categorizations _ _ _ _ _ _ _ Hrun) as (rc & Hrc & ->).
  destruct (process_manual_reviews _ _ _ _ _ _ _ Hrun) as (rm & Hrm & ->).
  split; [apply filter_insert_all_other | apply filter_insert_all_n_other].
  - intros r Hr. apply Hrc, auto_rows_In in Hr.
    destruct Hr as (tx & category & _ & _ & Hp).
    cbn [categorization_proposed] in Hp. destruct (conn _); [|discriminate].
    apply categorization_values_row in Hp. destruct Hp as (t & c & _ & _ & ->).
    cbn [c_user_id]. apply Z.eqb_neq. congruence.
  - intros r Hr. apply Hrm, manual_rows_In in Hr.
    destruct Hr as (tx & _ & _ & Hp).
    unfold manual_insert in Hp. cbn [manual_review_proposed] in Hp.
    destruct (conn _); [|discriminate].
    apply manual_review_values_row in Hp. subst r.
    cbn [m_user_id]. apply Z.eqb_neq. congruence.
Qed.

(** X18: a transactions route of one user shows nothing to, and takes
    nothing from, another user.  Whatever it answers, the listing of
    categorizations and the review queue of every other user are
    afterwards what they were before. *)
Theorem transactions_route_leaves_other_users_alone
    (pool pool' : Pool) (conn : Connection) (client : PlaidClient) (now : Z)
    (start_date end_date : string)
    (u v : Z) (user_banks : list BankRow) (db db' : Database)
    (reply : Reply TransactionsBody) :
  v <> u ->
  transactions_route pool conn client now start_date end_date u user_banks db
  = (db', reply) ->
  get_categorizations pool' v db' = get_categorizations pool' v db /\
  get_manual_review pool' v db' = get_manual_review pool' v db.
Proof.
  intros Hv Hrun.
  assert (Hsame :
    List.filter (fun r => Z.eqb (c_user_id r) v) (transaction_categorizations db')
    = List.filter (fun r => Z.eqb (c_user_id r) v) (transaction_categorizations db) /\
    List.filter (fun r => Z.eqb (m_user_id r) v) (manual_review_transactions db')
    = List.filter (fun r => Z.eqb (m_user_id r) v) (manual_review_transactions db)).
  { unfold transactions_route in Hrun. destruct (pool _).
    - destruct (Nat.eqb _ 0).
      + injection Hrun as <- _. auto.
      + destruct (fetch_transactions _ _ _ _ _ _) as [ts accs].
        destruct (processTransactionsForCategorization conn now ts u db)
          as [db1 out] eqn:Hp.
        assert (db1 = db') as -> by (destruct out; now injection Hrun).
        exact (process_other_users _ _ _ _ _ _ _ _ Hv Hp).
    - injection Hrun as <- _. auto. }
  destruct Hsame as [Hc Hm].
  unfold get_categorizations, get_manual_review, pending_rows. now rewrite Hc, Hm.
Qed.

Lemma transactions_route_leaves_other_users_alone_witness :
  get_categorizations Routes.reachable 2 Scenario.after_mixed_batch
  = get_categorizations Routes.reachable 2 Scenario.empty_db.
Proof.
  refine (proj1 (transactions_route_leaves_other_users_alone Routes.reachable
            Routes.reachable Scenario.online Routes.client 7
            "2024-05-01" "2024-05-31" 1 2 Routes.three_banks Scenario.empty_db
            Scenario.after_mixed_batch
            (Json (Fetched [Scenario.T1_income; Scenario.T2_food; Scenario.T3_plain]
                     [Routes.checking; Routes.brokerage]
                     {| total := 3; auto_categorized := 1;
                        manual_review_added := 2 |})) _ _)).
  - discriminate.
  - vm_compute. reflexivity.
Defined.
